(** * A shallow embedding of the gem5 parameter-sweep scripts

    The two scripts [aca.py] and [run_utils.py] drive an external simulator
    over a grid of cache parameters and scrape one statistic per run from the
    text file the simulator leaves behind.  This development embeds the
    functions of both scripts and proves what they do on every input.

    Conventions of the embedding.
    - A Python [str] is a list of characters.  Characters are Rocq's 8-bit
      [ascii], read as the code points U+0000..U+00FF; the character classes
      below are the Unicode ones restricted to that range.
    - A Python call either returns or raises: [result].
    - Functions that touch the file system or start the simulator are state
      transformers over [world]; what they did stays in the world when they
      raise.
    - The simulator is an oracle: nothing is assumed about what it answers.
    - A Python [float] is kept symbolic ([pyfloat]): rounding, overflow of a
      quotient and the textual form of a float are outside the model.
    - Output on the terminal and wall-clock timing are not modelled. *)

From Stdlib Require Import String Ascii List ZArith NArith Bool Lia DecimalString.
From Stdlib Require DecimalPos.
Import ListNotations.

Set Implicit Arguments.

(** ** Results of Python calls *)

(** A Python string, as the list of its characters.  The characters are the
    code points up to U+00FF; there the decimal digits of [\d] and [int] are
    [0] to [9], and [str.isdigit] accepts three superscripts besides. *)
Definition str := list ascii.

Definition lit (s : string) : str := list_ascii_of_string s.

(** Exceptions the scripts can end with.  [Exception] and [ValueError] carry
    the message the source builds; the others are raised by the interpreter or
    its library and carry the datum that caused them. *)
Inductive exn : Type :=
| Exception (msg : str)
| ValueError (msg : str)
| IntLiteralError (text : str)      (* the ValueError of int(text) *)
| FloatLiteralError (text : str)    (* the ValueError of float(text) *)
| IndexError
| UnboundLocalError (name : str)
| ZeroDivisionError
| OverflowError
| TypeError
| AttributeError
| FileNotFoundError
| OSError
| KeyboardInterrupt
| CalledProcessError (returncode : Z) (cmd : list str)
| SystemExit.

Inductive result (A : Type) : Type :=
| Return (a : A)
| Raise (e : exn).

Arguments Return {A} a.
Arguments Raise {A} e.

Definition raises {A} (r : result A) : Prop := exists e, r = Raise e.

Definition bind_result {A B} (r : result A) (k : A -> result B) : result B :=
  match r with
  | Return a => k a
  | Raise e => Raise e
  end.

Declare Scope result_scope.
Delimit Scope result_scope with result.
Notation "x <- r ;; k" := (bind_result r (fun x => k))
  (at level 61, r at next level, right associativity) : result_scope.

(** A symbolic float: [TrueDiv a b] is the value of the true division [a / b]
    of two integers ([b] not zero, the quotient within the range of a float),
    [FloatOf t] the value of [float(t)]. *)
Inductive pyfloat : Type :=
| TrueDiv (a b : Z)
| FloatOf (text : str).

(** ** The string methods the scripts call *)

Module Py.

Definition code (c : ascii) : N := N_of_ascii c.

Definition between (lo hi : N) (c : ascii) : bool :=
  ((lo <=? code c) && (code c <=? hi))%N.

(** Decimal digits (category Nd): what [\d] matches and what [int] reads. *)
Definition is_decimal (c : ascii) : bool := between 48 57 c.

(** [str.isdigit] also accepts the superscripts two, three and one. *)
Definition isdigit_char (c : ascii) : bool :=
  is_decimal c || (code c =? 178)%N || (code c =? 179)%N || (code c =? 185)%N.

(** White space of [str.split] and [str.isspace]. *)
Definition isspace_char (c : ascii) : bool :=
  between 9 13 c || between 28 32 c || (code c =? 133)%N || (code c =? 160)%N.

(** White space [int] strips from both ends of its argument. *)
Definition int_space (c : ascii) : bool :=
  between 9 13 c || (code c =? 32)%N || (code c =? 133)%N || (code c =? 160)%N.

Definition isdigit (s : str) : bool :=
  match s with
  | [] => false
  | _ => forallb isdigit_char s
  end.

Fixpoint startswith (s p : str) : bool :=
  match p, s with
  | [], _ => true
  | _ :: _, [] => false
  | a :: p', b :: s' => Ascii.eqb a b && startswith s' p'
  end.

Definition endswith (s p : str) : bool := startswith (rev s) (rev p).

Fixpoint str_eqb (s t : str) : bool :=
  match s, t with
  | [], [] => true
  | a :: s', b :: t' => Ascii.eqb a b && str_eqb s' t'
  | _, _ => false
  end.

(** The slice [s[:-k]]. *)
Definition drop_last (k : nat) (s : str) : str := firstn (length s - k) s.

(** [s.split()]: the maximal runs of characters that are not white space. *)
Fixpoint split (s : str) : list str :=
  match s with
  | [] => []
  | c :: rest =>
      if isspace_char c then split rest
      else match rest with
           | [] => [[c]]
           | d :: _ =>
               if isspace_char d then [c] :: split rest
               else match split rest with
                    | f :: fs => (c :: f) :: fs
                    | [] => [[c]]
                    end
           end
  end.

(** [xs[i]] on a list. *)
Definition index {A} (xs : list A) (i : nat) : result A :=
  match nth_error xs i with
  | Some x => Return x
  | None => Raise IndexError
  end.

Definition lower_char (c : ascii) : ascii :=
  if between 65 90 c || between 192 214 c || between 216 222 c
  then ascii_of_N (code c + 32) else c.

Definition lower (s : str) : str := map lower_char s.

(** [str.upper].  The sharp s becomes "SS".  The micro sign and the y with
    diaeresis have their capitals outside this character range and are left
    as they are: neither they nor their capitals are letters of an
    architecture name or of a size pattern, the only things an upper-cased
    string is compared with. *)
Definition upper_char (c : ascii) : str :=
  if between 97 122 c || between 224 246 c || between 248 254 c
  then [ascii_of_N (code c - 32)]
  else if (code c =? 223)%N then lit "SS" else [c].

Definition upper (s : str) : str := flat_map upper_char s.

(** *** [int(text)] in base ten *)

Fixpoint lstrip_int (s : str) : str :=
  match s with
  | c :: r => if int_space c then lstrip_int r else s
  | [] => []
  end.

Definition strip_int (s : str) : str := rev (lstrip_int (rev (lstrip_int s))).

Definition digit_value (c : ascii) : Z := Z.of_N (code c - 48).

(** Digits with single underscores between them; [after_digit] tells whether
    the previous character was a digit. *)
Fixpoint int_digits (acc : Z) (after_digit : bool) (s : str) : option Z :=
  match s with
  | [] => if after_digit then Some acc else None
  | c :: r =>
      if is_decimal c then int_digits (10 * acc + digit_value c) true r
      else if Ascii.eqb c "_" then
             if after_digit then int_digits acc false r else None
           else None
  end.

Definition int (text : str) : result Z :=
  let body := strip_int text in
  let parsed :=
    match body with
    | "-"%char :: r => option_map Z.opp (int_digits 0 false r)
    | "+"%char :: r => int_digits 0 false r
    | _ => int_digits 0 false body
    end in
  match parsed with
  | Some z => Return z
  | None => Raise (IntLiteralError text)
  end.

(** [sep.join(xs)]. *)
Fixpoint join (sep : str) (xs : list str) : str :=
  match xs with
  | [] => []
  | x :: rest =>
      match rest with
      | [] => x
      | _ :: _ => x ++ sep ++ join sep rest
      end
  end.

(** The number a string of decimal digits denotes. *)
Definition decimal_value (ds : str) : Z :=
  fold_left (fun acc c => (10 * acc + digit_value c)%Z) ds 0%Z.

End Py.

(** ** Regular expressions

    The scripts validate sizes with [re.match] on a pattern of the shape
    [^body$].  Patterns are kept as data and matched with derivatives. *)

Module Re.

Inductive regex : Type :=
| Void
| Eps
| Class (p : ascii -> bool)
| Cat (r1 r2 : regex)
| Alt (r1 r2 : regex)
| Star (r : regex).

Definition Chr (c : ascii) : regex := Class (Ascii.eqb c).
Definition Plus (r : regex) : regex := Cat r (Star r).
Definition Opt (r : regex) : regex := Alt r Eps.

Fixpoint nullable (r : regex) : bool :=
  match r with
  | Void => false
  | Eps => true
  | Class _ => false
  | Cat r1 r2 => nullable r1 && nullable r2
  | Alt r1 r2 => nullable r1 || nullable r2
  | Star _ => true
  end.

Fixpoint deriv (c : ascii) (r : regex) : regex :=
  match r with
  | Void => Void
  | Eps => Void
  | Class p => if p c then Eps else Void
  | Cat r1 r2 =>
      if nullable r1 then Alt (Cat (deriv c r1) r2) (deriv c r2)
      else Cat (deriv c r1) r2
  | Alt r1 r2 => Alt (deriv c r1) (deriv c r2)
  | Star r1 => Cat (deriv c r1) (Star r1)
  end.

Fixpoint fullmatch (r : regex) (s : str) : bool :=
  match s with
  | [] => nullable r
  | c :: s' => fullmatch (deriv c r) s'
  end.

Definition newline : ascii := ascii_of_N 10.

(** [re.match("^body$", s)] succeeds when [body] spans the whole of [s], or
    the whole of [s] but a final newline: [$] also matches just before a
    newline that ends the string. *)
Definition match_anchored (body : regex) (s : str) : bool :=
  fullmatch (Cat body (Opt (Chr newline))) s.

(** The strings a pattern denotes. *)
Inductive lang : regex -> str -> Prop :=
| lang_eps : lang Eps []
| lang_class p c : p c = true -> lang (Class p) [c]
| lang_cat r1 r2 s1 s2 : lang r1 s1 -> lang r2 s2 -> lang (Cat r1 r2) (s1 ++ s2)
| lang_alt_l r1 r2 s : lang r1 s -> lang (Alt r1 r2) s
| lang_alt_r r1 r2 s : lang r2 s -> lang (Alt r1 r2) s
| lang_star_nil r : lang (Star r) []
| lang_star_app r s1 s2 : lang r s1 -> lang (Star r) s2 -> lang (Star r) (s1 ++ s2).

End Re.

(** ** The world outside the interpreter *)

(** One field of a line of a report.  A line is kept as the list of its
    fields; in the file they are joined by commas. *)
Inductive cell : Type :=
| CStr (s : str)
| CInt (z : Z)
| CNone
| CFloat (f : pyfloat).

Inductive event : Type :=
| Spawn (command : list str) (piped : bool)
| Terminate
| WriteRow (path : str) (row : list cell).

Definition files := str -> option str.

(** How a simulator process ends from where the script waits for it. *)
Inductive wait_outcome : Type :=
| Exited (returncode : Z)
| Interrupted.

(** What starting the simulator leads to: the executable cannot be started,
    or it runs, leaves the file system in some state and ends. *)
Inductive launch : Type :=
| LaunchFailed
| Launched (outcome : wait_outcome) (after : files).

Record world : Type := { fs : files; trace : list event }.

Definition M (A : Type) : Type := world -> result A * world.

Definition ret {A} (a : A) : M A := fun w => (Return a, w).
Definition raise {A} (e : exn) : M A := fun w => (Raise e, w).
Definition lift {A} (r : result A) : M A := fun w => (r, w).

Definition bind {A B} (m : M A) (k : A -> M B) : M B :=
  fun w =>
    match m w with
    | (Return a, w') => k a w'
    | (Raise e, w') => (Raise e, w')
    end.

Declare Scope io_scope.
Delimit Scope io_scope with io.
Notation "x <- m ;; k" := (bind m (fun x => k))
  (at level 61, m at next level, right associativity) : io_scope.
Notation "m ;; k" := (bind m (fun _ => k))
  (at level 61, right associativity) : io_scope.

(** A [for] loop whose body may raise: the first exception ends it. *)
Fixpoint for_each {A} (xs : list A) (body : A -> M unit) : M unit :=
  match xs with
  | [] => ret tt
  | x :: rest => bind (body x) (fun _ => for_each rest body)
  end.

Definition emit (e : event) : M unit :=
  fun w => (Return tt, {| fs := fs w; trace := trace w ++ [e] |}).

(** [open(path, "r")] followed by reading: the text of the file, as the text
    layer of Python hands it over (decoded, every line ending turned into a
    newline). *)
Definition open_read (path : str) : M str :=
  fun w =>
    match fs w path with
    | Some text => (Return text, w)
    | None => (Raise FileNotFoundError, w)
    end.

(** The successive results of [readline]: each line with its newline, the
    last one possibly without. *)
Fixpoint readlines (text : str) : list str :=
  match text with
  | [] => []
  | c :: rest =>
      if Ascii.eqb c Re.newline then [c] :: readlines rest
      else match readlines rest with
           | [] => [[c]]
           | l :: ls => (c :: l) :: ls
           end
  end.

Definition str_of_Z (z : Z) : str := lit (NilZero.string_of_int (Z.to_int z)).

(** [load name v]: reading the local variable [name], unbound when [v] is
    [None]. *)
Definition load {A} (name : string) (v : option A) : result A :=
  match v with
  | Some a => Return a
  | None => Raise (UnboundLocalError (lit name))
  end.

(** The least magnitude that no longer rounds to a float: half an ulp above
    the largest double. *)
Definition float_bound : Z := Eval vm_compute in (2 ^ 1024 - 2 ^ 970)%Z.

(** [a / b] on integers: the quotient rounded to the nearest float.  A zero
    divisor is refused first; a quotient that rounds beyond the largest float
    raises [OverflowError]. *)
Definition true_div (a b : Z) : result pyfloat :=
  if (b =? 0)%Z then Raise ZeroDivisionError
  else if (float_bound * Z.abs b <=? Z.abs a)%Z then Raise OverflowError
  else Return (TrueDiv a b).

Definition size_cell (size : option Z) : cell :=
  match size with
  | Some z => CInt z
  | None => CNone
  end.

Definition stat_cell (stat : option pyfloat) : cell :=
  match stat with
  | Some f => CFloat f
  | None => CNone
  end.

(** ** [subprocess] *)

Module Subprocess.
Section WithSimulator.

Variable simulator : list event -> files -> list str -> launch.

(** [subprocess.Popen(command, stdout=output, stderr=output)].  The script
    does nothing between starting the process and waiting for it, so the
    files the process leaves are installed here. *)
Definition Popen (command : list str) (piped : bool) : M wait_outcome :=
  fun w =>
    match simulator (trace w) (fs w) command with
    | LaunchFailed => (Raise OSError, w)
    | Launched outcome after =>
        (Return outcome,
         {| fs := after; trace := trace w ++ [Spawn command piped] |})
    end.

(** [process.wait()] returns the return code whatever it is; the only
    exception that can surface from it here is the user's interrupt. *)
Definition wait (process : wait_outcome) : result Z :=
  match process with
  | Exited returncode => Return returncode
  | Interrupted => Raise KeyboardInterrupt
  end.

End WithSimulator.

(** [repr] of a list of strings free of quotes, backslashes and control
    characters. *)
Definition repr_list (xs : list str) : str :=
  lit "[" ++ Py.join (lit ", ") (map (fun x => lit "'" ++ x ++ lit "'") xs)
  ++ lit "]".

End Subprocess.

(** ** [aca.py] *)

Module Aca.

Record Args : Type := {
  architectures : list str;
  benchmarks : list str;
  icache_sizes : list str;
  dcache_sizes : list str;
  benchmark_size : str;
  verbose : bool;
  output : str
}.

(** [^\d+(K|M)?B$] without its anchors. *)
Definition cache_size_pattern : Re.regex :=
  Re.Cat (Re.Plus (Re.Class Py.is_decimal))
    (Re.Cat (Re.Opt (Re.Alt (Re.Chr "K") (Re.Chr "M"))) (Re.Chr "B")).

Definition size_string_to_int (benchmark_size : str) : result (option Z) :=
  if Py.isdigit (Py.drop_last 1 benchmark_size)
     && Py.endswith benchmark_size (lit "B")
  then (n <- Py.int (Py.drop_last 1 benchmark_size) ;; Return (Some n))%result
  else if Py.isdigit (Py.drop_last 2 benchmark_size) then
    if Py.endswith benchmark_size (lit "kB")
    then (n <- Py.int (Py.drop_last 2 benchmark_size) ;;
          Return (Some (n * 1000)%Z))%result
    else if Py.endswith benchmark_size (lit "MB")
    then (n <- Py.int (Py.drop_last 2 benchmark_size) ;;
          Return (Some (n * 1000 * 1000)%Z))%result
    else Return None
  else Raise (ValueError (lit "Invalid benchmark_size: " ++ benchmark_size)).

(** The loop of [cpi] over the lines read, then the two tests after it. *)
Fixpoint cpi_loop (lines : list str) (instruction_count cycle_count : option Z)
  : result (option pyfloat) :=
  match lines with
  | [] =>
      (i <- load "instruction_count" instruction_count ;;
       if (i =? 0)%Z
       then Raise (Exception (lit "Could not find instruction count in stats.txt"))
       else
         c <- load "cycle_count" cycle_count ;;
         if (c =? 0)%Z
         then Raise (Exception (lit "Could not find cycle count in stats.txt"))
         else Return None)%result
  | line :: rest =>
      if Py.startswith line (lit "simInsts") then
        (field <- Py.index (Py.split line) 1 ;;
         n <- Py.int field ;;
         cpi_loop rest (Some n) cycle_count)%result
      else if Py.startswith line (lit "system.cpu.numCycles") then
        (field <- Py.index (Py.split line) 1 ;;
         c <- Py.int field ;;
         i <- load "instruction_count" instruction_count ;;
         q <- true_div c i ;;
         Return (Some q))%result
      else cpi_loop rest instruction_count cycle_count
  end.

Definition stats_path : str := lit "./m5out/stats.txt".

Definition cpi_of_text (text : str) : result (option pyfloat) :=
  match readlines text with
  | [] => Raise (Exception (lit "Empty stats.txt"))
  | lines => cpi_loop lines None None
  end.

Definition cpi : M (option pyfloat) :=
  (text <- open_read stats_path ;; lift (cpi_of_text text))%io.

Section WithSimulator.

Variable simulator : list event -> files -> list str -> launch.
Variable args : Args.

Definition susan_path : str := lit "./benchmarks/automotive/susan".

Definition susan_argument (kind flag : string) : str :=
  susan_path ++ lit "/input_" ++ benchmark_size args ++ lit ".pgm "
  ++ susan_path ++ lit "/output_" ++ benchmark_size args ++ lit "."
  ++ lit kind ++ lit ".pgm -" ++ lit flag.

Definition benchmark_binary (benchmark : str) : result (str * list str) :=
  if Py.str_eqb (Py.lower benchmark) (lit "susan") then
    Return (susan_path ++ lit "/susan",
            [susan_argument "smoothing" "s"; susan_argument "edges" "e";
             susan_argument "corners" "c"])
  else if Py.str_eqb (Py.lower benchmark) (lit "crc") then
    let telecomm_path := lit "./benchmarks/telecomm" in
    Return (telecomm_path ++ lit "/CRC32/crc",
            [telecomm_path ++ lit "/adpcm/data/" ++ benchmark_size args
             ++ lit ".pcm"])
  else Raise (Exception (lit "Invalid benchmark '" ++ benchmark ++ lit "'")).

Definition architecture_binary (architecture binary : str) : result str :=
  if Py.str_eqb (Py.upper architecture) (lit "ARM")
  then Return (binary ++ lit ".arm")
  else if negb (Py.str_eqb (Py.upper architecture) (lit "X86"))
  then Raise (Exception (lit "Invalid architecture '" ++ architecture ++ lit "'"))
  else Return binary.

Definition check_cache_sizes (icache_size dcache_size : str) : result unit :=
  if negb (Re.match_anchored cache_size_pattern (Py.upper icache_size))
  then Raise (Exception (lit "Invalid icache benchmark_size '" ++ icache_size
                         ++ lit "'"))
  else if negb (Re.match_anchored cache_size_pattern (Py.upper dcache_size))
  then Raise (Exception (lit "Invalid dcache benchmark_size '" ++ dcache_size
                         ++ lit "'"))
  else Return tt.

Definition command_line (architecture binary argument icache_size dcache_size : str)
  : list str :=
  [ lit "./gem5/build/" ++ Py.upper architecture ++ lit "/gem5.opt";
    lit "./gem5/configs/example/se.py";
    lit "--cmd=" ++ binary;
    lit "--options=" ++ argument;
    lit "--cpu-type=TimingSimpleCPU";
    lit "--caches";
    lit "--l1i_size=" ++ icache_size;
    lit "--l1d_size=" ++ dcache_size ].

(** The body of the loop over [arguments]: start the simulator, wait, and
    handle what [wait] raised. *)
Definition run_argument (command : list str) : M unit :=
  (process <- Subprocess.Popen simulator command (negb (verbose args)) ;;
   match Subprocess.wait process with
   | Return _ => ret tt
   | Raise (CalledProcessError returncode cmd) =>
       raise (Exception (lit "Command failed with return code "
                         ++ str_of_Z returncode ++ lit ": "
                         ++ Subprocess.repr_list cmd))
   | Raise KeyboardInterrupt => emit Terminate ;; raise SystemExit
   | Raise e => raise e
   end)%io.

Definition run_benchmark (architecture benchmark icache_size dcache_size : str)
  : M unit :=
  (chosen <- lift (benchmark_binary benchmark) ;;
   binary <- lift (architecture_binary architecture (fst chosen)) ;;
   lift (check_cache_sizes icache_size dcache_size) ;;
   for_each (snd chosen) (fun argument =>
     run_argument
       (command_line architecture binary argument icache_size dcache_size)))%io.

(** The body of the innermost loop of the script. *)
Definition sweep_point (architecture benchmark icache_size dcache_size : str)
  : M unit :=
  (run_benchmark architecture benchmark icache_size dcache_size ;;
   i <- lift (size_string_to_int icache_size) ;;
   d <- lift (size_string_to_int dcache_size) ;;
   c <- cpi ;;
   emit (WriteRow (output args)
           [CStr (Py.upper architecture); CStr (Py.lower benchmark);
            size_cell i; size_cell d; stat_cell c]))%io.

(** The four nested loops of the script. *)
Definition sweep : M unit :=
  for_each (architectures args) (fun architecture =>
  for_each (benchmarks args) (fun benchmark =>
  for_each (icache_sizes args) (fun icache_size =>
  for_each (dcache_sizes args) (fun dcache_size =>
    sweep_point architecture benchmark icache_size dcache_size)))).

End WithSimulator.

End Aca.

(** ** [run_utils.py] *)

Module RunUtils.

(** A value swept over: a size such as ["16kB"] or a number. *)
Inductive pyvalue : Type :=
| VStr (s : str)
| VInt (z : Z).

Definition str_of_value (v : pyvalue) : str :=
  match v with
  | VStr s => s
  | VInt z => str_of_Z z
  end.

(** The class [Variable].  A part holds the list of the values to sweep in
    [value], a single run holds one of them. *)
Record Variable_ (V : Type) : Type := {
  value : V;
  argument : str;
  name : str;
  units : option str
}.

(** The parsed command line. *)
Record Namespace : Type := {
  architectures : list str;
  benchmarks : list str;
  benchmark_size : str;
  gem5_path : str;
  verbose : bool
}.

(** The class [Part]; [output_file] is the path of the report the part
    writes to, [variables] the pair of variables it sweeps. *)
Record Part : Type := {
  part : str;
  output_file : str;
  variables : Variable_ (list pyvalue) * Variable_ (list pyvalue);
  statistic : str
}.

(** [part != "a"] where [part] is a [Part].  The class defines no comparison,
    so an instance differs from every string. *)
Definition Part_ne_str (p : Part) (s : str) : bool := true.

(** [^\d+(k|M)?B$] without its anchors. *)
Definition size_pattern : Re.regex :=
  Re.Cat (Re.Plus (Re.Class Py.is_decimal))
    (Re.Cat (Re.Opt (Re.Alt (Re.Chr "k") (Re.Chr "M"))) (Re.Chr "B")).

Definition size_string_to_int (size : str) : result (option Z) :=
  if Py.isdigit (Py.drop_last 1 size) && Py.endswith size (lit "B")
  then (n <- Py.int (Py.drop_last 1 size) ;; Return (Some n))%result
  else if Py.isdigit (Py.drop_last 2 size) then
    if Py.endswith size (lit "kB")
    then (n <- Py.int (Py.drop_last 2 size) ;; Return (Some (n * 1024)%Z))%result
    else if Py.endswith size (lit "MB")
    then (n <- Py.int (Py.drop_last 2 size) ;;
          Return (Some (n * 1024 * 1024)%Z))%result
    else Return None
  else Raise (ValueError (lit "Invalid size: " ++ size)).

Definition units_is (u : string) (units : option str) : bool :=
  match units with
  | Some s => Py.str_eqb s (lit u)
  | None => false
  end.

(** The body of the loop that validates the variables of a run. *)
Definition check_variable (variable : Variable_ pyvalue) : result unit :=
  if units_is "B" (units variable) then
    match value variable with
    | VInt _ => Raise TypeError
    | VStr text =>
        if negb (Re.match_anchored size_pattern text)
        then Raise (Exception (lit "Invalid " ++ name variable ++ lit " '"
                               ++ text ++ lit "'"))
        else
          (variable_size <- size_string_to_int text ;;
           match variable_size with
           | None => Raise TypeError
           | Some n =>
               if negb (negb (n =? 0)%Z && (Z.land n (n - 1) =? 0)%Z)
               then Raise (Exception (name variable ++ lit " '" ++ text
                                      ++ lit "' is not a power of 2"))
               else Return tt
           end)%result
    end
  else Return tt.

Section WithSimulator.

Variable simulator : list event -> files -> list str -> launch.

(** Which texts [float] accepts. *)
Variable is_float : str -> bool.

Variable arguments : Namespace.

Definition susan_option (type : string) : str :=
  let path := lit "benchmarks/susan" in
  path ++ lit "/input_" ++ benchmark_size arguments ++ lit ".pgm "
  ++ path ++ lit "/output_" ++ benchmark_size arguments ++ lit "."
  ++ lit type ++ lit ".pgm -" ++ firstn 1 (lit type).

Definition benchmark_binary (benchmark : str) : result (str * list str) :=
  if Py.str_eqb (Py.lower benchmark) (lit "dummy") then
    Return (lit "benchmarks/dummy/dummy", [lit ""])
  else if Py.str_eqb (Py.lower benchmark) (lit "susan") then
    Return (lit "benchmarks/susan/susan",
            map susan_option ["smoothing"; "edges"; "corners"]%string)
  else if Py.str_eqb (Py.lower benchmark) (lit "crc") then
    Return (lit "benchmarks/CRC32/crc",
            [lit "benchmarks/adpcm/data/" ++ benchmark_size arguments
             ++ lit ".pcm"])
  else Raise (Exception (lit "Invalid benchmark '" ++ benchmark ++ lit "'")).

Definition architecture_binary (architecture binary : str) : result str :=
  if Py.str_eqb (Py.upper architecture) (lit "ARM")
  then Return (binary ++ lit ".arm")
  else if negb (Py.str_eqb (Py.upper architecture) (lit "X86"))
  then Raise (Exception (lit "Invalid architecture '" ++ architecture ++ lit "'"))
  else Return binary.

Definition command_line (architecture binary option : str)
  (variables : list (Variable_ pyvalue)) (part : str) : list str :=
  [ gem5_path arguments ++ lit "/build/" ++ Py.upper architecture
    ++ lit "/gem5.opt";
    lit "--outdir=" ++ gem5_path arguments ++ lit "/m5out";
    gem5_path arguments ++ lit "/configs/example/se.py";
    lit "--cmd=" ++ binary;
    lit "--options=" ++ option;
    lit "--cpu-type=TimingSimpleCPU";
    lit "--caches" ]
  ++ map (fun variable =>
            lit "--" ++ argument variable ++ lit "="
            ++ str_of_value (value variable)) variables
  ++ (if Py.str_eqb part (lit "b")
      then [lit "--l1i_size=16kB"; lit "--l1d_size=16kB"]
      else []).

(** The body of the loop over [options]. *)
Definition run_option (command : list str) : M unit :=
  (process <- Subprocess.Popen simulator command (negb (verbose arguments)) ;;
   match Subprocess.wait process with
   | Return _ => ret tt
   | Raise KeyboardInterrupt => emit Terminate ;; raise SystemExit
   | Raise e => raise e
   end)%io.

Definition run_simulation (architecture benchmark : str)
  (variables : list (Variable_ pyvalue)) (part : str) : M unit :=
  (chosen <- lift (benchmark_binary benchmark) ;;
   binary <- lift (architecture_binary architecture (fst chosen)) ;;
   for_each variables (fun variable => lift (check_variable variable)) ;;
   for_each (snd chosen) (fun option =>
     run_option (command_line architecture binary option variables part)))%io.

Definition float (text : str) : result pyfloat :=
  if is_float text then Return (FloatOf text)
  else Raise (FloatLiteralError text).

(** The loop of [get_statistic] over the lines read, then the tests after
    it. *)
Fixpoint get_statistic_loop (statistic : str) (lines : list str)
  (instruction_count cycle_count : option Z) : result (option pyfloat) :=
  match lines with
  | [] =>
      if Py.str_eqb statistic (lit "cpi") then
        (i <- load "instruction_count" instruction_count ;;
         if (i =? 0)%Z
         then Raise (Exception
                       (lit "Could not find instruction count in stats.txt"))
         else
           c <- load "cycle_count" cycle_count ;;
           if (c =? 0)%Z
           then Raise (Exception (lit "Could not find cycle count in stats.txt"))
           else Return None)%result
      else if Py.str_eqb statistic (lit "overall_dcache_miss_rate") then
        Raise (Exception
                 (lit "Could not find overall dcache miss rate in stats.txt"))
      else Return None
  | line :: rest =>
      if Py.str_eqb statistic (lit "Cycles Per Instruction") then
        if Py.startswith line (lit "simInsts") then
          (field <- Py.index (Py.split line) 1 ;;
           n <- Py.int field ;;
           get_statistic_loop statistic rest (Some n) cycle_count)%result
        else if Py.startswith line (lit "system.cpu.numCycles") then
          (field <- Py.index (Py.split line) 1 ;;
           c <- Py.int field ;;
           i <- load "instruction_count" instruction_count ;;
           q <- true_div c i ;;
           Return (Some q))%result
        else get_statistic_loop statistic rest instruction_count cycle_count
      else if Py.str_eqb statistic (lit "Overall DCache Miss Rate") then
        if Py.startswith line
             (lit "system.cpu.dcache.overallMissRate::cpu.data")
        then (field <- Py.index (Py.split line) 1 ;;
              f <- float field ;;
              Return (Some f))%result
        else get_statistic_loop statistic rest instruction_count cycle_count
      else get_statistic_loop statistic rest instruction_count cycle_count
  end.

Definition stats_path (gem5_path : str) : str :=
  gem5_path ++ lit "/m5out/stats.txt".

Definition statistic_of_text (statistic text : str) : result (option pyfloat) :=
  match readlines text with
  | [] => Raise (Exception
                   (lit "Empty stats.txt, try using the --verbose flag to check simulation output"))
  | lines => get_statistic_loop statistic lines None None
  end.

Definition get_statistic (gem5_path statistic : str) : M (option pyfloat) :=
  (text <- open_read (stats_path gem5_path) ;;
   lift (statistic_of_text statistic text))%io.

(** One field of a row for a variable of the run. *)
Definition variable_cell (variable : Variable_ pyvalue) : result cell :=
  if units_is "B" (units variable) then
    match value variable with
    | VStr text =>
        (size <- size_string_to_int text ;; Return (size_cell size))%result
    | VInt _ => Raise TypeError
    end
  else
    match value variable with
    | VStr text => Return (CStr text)
    | VInt z => Return (CInt z)
    end.

Fixpoint variable_cells (variables : list (Variable_ pyvalue))
  : result (list cell) :=
  match variables with
  | [] => Return []
  | variable :: rest =>
      (c <- variable_cell variable ;;
       cs <- variable_cells rest ;;
       Return (c :: cs))%result
  end.

Definition with_value (v : Variable_ (list pyvalue)) (x : pyvalue)
  : Variable_ pyvalue :=
  {| value := x; argument := argument v; name := name v; units := units v |}.

(** The body of the innermost loop of [run_simulations]. *)
Definition sweep_point (p : Part) (architecture benchmark : str)
  (variable_value_0 variable_value_1 : pyvalue) : M unit :=
  let variables :=
    [ with_value (fst (variables p)) variable_value_0;
      with_value (snd (variables p)) variable_value_1 ] in
  (run_simulation architecture benchmark variables (part p) ;;
   cells <- lift (variable_cells variables) ;;
   stat <- get_statistic (gem5_path arguments) (statistic p) ;;
   emit (WriteRow (output_file p)
           ([CStr architecture; CStr benchmark] ++ cells ++ [stat_cell stat])))%io.

Definition part_architectures (p : Part) : result (list str) :=
  if Part_ne_str p (lit "a")
  then (first <- Py.index (architectures arguments) 0 ;; Return [first])%result
  else Return (architectures arguments).

(** The body of the loop over [parts]. *)
Definition sweep_part (p : Part) : M unit :=
  (architectures <- lift (part_architectures p) ;;
   for_each architectures (fun architecture =>
   for_each (benchmarks arguments) (fun benchmark =>
   for_each (value (fst (variables p))) (fun variable_value_0 =>
   for_each (value (snd (variables p))) (fun variable_value_1 =>
     sweep_point p architecture benchmark
       variable_value_0 variable_value_1)))))%io.

(** [parts] is the list [setup_parts] builds; the closing loop asks it for
    [values()], which a list does not have. *)
Definition run_simulations (parts : list Part) : M unit :=
  (for_each parts sweep_part ;; raise AttributeError)%io.

End WithSimulator.

End RunUtils.

(** ** [run_utils.py]: building the parts *)

Module Setup.

(** The fields of the parsed command line that [setup_parts] reads. *)
Record Options : Type := {
  parts : list str;
  icache_sizes : list str;
  dcache_sizes : list str;
  dcache_associativity : list Z;
  cacheline_sizes : list Z;
  output_directory : str;
  append : bool
}.

(** What [setup_parts] does to the files of the reports: it opens them, for
    appending or for writing from scratch, and writes their first line. *)
Inductive file_event : Type :=
| Opened (path : str) (for_append : bool)
| Written (path : str) (text : str).

(** [variable.name + (f"({variable.units})" if variable.units else "")]. *)
Definition column (variable : RunUtils.Variable_ (list RunUtils.pyvalue))
  : str :=
  RunUtils.name variable
  ++ match RunUtils.units variable with
     | Some (c :: u) => lit "(" ++ (c :: u) ++ lit ")"
     | _ => []
     end.

Definition header
  (variables : RunUtils.Variable_ (list RunUtils.pyvalue)
               * RunUtils.Variable_ (list RunUtils.pyvalue))
  (statistic : str) : str :=
  lit "Architecture,Benchmark,"
  ++ Py.join (lit ",") [column (fst variables); column (snd variables)]
  ++ lit "," ++ statistic ++ [Re.newline].

Section WithFiles.

(** Whether [open] succeeds on a path. *)
Variable openable : str -> bool.

Variable arguments : Options.

Definition part_path (part : str) : str :=
  output_directory arguments ++ lit "/part_" ++ part ++ lit ".csv".

Definition variables_a
  : RunUtils.Variable_ (list RunUtils.pyvalue)
    * RunUtils.Variable_ (list RunUtils.pyvalue) :=
  ({| RunUtils.value := map RunUtils.VStr (icache_sizes arguments);
      RunUtils.argument := lit "l1i_size";
      RunUtils.name := lit "ICache Size";
      RunUtils.units := Some (lit "B") |},
   {| RunUtils.value := map RunUtils.VStr (dcache_sizes arguments);
      RunUtils.argument := lit "l1d_size";
      RunUtils.name := lit "DCache Size";
      RunUtils.units := Some (lit "B") |}).

Definition variables_b
  : RunUtils.Variable_ (list RunUtils.pyvalue)
    * RunUtils.Variable_ (list RunUtils.pyvalue) :=
  ({| RunUtils.value := map RunUtils.VInt (dcache_associativity arguments);
      RunUtils.argument := lit "l1d_assoc";
      RunUtils.name := lit "DCache Associativity";
      RunUtils.units := None |},
   {| RunUtils.value := map RunUtils.VInt (cacheline_sizes arguments);
      RunUtils.argument := lit "cacheline_size";
      RunUtils.name := lit "Cacheline Size";
      RunUtils.units := None |}).

(** The [if part == "a": ... elif part == "b": ...] of the loop: it binds
    [variables] and [statistic], or leaves them as the previous turn of the
    loop left them ([None] when they are still unbound). *)
Definition choose (part : str)
  (bound : option (RunUtils.Variable_ (list RunUtils.pyvalue)
                   * RunUtils.Variable_ (list RunUtils.pyvalue) * str))
  : option (RunUtils.Variable_ (list RunUtils.pyvalue)
            * RunUtils.Variable_ (list RunUtils.pyvalue) * str) :=
  if Py.str_eqb part (lit "a")
  then Some (variables_a, lit "Cycles Per Instruction")
  else if Py.str_eqb part (lit "b")
  then Some (variables_b, lit "Overall DCache Miss Rate")
  else bound.

(** The loop of [setup_parts]: [built] is the list [parts] so far, [log] what
    has been done to the files. *)
Fixpoint setup_parts_loop (names : list str)
  (bound : option (RunUtils.Variable_ (list RunUtils.pyvalue)
                   * RunUtils.Variable_ (list RunUtils.pyvalue) * str))
  (built : list RunUtils.Part) (log : list file_event)
  : result (list RunUtils.Part) * list file_event :=
  match names with
  | [] => (Return built, log)
  | part :: rest =>
      if negb (openable (part_path part)) then (Raise OSError, log)
      else
        let opened := log ++ [Opened (part_path part) (append arguments)] in
        match choose part bound with
        | None => (Raise (UnboundLocalError (lit "variables")), opened)
        | Some (variables, statistic) =>
            setup_parts_loop rest (Some (variables, statistic))
              (built ++ [ {| RunUtils.part := part;
                             RunUtils.output_file := part_path part;
                             RunUtils.variables := variables;
                             RunUtils.statistic := statistic |} ])
              (if append arguments then opened
               else opened ++ [Written (part_path part)
                                 (header variables statistic)])
        end
  end.

Definition setup_parts : result (list RunUtils.Part) * list file_event :=
  setup_parts_loop (parts arguments) None [] [].

End WithFiles.

End Setup.

(** * Vocabulary of the statements *)

(** ** Lines of the statistics file *)

Definition is_insts (line : str) : bool := Py.startswith line (lit "simInsts").

Definition is_cycles (line : str) : bool :=
  Py.startswith line (lit "system.cpu.numCycles").

Definition is_miss_rate (line : str) : bool :=
  Py.startswith line (lit "system.cpu.dcache.overallMissRate::cpu.data").

(** [int(line.split()[1])]: the integer a labelled line carries. *)
Definition field_int (line : str) : result Z :=
  (field <- Py.index (Py.split line) 1 ;; Py.int field)%result.

(** Lines the loop of the CPI parser passes over without touching a
    variable. *)
Definition unlabelled (lines : list str) : Prop :=
  Forall (fun l => is_insts l = false /\ is_cycles l = false) lines.

(** Lines before the first [numCycles] line in which every [simInsts] line
    carries an integer. *)
Definition readable (lines : list str) : Prop :=
  Forall (fun l => is_cycles l = false /\
                   (is_insts l = true -> exists n, field_int l = Return n))
         lines.

(** The layout the CPI parser returns a value on: [l2] is the first
    [numCycles] line and carries [cycles]; [l1] is the last [simInsts] line
    before it and carries [insts]. *)
Record cpi_layout (lines pre mid post : list str) (l1 l2 : str)
  (insts cycles : Z) : Prop := {
  layout_lines : lines = pre ++ l1 :: mid ++ l2 :: post;
  layout_pre : readable pre;
  layout_l1 : is_insts l1 = true;
  layout_insts : field_int l1 = Return insts;
  layout_mid : unlabelled mid;
  layout_l2 : is_cycles l2 = true;
  layout_cycles : field_int l2 = Return cycles
}.

(** [a / b] is within the range of a float: its magnitude rounds to a finite
    double, that is, lies below [2 ^ 1024 - 2 ^ 970]. *)
Definition in_float_range (a b : Z) : Prop :=
  (Z.abs a < (2 ^ 1024 - 2 ^ 970) * Z.abs b)%Z.

Definition CPI : str := lit "Cycles Per Instruction".
Definition MISS_RATE : str := lit "Overall DCache Miss Rate".

(** ** Sizes *)

(** A two-character ending made of a digit, in the sense of [str.isdigit],
    and [B]. *)
Definition digit_then_B (suffix : str) : Prop :=
  exists c, Py.isdigit_char c = true /\ suffix = [c; "B"%char].

Definition decimal (ds : str) : Prop := ds <> [] /\ Forall (fun c => Py.is_decimal c = true) ds.

(** One or more digits, an optional [k], [K] or [M], then [B]. *)
Definition size_form : Re.regex :=
  Re.Cat (Re.Plus (Re.Class Py.is_decimal))
    (Re.Cat (Re.Opt (Re.Alt (Re.Alt (Re.Chr "k") (Re.Chr "K")) (Re.Chr "M")))
       (Re.Chr "B")).

(** One or more digits, an optional [K] or [M], then [B], and possibly one
    final newline. *)
Definition upper_size_form : Re.regex :=
  Re.Cat (Re.Plus (Re.Class Py.is_decimal))
    (Re.Cat (Re.Opt (Re.Alt (Re.Chr "K") (Re.Chr "M")))
       (Re.Cat (Re.Chr "B") (Re.Opt (Re.Chr Re.newline)))).

Definition power_of_two (n : Z) : Prop := exists k : nat, n = (2 ^ Z.of_nat k)%Z.

(** ** Traces of a sweep *)

(** [chunks_of P xs evs]: [evs] is made of one chunk of events per element of
    [xs], in order, the chunk of [x] satisfying [P x]. *)
Inductive chunks_of {A} (P : A -> list event -> Prop)
  : list A -> list event -> Prop :=
| chunks_nil : chunks_of P [] []
| chunks_cons x xs chunk evs :
    P x chunk -> chunks_of P xs evs -> chunks_of P (x :: xs) (chunk ++ evs).

(** The points of a sweep in the order of four nested loops, the first list
    outermost. *)
Definition grid {A B C D} (xs : list A) (ys : list B) (zs : list C) (ts : list D)
  : list (A * (B * (C * D))) :=
  flat_map (fun x => map (pair x)
    (flat_map (fun y => map (pair y)
       (flat_map (fun z => map (pair z) ts) zs)) ys)) xs.

(** What [aca.py] does at one point: it starts the simulator once for each
    argument string of the benchmark, then writes the row of the point. *)
Definition aca_point (args : Aca.Args) (p : str * (str * (str * str)))
  (chunk : list event) : Prop :=
  let '(architecture, (benchmark, (icache_size, dcache_size))) := p in
  exists chosen binary i d c,
    Aca.benchmark_binary args benchmark = Return chosen /\
    Aca.architecture_binary architecture (fst chosen) = Return binary /\
    Aca.size_string_to_int icache_size = Return i /\
    Aca.size_string_to_int dcache_size = Return d /\
    chunk =
      map (fun argument =>
             Spawn (Aca.command_line architecture binary argument
                      icache_size dcache_size) (negb (Aca.verbose args)))
          (snd chosen)
      ++ [WriteRow (Aca.output args)
            [CStr (Py.upper architecture); CStr (Py.lower benchmark);
             size_cell i; size_cell d; stat_cell c]].

(** What [run_utils.py] does at one point of a part. *)
Definition run_utils_point (arguments : RunUtils.Namespace) (p : RunUtils.Part)
  (point : str * (str * (RunUtils.pyvalue * RunUtils.pyvalue)))
  (chunk : list event) : Prop :=
  let '(architecture, (benchmark, (v0, v1))) := point in
  let variables :=
    [ RunUtils.with_value (fst (RunUtils.variables p)) v0;
      RunUtils.with_value (snd (RunUtils.variables p)) v1 ] in
  exists chosen binary cells stat,
    RunUtils.benchmark_binary arguments benchmark = Return chosen /\
    RunUtils.architecture_binary architecture (fst chosen) = Return binary /\
    RunUtils.variable_cells variables = Return cells /\
    chunk =
      map (fun option =>
             Spawn (RunUtils.command_line arguments architecture binary option
                      variables (RunUtils.part p))
                   (negb (RunUtils.verbose arguments)))
          (snd chosen)
      ++ [WriteRow (RunUtils.output_file p)
            ([CStr architecture; CStr benchmark] ++ cells ++ [stat_cell stat])].

(** ** Simulators *)

Definition oracle : Type := list event -> files -> list str -> launch.

(** Two simulators that behave alike but for the codes they exit with. *)
Definition same_but_codes (sim sim' : oracle) : Prop :=
  forall history disk command,
    match sim history disk command, sim' history disk command with
    | LaunchFailed, LaunchFailed => True
    | Launched (Exited _) after, Launched (Exited _) after' => after = after'
    | Launched Interrupted after, Launched Interrupted after' => after = after'
    | _, _ => False
    end.

(** A simulator that always exits with [returncode] and leaves [text] as every
    file. *)
Definition fixed_simulator (returncode : Z) (text : str) : oracle :=
  fun _ _ _ => Launched (Exited returncode) (fun _ => Some text).

Definition empty_world : world := {| fs := fun _ => None; trace := [] |}.

(** A world in which every path holds [text]. *)
Definition world_with (text : str) : world :=
  {| fs := fun _ => Some text; trace := [] |}.

Definition rows (evs : list event) : list (list cell) :=
  flat_map (fun e => match e with WriteRow _ row => [row] | _ => [] end) evs.

Definition spawns (evs : list event) : list (list str) :=
  flat_map (fun e => match e with Spawn command _ => [command] | _ => [] end) evs.

(** ** Sample inputs *)

(** The text of a file with the given lines, each ended by a newline. *)
Definition text_of_lines (ls : list string) : str :=
  flat_map (fun l => lit l ++ [Re.newline]) ls.

Definition stats_without_labels : str := text_of_lines ["foo"%string].

Definition stats_cycles_not_integer : str :=
  text_of_lines ["system.cpu.numCycles abc"%string].

(** The superscript two, a digit for [str.isdigit] but not for [int]. *)
Definition superscript_two : ascii := ascii_of_N 178.

Definition size_with_superscript : str :=
  ["1"%char; superscript_two; "B"%char].

Definition stats_cycles_only : str :=
  text_of_lines ["system.cpu.numCycles 5"%string].

Definition stats_zero_insts : str :=
  text_of_lines ["simInsts 0"; "system.cpu.numCycles 5"]%string.

Definition stats_complete : str :=
  text_of_lines
    ["---------- Begin Simulation Statistics ----------";
     "simInsts 2";
     "system.cpu.numCycles 5";
     "system.cpu.dcache.overallMissRate::cpu.data 0.05"]%string.

Definition any_float : str -> bool := fun _ => true.

Definition sample_args : Aca.Args :=
  {| Aca.architectures := [lit "X86"; lit "ARM"];
     Aca.benchmarks := [lit "crc"; lit "susan"];
     Aca.icache_sizes := [lit "16kB"];
     Aca.dcache_sizes := [lit "16kB"; lit "32kB"];
     Aca.benchmark_size := lit "small";
     Aca.verbose := false;
     Aca.output := lit "./out/results.csv" |}.

Definition sample_namespace : RunUtils.Namespace :=
  {| RunUtils.architectures := [lit "X86"; lit "ARM"];
     RunUtils.benchmarks := [lit "crc"];
     RunUtils.benchmark_size := lit "small";
     RunUtils.gem5_path := lit "gem5";
     RunUtils.verbose := false |}.

(** The instruction-cache size of a run of part a. *)
Definition icache_variable (size : string) : RunUtils.Variable_ RunUtils.pyvalue :=
  {| RunUtils.value := RunUtils.VStr (lit size);
     RunUtils.argument := lit "l1i_size";
     RunUtils.name := lit "ICache Size";
     RunUtils.units := Some (lit "B") |}.

(** Part b as [setup_parts] builds it. *)
Definition part_b (associativities cacheline_sizes : list Z) : RunUtils.Part :=
  {| RunUtils.part := lit "b";
     RunUtils.output_file := lit "out/results/part_b.csv";
     RunUtils.variables :=
       ({| RunUtils.value := map RunUtils.VInt associativities;
           RunUtils.argument := lit "l1d_assoc";
           RunUtils.name := lit "DCache Associativity";
           RunUtils.units := None |},
        {| RunUtils.value := map RunUtils.VInt cacheline_sizes;
           RunUtils.argument := lit "cacheline_size";
           RunUtils.name := lit "Cacheline Size";
           RunUtils.units := None |});
     RunUtils.statistic := MISS_RATE |}.

(** ** Outcomes of a run and of a sweep *)

(** How the loop that starts the simulator can end, given the [Spawn] events
    it has planned: all of them done and a normal return; or, at some
    process, an interrupt ([Terminate] follows its [Spawn], [SystemExit])
    or a failure to start it ([OSError], no [Spawn] for it); in both cases
    no later process is started. *)
Definition launch_outcome (planned : list event) (r : result unit)
  (evs : list event) : Prop :=
  (r = Return tt /\ evs = planned) \/
  (exists k, k < length planned /\
     ((r = Raise SystemExit /\ evs = firstn (S k) planned ++ [Terminate]) \/
      (r = Raise OSError /\ evs = firstn k planned))).

(** The row [aca.py] writes for a point. *)
Definition aca_row (p : str * (str * (str * str))) (row : list cell) : Prop :=
  let '(architecture, (benchmark, (icache_size, dcache_size))) := p in
  exists i d c,
    Aca.size_string_to_int icache_size = Return i /\
    Aca.size_string_to_int dcache_size = Return d /\
    row = [CStr (Py.upper architecture); CStr (Py.lower benchmark);
           size_cell i; size_cell d; stat_cell c].

(** The row [run_utils.py] writes for a point of a part. *)
Definition run_utils_row (p : RunUtils.Part)
  (point : str * (str * (RunUtils.pyvalue * RunUtils.pyvalue)))
  (row : list cell) : Prop :=
  let '(architecture, (benchmark, (v0, v1))) := point in
  exists cells stat,
    RunUtils.variable_cells
      [ RunUtils.with_value (fst (RunUtils.variables p)) v0;
        RunUtils.with_value (snd (RunUtils.variables p)) v1 ] = Return cells /\
    row = [CStr architecture; CStr benchmark] ++ cells ++ [stat_cell stat].

(** A simulator that runs the first [n] processes to their end and is
    interrupted at the next. *)
Definition interrupted_after (n : nat) (text : str) : oracle :=
  fun history _ _ =>
    if Nat.ltb (length (spawns history)) n
    then Launched (Exited 0) (fun _ => Some text)
    else Launched Interrupted (fun _ => Some text).

(** ** Default values of the command line *)

(** [range(lo, hi)]. *)
Definition range (lo hi : nat) : list nat := seq lo (hi - lo).

(** The f-string [f"{2**i}unit"]. *)
Definition power_size (unit : string) (i : nat) : str :=
  str_of_Z (2 ^ Z.of_nat i) ++ lit unit.

(** The default of [--icache_sizes] and of [--dcache_sizes] in [aca.py]:
    [[*[f"{2**i}B" for i in range(7, 10)], *[f"{2**i}KB" for i in range(9)]]]. *)
Definition aca_default_cache_sizes : list str :=
  map (power_size "B") (range 7 10) ++ map (power_size "KB") (range 0 9).

(** The defaults of [--icache_sizes] and [--dcache_sizes] in [run_utils.py]:
    [[f"{2**i}kB" for i in range(1, 6)]] and the same up to 7. *)
Definition run_utils_default_icache_sizes : list str :=
  map (power_size "kB") (range 1 6).

Definition run_utils_default_dcache_sizes : list str :=
  map (power_size "kB") (range 1 7).

(** A byte-unit variable of a run, as [run_simulations] builds it from a
    variable of part a. *)
Definition byte_variable (argument name size : str)
  : RunUtils.Variable_ RunUtils.pyvalue :=
  {| RunUtils.value := RunUtils.VStr size;
     RunUtils.argument := argument;
     RunUtils.name := name;
     RunUtils.units := Some (lit "B") |}.

(** ** The parts [setup_parts] is meant to build *)

(** The part of a known name. *)
Definition known_part (arguments : Setup.Options) (name : str) : RunUtils.Part :=
  {| RunUtils.part := name;
     RunUtils.output_file := Setup.part_path arguments name;
     RunUtils.variables :=
       if Py.str_eqb name (lit "a") then Setup.variables_a arguments
       else Setup.variables_b arguments;
     RunUtils.statistic :=
       if Py.str_eqb name (lit "a") then CPI else MISS_RATE |}.

(** What happens to the file of a part. *)
Definition part_file_events (arguments : Setup.Options) (name : str)
  : list Setup.file_event :=
  let p := known_part arguments name in
  Setup.Opened (RunUtils.output_file p) (Setup.append arguments)
  :: (if Setup.append arguments then []
      else [Setup.Written (RunUtils.output_file p)
              (Setup.header (RunUtils.variables p) (RunUtils.statistic p))]).

Definition sample_options (names : list string) (append : bool)
  : Setup.Options :=
  {| Setup.parts := map lit names;
     Setup.icache_sizes := run_utils_default_icache_sizes;
     Setup.dcache_sizes := run_utils_default_dcache_sizes;
     Setup.dcache_associativity := [1; 2; 4; 8; 16]%Z;
     Setup.cacheline_sizes := [16; 32; 64; 128]%Z;
     Setup.output_directory := lit "out/results";
     Setup.append := append |}.

(** * Facts about the string methods *)

Lemma str_eqb_eq (s t : str) : Py.str_eqb s t = true <-> s = t.
Proof.
  revert t; induction s as [|a s IH]; intros [|b t]; simpl; split;
    try congruence; try reflexivity.
  - intros H. apply andb_prop in H as [Hab Hst].
    apply Ascii.eqb_eq in Hab. apply IH in Hst. congruence.
  - intros H. injection H as -> ->.
    rewrite Ascii.eqb_refl. apply IH. reflexivity.
Qed.

Lemma str_eqb_refl (s : str) : Py.str_eqb s s = true.
Proof. apply str_eqb_eq. reflexivity. Qed.

Lemma startswith_app (p s : str) : Py.startswith (p ++ s) p = true.
Proof.
  induction p as [|a p IH]; simpl.
  - destruct s; reflexivity.
  - rewrite Ascii.eqb_refl. exact IH.
Qed.

Lemma startswith_inv (s p : str) :
  Py.startswith s p = true -> exists r, s = p ++ r.
Proof.
  revert s; induction p as [|a p IH]; intros s H.
  - exists s. reflexivity.
  - destruct s as [|b s]; simpl in H; [discriminate|].
    apply andb_prop in H as [Hab Hs]. apply Ascii.eqb_eq in Hab. subst b.
    destruct (IH _ Hs) as [r ->]. exists r. reflexivity.
Qed.

Lemma endswith_app (r p : str) : Py.endswith (r ++ p) p = true.
Proof. unfold Py.endswith. rewrite rev_app_distr. apply startswith_app. Qed.

Lemma endswith_inv (s p : str) :
  Py.endswith s p = true -> exists r, s = r ++ p.
Proof.
  unfold Py.endswith. intros H. apply startswith_inv in H as [r Hr].
  exists (rev r). rewrite <- (rev_involutive s), Hr, rev_app_distr.
  rewrite rev_involutive. reflexivity.
Qed.

Lemma drop_last_app (r p : str) : Py.drop_last (length p) (r ++ p) = r.
Proof.
  unfold Py.drop_last. rewrite length_app.
  replace (length r + length p - length p) with (length r + 0) by lia.
  rewrite firstn_app_2. simpl. apply app_nil_r.
Qed.

Lemma drop_last_split (k : nat) (s : str) :
  k <= length s ->
  s = Py.drop_last k s ++ skipn (length s - k) s /\
  length (skipn (length s - k) s) = k.
Proof.
  intros Hk. unfold Py.drop_last. split.
  - symmetry. apply firstn_skipn.
  - rewrite length_skipn. lia.
Qed.

Lemma is_decimal_isdigit (c : ascii) :
  Py.is_decimal c = true -> Py.isdigit_char c = true.
Proof. unfold Py.isdigit_char. intros ->. reflexivity. Qed.

Lemma decimal_isdigit (ds : str) : decimal ds -> Py.isdigit ds = true.
Proof.
  intros [Hne Hall]. destruct ds as [|c ds]; [congruence|].
  unfold Py.isdigit. apply forallb_forall. intros x Hx.
  apply is_decimal_isdigit. rewrite Forall_forall in Hall. auto.
Qed.

Lemma isdigit_app_false (s : str) (c : ascii) (t : str) :
  Py.isdigit_char c = false -> Py.isdigit (s ++ c :: t) = false.
Proof.
  intros Hc. unfold Py.isdigit.
  destruct (s ++ c :: t) eqn:E; [reflexivity|]. rewrite <- E.
  rewrite forallb_app. simpl. rewrite Hc. simpl. apply andb_false_r.
Qed.

Lemma isdigit_nil : Py.isdigit [] = false.
Proof. reflexivity. Qed.

(** A white-space character is not a decimal digit. *)
Lemma decimal_not_space (c : ascii) :
  Py.is_decimal c = true -> Py.int_space c = false.
Proof.
  unfold Py.is_decimal, Py.int_space, Py.between.
  intros H. apply andb_prop in H as [H1 H2].
  apply N.leb_le in H1, H2.
  repeat match goal with
  | |- context [(?a <=? ?b)%N] => destruct (N.leb_spec a b)
  | |- context [(?a =? ?b)%N] => destruct (N.eqb_spec a b)
  end; simpl; try reflexivity; lia.
Qed.

Lemma lstrip_int_decimal (c : ascii) (s : str) :
  Py.is_decimal c = true -> Py.lstrip_int (c :: s) = c :: s.
Proof. intros H. simpl. rewrite (decimal_not_space _ H). reflexivity. Qed.

Lemma strip_int_decimal (ds : str) : decimal ds -> Py.strip_int ds = ds.
Proof.
  intros [Hne Hall]. unfold Py.strip_int.
  destruct ds as [|c ds]; [congruence|].
  rewrite lstrip_int_decimal by (inversion Hall; assumption).
  assert (Hrev : Forall (fun c => Py.is_decimal c = true) (rev (c :: ds)))
    by (apply Forall_rev; exact Hall).
  destruct (rev (c :: ds)) as [|d r] eqn:E.
  - apply (f_equal (@length _)) in E. rewrite length_rev in E. discriminate.
  - rewrite lstrip_int_decimal by (inversion Hrev; assumption).
    rewrite <- E. apply rev_involutive.
Qed.

Lemma int_digits_decimal (ds : str) (acc : Z) (b : bool) :
  Forall (fun c => Py.is_decimal c = true) ds -> ds <> [] ->
  Py.int_digits acc b ds =
  Some (fold_left (fun a c => (10 * a + Py.digit_value c)%Z) ds acc).
Proof.
  revert acc b. induction ds as [|c ds IH]; intros acc b Hall Hne;
    [congruence|].
  inversion Hall as [|? ? Hc Hds]; subst. simpl. rewrite Hc.
  destruct ds as [|d ds'].
  - reflexivity.
  - apply IH; [assumption|discriminate].
Qed.

Lemma decimal_head (c : ascii) :
  Py.is_decimal c = true -> c <> "-"%char /\ c <> "+"%char.
Proof. split; intros ->; discriminate. Qed.

(** [int] reads a string of decimal digits as the number it denotes. *)
Lemma int_decimal (ds : str) :
  decimal ds -> Py.int ds = Return (Py.decimal_value ds).
Proof.
  intros Hd. unfold Py.int. rewrite (strip_int_decimal Hd).
  destruct Hd as [Hne Hall]. unfold Py.decimal_value.
  assert (E := int_digits_decimal 0 false Hall Hne).
  destruct ds as [|c ds]; [congruence|].
  inversion Hall as [|? ? Hc _]; subst.
  destruct (decimal_head _ Hc) as [Hm Hp].
  destruct c as [[] [] [] [] [] [] [] []]; try (rewrite E; reflexivity);
    congruence.
Qed.

(** * Size strings *)

Lemma drop_last_1 (r : str) (a : ascii) : Py.drop_last 1 (r ++ [a]) = r.
Proof. exact (drop_last_app r [a]). Qed.

Lemma drop_last_2 (r : str) (a b : ascii) : Py.drop_last 2 (r ++ [a; b]) = r.
Proof. exact (drop_last_app r [a; b]). Qed.

Lemma drop_last_1_of_2 (r : str) (a b : ascii) :
  Py.drop_last 1 (r ++ [a; b]) = r ++ [a].
Proof.
  change (r ++ [a; b]) with (r ++ [a] ++ [b]). rewrite app_assoc.
  apply drop_last_1.
Qed.

Lemma endswith_2 (r : str) (a b c d : ascii) :
  Py.endswith (r ++ [a; b]) [c; d] = Ascii.eqb d b && Ascii.eqb c a.
Proof.
  unfold Py.endswith. rewrite rev_app_distr. simpl.
  destruct (Ascii.eqb d b); [|reflexivity].
  destruct (Ascii.eqb c a); [|reflexivity].
  destruct (rev r); reflexivity.
Qed.

Lemma endswith_1 (r : str) (a c : ascii) :
  Py.endswith (r ++ [a]) [c] = Ascii.eqb c a.
Proof.
  unfold Py.endswith. rewrite rev_app_distr. simpl.
  destruct (Ascii.eqb c a); [|reflexivity].
  destruct (rev r); reflexivity.
Qed.

(** The conversion of [run_utils.py]: binary multiples. *)
Lemma run_utils_size_string_to_int_spec (ds : str) :
  decimal ds ->
  RunUtils.size_string_to_int (ds ++ lit "kB")
  = Return (Some (Py.decimal_value ds * 1024)%Z) /\
  RunUtils.size_string_to_int (ds ++ lit "MB")
  = Return (Some (Py.decimal_value ds * 1024 * 1024)%Z) /\
  RunUtils.size_string_to_int (ds ++ lit "B")
  = Return (Some (Py.decimal_value ds)).
Proof.
  intros Hd. pose proof (decimal_isdigit Hd) as Hdig.
  pose proof (int_decimal Hd) as Hint.
  unfold RunUtils.size_string_to_int. cbn [lit list_ascii_of_string].
  repeat split.
  - rewrite drop_last_1_of_2, drop_last_2.
    rewrite (isdigit_app_false ds "k" []) by reflexivity.
    rewrite Hdig, endswith_2, Hint. reflexivity.
  - rewrite drop_last_1_of_2, drop_last_2.
    rewrite (isdigit_app_false ds "M" []) by reflexivity.
    rewrite Hdig, !endswith_2, Hint. reflexivity.
  - rewrite drop_last_1, Hdig, endswith_1, Hint. reflexivity.
Qed.

(** The conversion of [aca.py]: decimal multiples. *)
Lemma aca_size_string_to_int_spec (ds : str) :
  decimal ds ->
  Aca.size_string_to_int (ds ++ lit "kB")
  = Return (Some (Py.decimal_value ds * 1000)%Z) /\
  Aca.size_string_to_int (ds ++ lit "MB")
  = Return (Some (Py.decimal_value ds * 1000 * 1000)%Z) /\
  Aca.size_string_to_int (ds ++ lit "B")
  = Return (Some (Py.decimal_value ds)).
Proof.
  intros Hd. pose proof (decimal_isdigit Hd) as Hdig.
  pose proof (int_decimal Hd) as Hint.
  unfold Aca.size_string_to_int. cbn [lit list_ascii_of_string].
  repeat split.
  - rewrite drop_last_1_of_2, drop_last_2.
    rewrite (isdigit_app_false ds "k" []) by reflexivity.
    rewrite Hdig, endswith_2, Hint. reflexivity.
  - rewrite drop_last_1_of_2, drop_last_2.
    rewrite (isdigit_app_false ds "M" []) by reflexivity.
    rewrite Hdig, !endswith_2, Hint. reflexivity.
  - rewrite drop_last_1, Hdig, endswith_1, Hint. reflexivity.
Qed.

(** C1.  For every string of decimal digits, [size_string_to_int] of
    [run_utils.py] returns the digits times 1024 for [kB], times 1024 * 1024
    for [MB], and unchanged for [B]; the function of [aca.py] returns the
    digits unchanged for [B] but multiplies by 1000 for [kB] and by
    1000 * 1000 for [MB]. *)
Theorem size_string_to_int_units (ds : str) :
  decimal ds ->
  (RunUtils.size_string_to_int (ds ++ lit "kB")
   = Return (Some (Py.decimal_value ds * 1024)%Z) /\
   RunUtils.size_string_to_int (ds ++ lit "MB")
   = Return (Some (Py.decimal_value ds * 1024 * 1024)%Z) /\
   RunUtils.size_string_to_int (ds ++ lit "B")
   = Return (Some (Py.decimal_value ds))) /\
  (Aca.size_string_to_int (ds ++ lit "kB")
   = Return (Some (Py.decimal_value ds * 1000)%Z) /\
   Aca.size_string_to_int (ds ++ lit "MB")
   = Return (Some (Py.decimal_value ds * 1000 * 1000)%Z) /\
   Aca.size_string_to_int (ds ++ lit "B")
   = Return (Some (Py.decimal_value ds))).
Proof.
  intros Hd. split.
  - apply run_utils_size_string_to_int_spec. exact Hd.
  - apply aca_size_string_to_int_spec. exact Hd.
Qed.

Lemma size_string_to_int_units_witness :
  (RunUtils.size_string_to_int (lit "16kB") = Return (Some 16384%Z) /\
   RunUtils.size_string_to_int (lit "16MB") = Return (Some 16777216%Z) /\
   RunUtils.size_string_to_int (lit "16B") = Return (Some 16%Z)) /\
  (Aca.size_string_to_int (lit "16kB") = Return (Some 16000%Z) /\
   Aca.size_string_to_int (lit "16MB") = Return (Some 16000000%Z) /\
   Aca.size_string_to_int (lit "16B") = Return (Some 16%Z)).
Proof.
  apply (@size_string_to_int_units (lit "16")).
  split; [discriminate|]. repeat constructor.
Defined.

Lemma isdigit_snoc (ds : str) (c : ascii) :
  Py.isdigit ds = true -> Py.isdigit (ds ++ [c]) = Py.isdigit_char c.
Proof.
  unfold Py.isdigit. destruct ds as [|d ds]; [discriminate|]. intros H.
  change (forallb Py.isdigit_char ((d :: ds) ++ [c]) = Py.isdigit_char c).
  rewrite forallb_app, H. simpl. apply andb_true_r.
Qed.

Lemma endswith_1_of_2 (r : str) (a b c : ascii) :
  Py.endswith (r ++ [a; b]) [c] = Ascii.eqb c b.
Proof.
  change (r ++ [a; b]) with (r ++ [a] ++ [b]). rewrite app_assoc.
  apply endswith_1.
Qed.

(** C9, refuted as stated: ["1²B"] minus its last two characters is the digit
    [1], its suffix is neither [kB] nor [MB], and both size patterns reject
    it; yet its text minus the last character passes [isdigit], so the first
    branch hands it to [int], and [size_string_to_int] ends in the
    [ValueError] of [int] instead of returning [None]. *)
Lemma superscript_digit_size_raises :
  Py.isdigit (Py.drop_last 2 size_with_superscript) = true /\
  Py.endswith size_with_superscript (lit "kB") = false /\
  Py.endswith size_with_superscript (lit "MB") = false /\
  Re.match_anchored RunUtils.size_pattern size_with_superscript = false /\
  Re.match_anchored Aca.cache_size_pattern (Py.upper size_with_superscript)
  = false /\
  Aca.size_string_to_int size_with_superscript
  = Raise (IntLiteralError ["1"%char; superscript_two]) /\
  RunUtils.size_string_to_int size_with_superscript
  = Raise (IntLiteralError ["1"%char; superscript_two]).
Proof. repeat split; reflexivity. Qed.

(** C9, amended.  Take a string whose text minus its last two characters is
    all digits, in the sense of [str.isdigit], and whose two-character suffix
    is neither [kB] nor [MB].  Unless the suffix is a digit followed by [B],
    [size_string_to_int] falls off its inner [if] and returns [None]; the
    [ValueError] of the last branch is not raised.  When the suffix is a
    digit followed by [B], the text minus its last character is handed to
    [int], whose value or [ValueError] is the outcome.  This holds for the
    function of both scripts. *)
Theorem size_string_to_int_unknown_unit_returns_None (ds suffix : str) :
  Py.isdigit ds = true ->
  length suffix = 2 ->
  suffix <> lit "kB" ->
  suffix <> lit "MB" ->
  (~ digit_then_B suffix ->
   Aca.size_string_to_int (ds ++ suffix) = Return None /\
   RunUtils.size_string_to_int (ds ++ suffix) = Return None) /\
  (forall c,
      Py.isdigit_char c = true -> suffix = [c; "B"%char] ->
      Aca.size_string_to_int (ds ++ suffix)
      = (n <- Py.int (ds ++ [c]) ;; Return (Some n))%result /\
      RunUtils.size_string_to_int (ds ++ suffix)
      = (n <- Py.int (ds ++ [c]) ;; Return (Some n))%result).
Proof.
  intros Hd Hlen Hk Hm.
  destruct suffix as [|a [|b [|x rest]]]; try discriminate Hlen.
  unfold Aca.size_string_to_int, RunUtils.size_string_to_int.
  cbn [lit list_ascii_of_string] in *.
  rewrite drop_last_1_of_2, drop_last_2, endswith_1_of_2, !endswith_2.
  rewrite (@isdigit_snoc ds a Hd), Hd.
  split.
  - intros Hno.
    assert (H1 : Py.isdigit_char a && Ascii.eqb "B" b = false).
    { destruct (Py.isdigit_char a) eqn:Ha; [|reflexivity].
      destruct (Ascii.eqb "B" b) eqn:Hb; [|reflexivity].
      exfalso. apply Hno. exists a. apply Ascii.eqb_eq in Hb. subst b. auto. }
    assert (H2 : Ascii.eqb "B" b && Ascii.eqb "k" a = false).
    { destruct (Ascii.eqb "B" b) eqn:Hb; [|reflexivity].
      destruct (Ascii.eqb "k" a) eqn:Ha; [|reflexivity].
      apply Ascii.eqb_eq in Ha, Hb. subst. congruence. }
    assert (H3 : Ascii.eqb "B" b && Ascii.eqb "M" a = false).
    { destruct (Ascii.eqb "B" b) eqn:Hb; [|reflexivity].
      destruct (Ascii.eqb "M" a) eqn:Ha; [|reflexivity].
      apply Ascii.eqb_eq in Ha, Hb. subst. congruence. }
    rewrite H1, H2, H3. split; reflexivity.
  - intros c Hc E. injection E as -> ->.
    rewrite Hc, Ascii.eqb_refl. split; reflexivity.
Qed.

Lemma size_string_to_int_unknown_unit_witness :
  Aca.size_string_to_int (lit "16GB") = Return None /\
  RunUtils.size_string_to_int (lit "16GB") = Return None.
Proof.
  apply (proj1 (@size_string_to_int_unknown_unit_returns_None
                  (lit "16") (lit "GB") eq_refl eq_refl
                  ltac:(discriminate) ltac:(discriminate))).
  intros (c & Hc & E). injection E as <-. discriminate Hc.
Defined.

(** A string of decimal digits followed by [B] is in the second case: the
    text minus its last two characters is all digits and the suffix is no
    unit, but the function returns the number. *)
Example size_12B_is_converted :
  Aca.size_string_to_int (lit "12B") = Return (Some 12%Z) /\
  RunUtils.size_string_to_int (lit "12B") = Return (Some 12%Z).
Proof. split; reflexivity. Qed.

(** ["16GB"] is rejected by the size patterns of both scripts. *)
Example size_16GB_matches_no_pattern :
  Re.match_anchored RunUtils.size_pattern (lit "16GB") = false /\
  Re.match_anchored Aca.cache_size_pattern (Py.upper (lit "16GB")) = false.
Proof. split; reflexivity. Qed.

(** * The statistics parsers *)

Lemma readlines_nonempty (text : str) : text <> [] -> readlines text <> [].
Proof.
  destruct text as [|c rest]; [congruence|]. intros _. simpl.
  destruct (Ascii.eqb c Re.newline); [discriminate|].
  destruct (readlines rest); discriminate.
Qed.

Lemma insts_not_cycles (line : str) :
  is_insts line = true -> is_cycles line = false.
Proof.
  unfold is_insts, is_cycles. intros H.
  apply startswith_inv in H as [r ->]. reflexivity.
Qed.

Lemma cpi_reads (w : world) (text : str) :
  fs w Aca.stats_path = Some text -> Aca.cpi w = (Aca.cpi_of_text text, w).
Proof.
  intros H. unfold Aca.cpi, bind, open_read, lift. rewrite H. reflexivity.
Qed.

Lemma get_statistic_reads (is_float : str -> bool) (gem5_path statistic : str)
  (w : world) (text : str) :
  fs w (RunUtils.stats_path gem5_path) = Some text ->
  RunUtils.get_statistic is_float gem5_path statistic w
  = (RunUtils.statistic_of_text is_float statistic text, w).
Proof.
  intros H. unfold RunUtils.get_statistic, bind, open_read, lift.
  rewrite H. reflexivity.
Qed.

(** ** True division *)

Lemma float_bound_value : float_bound = (2 ^ 1024 - 2 ^ 970)%Z.
Proof. vm_compute. reflexivity. Qed.

Lemma true_div_in_range (a b : Z) :
  b <> 0%Z -> in_float_range a b -> true_div a b = Return (TrueDiv a b).
Proof.
  unfold true_div, in_float_range. rewrite <- float_bound_value.
  intros Hz Hr. apply Z.eqb_neq in Hz. rewrite Hz.
  apply Z.leb_gt in Hr. rewrite Hr. reflexivity.
Qed.

Lemma true_div_returns (a b : Z) (q : pyfloat) :
  true_div a b = Return q ->
  q = TrueDiv a b /\ b <> 0%Z /\ in_float_range a b.
Proof.
  unfold true_div, in_float_range. rewrite <- float_bound_value.
  destruct (b =? 0)%Z eqn:Hz; [discriminate|].
  destruct (float_bound * Z.abs b <=? Z.abs a)%Z eqn:Hr; [discriminate|].
  intros H. injection H as <-. apply Z.eqb_neq in Hz. apply Z.leb_gt in Hr.
  auto.
Qed.

Lemma true_div_zero (a : Z) : true_div a 0 = Raise ZeroDivisionError.
Proof. reflexivity. Qed.

(** ** The loop of [cpi], one line at a time *)

Lemma cpi_loop_insts (line : str) (rest : list str) (i c : option Z) :
  is_insts line = true ->
  Aca.cpi_loop (line :: rest) i c
  = (n <- field_int line ;; Aca.cpi_loop rest (Some n) c)%result.
Proof.
  unfold is_insts, field_int. intros H. cbn [Aca.cpi_loop]. rewrite H.
  destruct (Py.index (Py.split line) 1); reflexivity.
Qed.

Lemma cpi_loop_cycles (line : str) (rest : list str) (i c : option Z) :
  is_cycles line = true ->
  Aca.cpi_loop (line :: rest) i c
  = (m <- field_int line ;;
     n <- load "instruction_count" i ;;
     q <- true_div m n ;;
     Return (Some q))%result.
Proof.
  intros H. unfold field_int.
  destruct (is_insts line) eqn:Hi.
  - rewrite (insts_not_cycles _ Hi) in H. discriminate.
  - unfold is_insts, is_cycles in *. cbn [Aca.cpi_loop]. rewrite Hi, H.
    destruct (Py.index (Py.split line) 1); reflexivity.
Qed.

Lemma cpi_loop_other (line : str) (rest : list str) (i c : option Z) :
  is_insts line = false -> is_cycles line = false ->
  Aca.cpi_loop (line :: rest) i c = Aca.cpi_loop rest i c.
Proof.
  unfold is_insts, is_cycles. intros Hi Hc. cbn [Aca.cpi_loop].
  rewrite Hi, Hc. reflexivity.
Qed.

Lemma cpi_loop_unlabelled (mid rest : list str) (i c : option Z) :
  unlabelled mid -> Aca.cpi_loop (mid ++ rest) i c = Aca.cpi_loop rest i c.
Proof.
  induction 1 as [|l mid [Hi Hc] _ IH]; [reflexivity|].
  rewrite <- app_comm_cons, cpi_loop_other by assumption. exact IH.
Qed.

Lemma cpi_loop_readable (pre rest : list str) (l1 : str) (n : Z)
  (c : option Z) :
  readable pre -> is_insts l1 = true -> field_int l1 = Return n ->
  forall i, Aca.cpi_loop (pre ++ l1 :: rest) i c
            = Aca.cpi_loop rest (Some n) c.
Proof.
  intros Hpre Hl1 Hn.
  induction Hpre as [|l pre [Hc Hok] _ IH]; intros i.
  - rewrite app_nil_l, cpi_loop_insts, Hn by assumption. reflexivity.
  - rewrite <- app_comm_cons. destruct (is_insts l) eqn:Hi.
    + destruct (Hok eq_refl) as [k Hk].
      rewrite cpi_loop_insts, Hk by assumption. apply IH.
    + rewrite cpi_loop_other by assumption. apply IH.
Qed.

(** On the layout, the loop ends at the [return] with the two counts. *)
Lemma cpi_loop_layout (lines pre mid post : list str) (l1 l2 : str)
  (insts cycles : Z) (i c : option Z) :
  cpi_layout lines pre mid post l1 l2 insts cycles ->
  Aca.cpi_loop lines i c
  = (q <- true_div cycles insts ;; Return (Some q))%result.
Proof.
  intros [-> Hpre Hl1 Hn Hmid Hl2 Hm].
  rewrite cpi_loop_readable with (n := insts) by assumption.
  rewrite cpi_loop_unlabelled by assumption.
  rewrite cpi_loop_cycles, Hm by assumption. reflexivity.
Qed.

(** Where no [simInsts] line precedes the first [numCycles] line, the loop
    reaches the [return] with the variable it started with. *)
Lemma cpi_loop_no_insts (pre post : list str) (l2 : str) (cycles : Z)
  (i c : option Z) :
  unlabelled pre -> is_cycles l2 = true -> field_int l2 = Return cycles ->
  Aca.cpi_loop (pre ++ l2 :: post) i c
  = (n <- load "instruction_count" i ;;
     q <- true_div cycles n ;;
     Return (Some q))%result.
Proof.
  intros Hpre Hl2 Hm. rewrite cpi_loop_unlabelled by assumption.
  rewrite cpi_loop_cycles, Hm by assumption. reflexivity.
Qed.

(** The loop returns only at the [return] statement, and then the last
    [simInsts] line before the first [numCycles] line carried a count that is
    not zero, or the count came from the state the loop started in. *)
Lemma cpi_loop_returns (lines : list str) :
  forall (i : option Z) (v : option pyfloat),
    Aca.cpi_loop lines i None = Return v ->
    exists insts cycles,
      v = Some (TrueDiv cycles insts) /\ insts <> 0%Z /\
      ((exists pre mid post l1 l2,
           cpi_layout lines pre mid post l1 l2 insts cycles) \/
       (i = Some insts /\
        exists mid post l2,
          lines = mid ++ l2 :: post /\ unlabelled mid /\
          is_cycles l2 = true /\ field_int l2 = Return cycles)).
Proof.
  induction lines as [|line rest IH]; intros i v H.
  - simpl in H. destruct i as [n|]; simpl in H; [|discriminate].
    destruct (n =? 0)%Z; discriminate.
  - destruct (is_insts line) eqn:Hi; [|destruct (is_cycles line) eqn:Hc].
    + rewrite cpi_loop_insts in H by assumption.
      destruct (field_int line) as [n|] eqn:Hn; simpl in H; [|discriminate].
      destruct (IH _ _ H) as (insts & cycles & Hv & Hz & Hcase).
      exists insts, cycles. split; [assumption|]. split; [assumption|].
      left. destruct Hcase as
          [(pre & mid & post & l1 & l2 & [-> Hpre Hl1 Hi1 Hmid Hl2 Hm])
          | (E & mid & post & l2 & -> & Hmid & Hl2 & Hm)].
      * exists (line :: pre), mid, post, l1, l2.
        constructor; try assumption; try reflexivity.
        constructor; [|assumption].
        split; [apply insts_not_cycles; assumption|]. intros _. eauto.
      * injection E as ->.
        exists [], mid, post, line, l2.
        constructor; try assumption; try reflexivity. constructor.
    + rewrite cpi_loop_cycles in H by assumption.
      destruct (field_int line) as [m|] eqn:Hm; simpl in H; [|discriminate].
      destruct i as [n|]; simpl in H; [|discriminate].
      destruct (true_div m n) as [q|] eqn:Hq; simpl in H; [|discriminate].
      apply true_div_returns in Hq as (-> & Hz & _). injection H as <-.
      exists n, m. split; [reflexivity|]. split; [assumption|].
      right. split; [reflexivity|].
      exists [], rest, line. repeat split; try assumption. constructor.
    + rewrite cpi_loop_other in H by assumption.
      destruct (IH _ _ H) as (insts & cycles & Hv & Hz & Hcase).
      exists insts, cycles. split; [assumption|]. split; [assumption|].
      destruct Hcase as
          [(pre & mid & post & l1 & l2 & [-> Hpre Hl1 Hi1 Hmid Hl2 Hm])
          | (E & mid & post & l2 & -> & Hmid & Hl2 & Hm)].
      * left. exists (line :: pre), mid, post, l1, l2.
        constructor; try assumption; try reflexivity.
        constructor; [|assumption].
        split; [assumption|]. intros Hi'. congruence.
      * right. split; [assumption|].
        exists (line :: mid), post, l2. repeat split; try assumption.
        constructor; [split; assumption|assumption].
Qed.

(** ** The loop of [get_statistic] *)

Section GetStatistic.

Variable is_float : str -> bool.

Lemma statistic_loop_cpi_nil (i c : option Z) :
  RunUtils.get_statistic_loop is_float CPI [] i c = Return None.
Proof. reflexivity. Qed.

Lemma statistic_loop_cpi_cons (line : str) (rest : list str) (i c : option Z) :
  RunUtils.get_statistic_loop is_float CPI (line :: rest) i c
  = if is_insts line then
      (n <- field_int line ;;
       RunUtils.get_statistic_loop is_float CPI rest (Some n) c)%result
    else if is_cycles line then
      (m <- field_int line ;;
       n <- load "instruction_count" i ;;
       q <- true_div m n ;;
       Return (Some q))%result
    else RunUtils.get_statistic_loop is_float CPI rest i c.
Proof.
  unfold is_insts, is_cycles, field_int, CPI.
  cbn [RunUtils.get_statistic_loop]. rewrite str_eqb_refl.
  destruct (Py.startswith line (lit "simInsts"));
    [|destruct (Py.startswith line (lit "system.cpu.numCycles"))];
    try reflexivity;
    destruct (Py.index (Py.split line) 1); reflexivity.
Qed.

Lemma statistic_loop_miss_rate_nil (i c : option Z) :
  RunUtils.get_statistic_loop is_float MISS_RATE [] i c = Return None.
Proof. reflexivity. Qed.

Lemma statistic_loop_miss_rate_cons (line : str) (rest : list str)
  (i c : option Z) :
  RunUtils.get_statistic_loop is_float MISS_RATE (line :: rest) i c
  = if is_miss_rate line then
      (field <- Py.index (Py.split line) 1 ;;
       f <- RunUtils.float is_float field ;;
       Return (Some f))%result
    else RunUtils.get_statistic_loop is_float MISS_RATE rest i c.
Proof. reflexivity. Qed.

(** Up to its first [numCycles] line, [get_statistic] asked for the CPI runs
    the loop of [cpi]. *)
Lemma statistic_loop_cpi_agrees (lines : list str) :
  Exists (fun l => is_cycles l = true) lines ->
  forall i c,
    RunUtils.get_statistic_loop is_float CPI lines i c
    = Aca.cpi_loop lines i c.
Proof.
  induction lines as [|line rest IH]; intros Hex i c.
  - inversion Hex.
  - rewrite statistic_loop_cpi_cons.
    destruct (is_insts line) eqn:Hi; [|destruct (is_cycles line) eqn:Hc].
    + rewrite cpi_loop_insts by assumption.
      destruct (field_int line); [|reflexivity]. simpl. apply IH.
      inversion Hex as [? ? H|]; subst; [|assumption].
      rewrite (insts_not_cycles _ Hi) in H. discriminate.
    + rewrite cpi_loop_cycles by assumption. reflexivity.
    + rewrite cpi_loop_other by assumption. apply IH.
      inversion Hex as [? ? H|]; subst; [congruence|assumption].
Qed.

(** Without a line of the label asked for, the loop of [get_statistic] runs
    to the end of the file, where none of its tests recognises the statistic,
    and the function returns [None]. *)
Lemma statistic_loop_cpi_readable (lines : list str) (c : option Z) :
  readable lines ->
  forall i, RunUtils.get_statistic_loop is_float CPI lines i c = Return None.
Proof.
  induction 1 as [|l lines [Hc Hok] _ IH]; intros i.
  - apply statistic_loop_cpi_nil.
  - rewrite statistic_loop_cpi_cons, Hc. destruct (is_insts l).
    + destruct (Hok eq_refl) as [n ->]. simpl. apply IH.
    + apply IH.
Qed.

Lemma statistic_loop_miss_rate_absent (lines : list str) (i c : option Z) :
  Forall (fun l => is_miss_rate l = false) lines ->
  RunUtils.get_statistic_loop is_float MISS_RATE lines i c = Return None.
Proof.
  induction 1 as [|l lines Hl _ IH].
  - apply statistic_loop_miss_rate_nil.
  - rewrite statistic_loop_miss_rate_cons, Hl. exact IH.
Qed.

Lemma statistic_of_text_loop (statistic text : str) :
  text <> [] ->
  RunUtils.statistic_of_text is_float statistic text
  = RunUtils.get_statistic_loop is_float statistic (readlines text) None None.
Proof.
  intros H. apply readlines_nonempty in H. unfold RunUtils.statistic_of_text.
  destruct (readlines text); [congruence|reflexivity].
Qed.

End GetStatistic.

Lemma cpi_of_text_loop (text : str) :
  text <> [] ->
  Aca.cpi_of_text text = Aca.cpi_loop (readlines text) None None.
Proof.
  intros H. apply readlines_nonempty in H. unfold Aca.cpi_of_text.
  destruct (readlines text); [congruence|reflexivity].
Qed.

Lemma readlines_nil_inv (text : str) : readlines text = [] -> text = [].
Proof.
  destruct text as [|c rest]; [reflexivity|]. intros H. exfalso.
  revert H. apply readlines_nonempty. discriminate.
Qed.

Lemma layout_text_nonempty (text : str) (pre post : list str) (l : str) :
  readlines text = pre ++ l :: post -> text <> [].
Proof. intros H ->. simpl in H. destruct pre; discriminate. Qed.

(** [cpi] never falls off its end: it returns a quotient or raises. *)
Lemma cpi_of_text_returns (text : str) (v : option pyfloat) :
  Aca.cpi_of_text text = Return v ->
  exists pre mid post l1 l2 insts cycles,
    cpi_layout (readlines text) pre mid post l1 l2 insts cycles /\
    insts <> 0%Z /\ v = Some (TrueDiv cycles insts).
Proof.
  intros H. destruct text as [|ch rest] eqn:E; [discriminate|].
  rewrite <- E in *. rewrite cpi_of_text_loop in H by (subst; discriminate).
  apply cpi_loop_returns in H as (insts & cycles & Hv & Hz & Hcase).
  destruct Hcase as [(pre & mid & post & l1 & l2 & Hl) | (Habs & _)];
    [|discriminate].
  exists pre, mid, post, l1, l2, insts, cycles. auto.
Qed.

(** ** What the parsers do on a statistics file *)



(** C3.  In [run_utils.py] a statistics file that is not empty and lacks the
    line asked for makes [get_statistic] return [None]: for the CPI a file
    with no [numCycles] line (its [simInsts] lines, if any, carrying
    integers), for the miss rate a file with no [overallMissRate] line.  The
    tests after the loop compare the statistic with ["cpi"] and
    ["overall_dcache_miss_rate"], names no caller passes, so neither
    "Could not find" exception is raised. *)
Theorem get_statistic_missing_label_returns_None (is_float : str -> bool)
  (gem5_path : str) (w : world) (text : str) :
  fs w (RunUtils.stats_path gem5_path) = Some text ->
  text <> [] ->
  (readable (readlines text) ->
   fst (RunUtils.get_statistic is_float gem5_path CPI w) = Return None) /\
  (Forall (fun l => is_miss_rate l = false) (readlines text) ->
   fst (RunUtils.get_statistic is_float gem5_path MISS_RATE w) = Return None).
Proof.
  intros Hr Hne. split; intros Hl;
    rewrite (get_statistic_reads is_float _ _ _ Hr); simpl;
    rewrite statistic_of_text_loop by assumption.
  - apply statistic_loop_cpi_readable. assumption.
  - apply statistic_loop_miss_rate_absent. assumption.
Qed.

Lemma get_statistic_missing_label_witness :
  fst (RunUtils.get_statistic any_float (lit "gem5") CPI
         (world_with stats_without_labels)) = Return None /\
  fst (RunUtils.get_statistic any_float (lit "gem5") MISS_RATE
         (world_with stats_without_labels)) = Return None.
Proof.
  destruct (@get_statistic_missing_label_returns_None any_float (lit "gem5")
              (world_with stats_without_labels) stats_without_labels)
    as [Hc Hm].
  - reflexivity.
  - discriminate.
  - split.
    + apply Hc. repeat constructor. discriminate.
    + apply Hm. repeat constructor.
Defined.

(** In [aca.py] the same situation does end in an exception: [cpi] returns
    only from its [return] statement, so a file in which no [simInsts] line
    or no [numCycles] line carries an integer makes it raise. *)
Lemma aca_cpi_missing_lines_raises (w : world) (text : str) :
  fs w Aca.stats_path = Some text ->
  Forall (fun l => is_insts l = true -> raises (field_int l)) (readlines text)
  \/ Forall (fun l => is_cycles l = true -> raises (field_int l))
       (readlines text) ->
  raises (fst (Aca.cpi w)).
Proof.
  intros Hr Hmiss. rewrite (cpi_reads _ Hr). simpl.
  destruct (Aca.cpi_of_text text) as [v|e] eqn:E; [|exists e; reflexivity].
  exfalso. apply cpi_of_text_returns in E
    as (pre & mid & post & l1 & l2 & insts & cycles & L & _ & _).
  destruct L as [Hlines _ Hl1 Hi _ Hl2 Hc].
  destruct Hmiss as [H | H]; rewrite Hlines, Forall_forall in H.
  - destruct (H l1) as [e He]; [|assumption|congruence].
    apply in_or_app. right. left. reflexivity.
  - destruct (H l2) as [e He]; [|assumption|congruence].
    apply in_or_app. right. right. apply in_or_app. right. left. reflexivity.
Qed.

Lemma layout_has_cycles (lines pre mid post : list str) (l1 l2 : str)
  (insts cycles : Z) :
  cpi_layout lines pre mid post l1 l2 insts cycles ->
  Exists (fun l => is_cycles l = true) lines.
Proof.
  intros [-> _ _ _ _ Hl2 _]. apply Exists_exists. exists l2. split; auto.
  apply in_or_app. right. right. apply in_or_app. right. left. reflexivity.
Qed.

(** On the layout each parser evaluates [cycles / insts]. *)
Lemma cpi_on_layout (w : world) (text : str) (pre mid post : list str)
  (l1 l2 : str) (insts cycles : Z) :
  fs w Aca.stats_path = Some text ->
  cpi_layout (readlines text) pre mid post l1 l2 insts cycles ->
  fst (Aca.cpi w) = (q <- true_div cycles insts ;; Return (Some q))%result.
Proof.
  intros Ha L.
  assert (Hne : text <> []).
  { destruct L as [Hl _ _ _ _ _ _]. eapply layout_text_nonempty. exact Hl. }
  rewrite (cpi_reads _ Ha). simpl.
  rewrite cpi_of_text_loop by assumption.
  apply (cpi_loop_layout None None L).
Qed.

Lemma get_statistic_on_layout (is_float : str -> bool) (gem5_path : str)
  (w : world) (text : str) (pre mid post : list str) (l1 l2 : str)
  (insts cycles : Z) :
  fs w (RunUtils.stats_path gem5_path) = Some text ->
  cpi_layout (readlines text) pre mid post l1 l2 insts cycles ->
  fst (RunUtils.get_statistic is_float gem5_path CPI w)
  = (q <- true_div cycles insts ;; Return (Some q))%result.
Proof.
  intros Hr L.
  assert (Hne : text <> []).
  { destruct L as [Hl _ _ _ _ _ _]. eapply layout_text_nonempty. exact Hl. }
  rewrite (get_statistic_reads is_float _ _ _ Hr). simpl.
  rewrite statistic_of_text_loop by assumption.
  rewrite statistic_loop_cpi_agrees by (eapply layout_has_cycles; exact L).
  apply (cpi_loop_layout None None L).
Qed.

Lemma parsers_on_layout (is_float : str -> bool) (gem5_path : str) (w : world)
  (text : str) (pre mid post : list str) (l1 l2 : str) (insts cycles : Z) :
  fs w Aca.stats_path = Some text ->
  fs w (RunUtils.stats_path gem5_path) = Some text ->
  cpi_layout (readlines text) pre mid post l1 l2 insts cycles ->
  fst (Aca.cpi w) = (q <- true_div cycles insts ;; Return (Some q))%result /\
  fst (RunUtils.get_statistic is_float gem5_path CPI w)
  = (q <- true_div cycles insts ;; Return (Some q))%result.
Proof.
  intros Ha Hr L.
  assert (Hne : text <> []).
  { destruct L as [Hl _ _ _ _ _ _]. eapply layout_text_nonempty. exact Hl. }
  rewrite (cpi_reads _ Ha), (get_statistic_reads is_float _ _ _ Hr). simpl.
  rewrite cpi_of_text_loop, statistic_of_text_loop by assumption.
  rewrite statistic_loop_cpi_agrees by (eapply layout_has_cycles; exact L).
  rewrite (cpi_loop_layout None None L). split; reflexivity.
Qed.

(** C4, refuted as stated: a file whose [simInsts] line carries 0 and whose
    later [numCycles] line carries 5 has the lines the claim asks for, and
    both parsers end in [ZeroDivisionError] instead of returning a quotient. *)
Lemma cpi_zero_instruction_count_counterexample :
  (exists pre mid post l1 l2,
      cpi_layout (readlines stats_zero_insts) pre mid post l1 l2 0 5) /\
  fst (Aca.cpi (world_with stats_zero_insts)) = Raise ZeroDivisionError /\
  fst (RunUtils.get_statistic any_float (lit "gem5") CPI
         (world_with stats_zero_insts)) = Raise ZeroDivisionError.
Proof.
  split; [|split; reflexivity].
  exists [], [], [],
    (lit "simInsts 0" ++ [Re.newline]),
    (lit "system.cpu.numCycles 5" ++ [Re.newline]).
  constructor; try reflexivity; constructor.
Qed.

(** The order of the lines matters as well: a [numCycles] line that comes
    before the [simInsts] line ends the parse at once. *)
Example cpi_cycles_before_insts :
  Aca.cpi_of_text
    (text_of_lines ["system.cpu.numCycles 5"; "simInsts 2";
                    "system.cpu.numCycles 5"]%string)
  = Raise (UnboundLocalError (lit "instruction_count")).
Proof. reflexivity. Qed.

(** A quotient beyond the range of a float is refused as well: with one
    instruction and [10 ^ 400] cycles the division raises [OverflowError]. *)
Example cpi_quotient_out_of_range :
  Aca.cpi_of_text
    (lit "simInsts 1" ++ [Re.newline] ++
     lit "system.cpu.numCycles 1" ++ repeat "0"%char 400 ++ [Re.newline])
  = Raise OverflowError.
Proof. vm_compute. reflexivity. Qed.

(** C4, amended.  When the first line starting with [system.cpu.numCycles]
    carries the integer [cycles], the last line starting with [simInsts]
    before it carries the integer [insts], [insts] is not zero, every earlier
    [simInsts] line carries an integer, and [cycles / insts] is within the
    range of a float, each CPI parser returns [cycles / insts] on the file it
    reads. *)
Theorem cpi_returns_cycles_per_instruction (is_float : str -> bool)
  (gem5_path : str) (w : world) (text : str) (pre mid post : list str)
  (l1 l2 : str) (insts cycles : Z) :
  cpi_layout (readlines text) pre mid post l1 l2 insts cycles ->
  insts <> 0%Z ->
  in_float_range cycles insts ->
  (fs w Aca.stats_path = Some text ->
   fst (Aca.cpi w) = Return (Some (TrueDiv cycles insts))) /\
  (fs w (RunUtils.stats_path gem5_path) = Some text ->
   fst (RunUtils.get_statistic is_float gem5_path CPI w)
   = Return (Some (TrueDiv cycles insts))).
Proof.
  intros L Hz Hrange. split.
  - intros Ha. rewrite (cpi_on_layout _ Ha L).
    rewrite true_div_in_range by assumption. reflexivity.
  - intros Hr. rewrite (get_statistic_on_layout is_float _ _ Hr L).
    rewrite true_div_in_range by assumption. reflexivity.
Qed.

Lemma cpi_returns_cycles_per_instruction_witness :
  fst (Aca.cpi (world_with stats_complete)) = Return (Some (TrueDiv 5 2)) /\
  fst (RunUtils.get_statistic any_float (lit "gem5") CPI
         (world_with stats_complete)) = Return (Some (TrueDiv 5 2)).
Proof.
  destruct (@cpi_returns_cycles_per_instruction any_float (lit "gem5")
              (world_with stats_complete) stats_complete
              [lit "---------- Begin Simulation Statistics ----------"
               ++ [Re.newline]]
              []
              [lit "system.cpu.dcache.overallMissRate::cpu.data 0.05"
               ++ [Re.newline]]
              (lit "simInsts 2" ++ [Re.newline])
              (lit "system.cpu.numCycles 5" ++ [Re.newline]) 2%Z 5%Z)
    as [Ha Hr].
  - constructor; try reflexivity; repeat constructor. discriminate.
  - discriminate.
  - vm_compute. reflexivity.
  - split; [apply Ha | apply Hr]; reflexivity.
Defined.

Lemma first_match_unique {A} (P : A -> bool) (xs xs' ys ys' : list A)
  (a a' : A) :
  xs ++ a :: ys = xs' ++ a' :: ys' ->
  Forall (fun x => P x = false) xs -> P a = true ->
  Forall (fun x => P x = false) xs' -> P a' = true ->
  xs = xs' /\ a = a' /\ ys = ys'.
Proof.
  revert xs'. induction xs as [|x xs IH]; intros [|x' xs'] E Hxs Ha Hxs' Ha'.
  - injection E as -> ->. auto.
  - injection E as -> _. inversion Hxs'; congruence.
  - injection E as -> _. inversion Hxs; congruence.
  - injection E as -> E. inversion Hxs; inversion Hxs'; subst.
    destruct (IH xs' E) as (-> & -> & ->); auto.
Qed.

Lemma readable_no_cycles (pre : list str) :
  readable pre -> Forall (fun l => is_cycles l = false) pre.
Proof. unfold readable. apply Forall_impl. intros l [H _]. exact H. Qed.

Lemma unlabelled_no_cycles (mid : list str) :
  unlabelled mid -> Forall (fun l => is_cycles l = false) mid.
Proof. unfold unlabelled. apply Forall_impl. intros l [_ H]. exact H. Qed.

Lemma unlabelled_intro (ls : list str) :
  Forall (fun l => is_insts l = false) ls ->
  Forall (fun l => is_cycles l = false) ls -> unlabelled ls.
Proof.
  intros Hi Hc. unfold unlabelled. rewrite Forall_forall in *. auto.
Qed.

(** C8, refuted as stated: in a file whose only line is
    [system.cpu.numCycles abc] the [numCycles] line has no [simInsts] line
    before it, yet neither parser reaches its [return] expression: [int]
    refuses the field first, and the error is its [ValueError], not an
    unbound variable or a division by zero. *)
Lemma cycles_field_not_integer_counterexample :
  (exists l2,
      readlines stats_cycles_not_integer = [l2] /\ is_cycles l2 = true) /\
  fst (Aca.cpi (world_with stats_cycles_not_integer))
  = Raise (IntLiteralError (lit "abc")) /\
  fst (RunUtils.get_statistic any_float (lit "gem5") CPI
         (world_with stats_cycles_not_integer))
  = Raise (IntLiteralError (lit "abc")).
Proof.
  split; [|split; reflexivity].
  exists (lit "system.cpu.numCycles abc" ++ [Re.newline]).
  split; reflexivity.
Qed.

(** C8, amended.  Take a statistics file and its first line starting with
    [system.cpu.numCycles], carrying an integer.  With no [simInsts] line
    before it, the [return] expression of each CPI parser fails with
    [UnboundLocalError] on [instruction_count]; when the last [simInsts] line
    before it carries zero (the earlier ones carrying integers), it fails
    with [ZeroDivisionError]; and a parser that completes on such a file has
    read, before that line, a [simInsts] line carrying an integer that is not
    zero. *)
Theorem cpi_return_expression_unguarded (is_float : str -> bool)
  (gem5_path : str) (w : world) (text : str) (pre post : list str) (l2 : str)
  (cycles : Z) :
  readlines text = pre ++ l2 :: post ->
  Forall (fun l => is_cycles l = false) pre ->
  is_cycles l2 = true ->
  field_int l2 = Return cycles ->
  (Forall (fun l => is_insts l = false) pre ->
   (fs w Aca.stats_path = Some text ->
    fst (Aca.cpi w) = Raise (UnboundLocalError (lit "instruction_count"))) /\
   (fs w (RunUtils.stats_path gem5_path) = Some text ->
    fst (RunUtils.get_statistic is_float gem5_path CPI w)
    = Raise (UnboundLocalError (lit "instruction_count")))) /\
  (forall pre' l1 mid,
      pre = pre' ++ l1 :: mid -> readable pre' ->
      is_insts l1 = true -> field_int l1 = Return 0%Z ->
      Forall (fun l => is_insts l = false) mid ->
      (fs w Aca.stats_path = Some text ->
       fst (Aca.cpi w) = Raise ZeroDivisionError) /\
      (fs w (RunUtils.stats_path gem5_path) = Some text ->
       fst (RunUtils.get_statistic is_float gem5_path CPI w)
       = Raise ZeroDivisionError)) /\
  (forall v,
      (fs w Aca.stats_path = Some text /\ fst (Aca.cpi w) = Return v) \/
      (fs w (RunUtils.stats_path gem5_path) = Some text /\
       fst (RunUtils.get_statistic is_float gem5_path CPI w) = Return v) ->
      exists pre' l1 mid insts,
        pre = pre' ++ l1 :: mid /\ is_insts l1 = true /\
        field_int l1 = Return insts /\ insts <> 0%Z /\
        v = Some (TrueDiv cycles insts)).
Proof.
  intros Hlines Hpre Hl2 Hm.
  assert (Hne : text <> []) by (eapply layout_text_nonempty; exact Hlines).
  assert (Hex : Exists (fun l => is_cycles l = true) (readlines text)).
  { rewrite Hlines. apply Exists_exists. exists l2. split; [|assumption].
    apply in_or_app. right. left. reflexivity. }
  assert (Haca : fs w Aca.stats_path = Some text ->
                 fst (Aca.cpi w)
                 = Aca.cpi_loop (pre ++ l2 :: post) None None).
  { intros Ha. rewrite (cpi_reads _ Ha). cbn [fst].
    rewrite cpi_of_text_loop by assumption. rewrite Hlines. reflexivity. }
  assert (Hru : fs w (RunUtils.stats_path gem5_path) = Some text ->
                fst (RunUtils.get_statistic is_float gem5_path CPI w)
                = Aca.cpi_loop (pre ++ l2 :: post) None None).
  { intros Hr. rewrite (get_statistic_reads is_float _ _ _ Hr). cbn [fst].
    rewrite statistic_of_text_loop by assumption.
    rewrite statistic_loop_cpi_agrees by assumption.
    rewrite Hlines. reflexivity. }
  split; [|split].
  - intros Hno.
    assert (G : Aca.cpi_loop (pre ++ l2 :: post) None None
                = Raise (UnboundLocalError (lit "instruction_count"))).
    { rewrite cpi_loop_no_insts with (cycles := cycles);
        auto using unlabelled_intro. }
    split; intros Hf; [rewrite (Haca Hf) | rewrite (Hru Hf)]; exact G.
  - intros pre' l1 mid -> Hpre' Hl1 Hzero Hmid.
    assert (G : Aca.cpi_loop ((pre' ++ l1 :: mid) ++ l2 :: post) None None
                = Raise ZeroDivisionError).
    { rewrite <- app_assoc, <- app_comm_cons.
      rewrite cpi_loop_layout
        with (pre := pre') (mid := mid) (post := post) (l1 := l1) (l2 := l2)
             (insts := 0%Z) (cycles := cycles); [reflexivity|].
      constructor; try assumption; try reflexivity.
      apply unlabelled_intro; [assumption|].
      apply Forall_app in Hpre as [_ Hpre]. inversion Hpre; assumption. }
    split; intros Hf; [rewrite (Haca Hf) | rewrite (Hru Hf)]; exact G.
  - intros v Hv.
    assert (Hv' : Aca.cpi_loop (pre ++ l2 :: post) None None = Return v).
    { destruct Hv as [[Hf Hv] | [Hf Hv]];
        [rewrite (Haca Hf) in Hv | rewrite (Hru Hf) in Hv]; exact Hv. }
    apply cpi_loop_returns in Hv' as (insts & cycles' & -> & Hz & Hcase).
    destruct Hcase as
        [(pre0 & mid0 & post0 & l1 & l2' & [E Hp0 Hl1 Hi Hm0 Hl2' Hc'])
        | (Habs & _)]; [|discriminate].
    change (pre0 ++ l1 :: mid0 ++ l2' :: post0)
      with (pre0 ++ (l1 :: mid0) ++ l2' :: post0) in E.
    rewrite app_assoc in E.
    apply (first_match_unique is_cycles) in E as (-> & <- & _);
      try assumption.
    + exists pre0, l1, mid0, insts. repeat split; try assumption.
      congruence.
    + apply Forall_app. split; [apply readable_no_cycles; assumption|].
      constructor; [apply insts_not_cycles; assumption|].
      apply unlabelled_no_cycles. assumption.
Qed.

Lemma cpi_return_expression_unguarded_witness :
  fst (Aca.cpi (world_with stats_cycles_only))
  = Raise (UnboundLocalError (lit "instruction_count")) /\
  fst (RunUtils.get_statistic any_float (lit "gem5") CPI
         (world_with stats_cycles_only))
  = Raise (UnboundLocalError (lit "instruction_count")).
Proof.
  destruct (proj1 (@cpi_return_expression_unguarded any_float (lit "gem5")
                     (world_with stats_cycles_only) stats_cycles_only
                     [] [] (lit "system.cpu.numCycles 5" ++ [Re.newline]) 5%Z
                     eq_refl (Forall_nil _) eq_refl eq_refl)
                  (Forall_nil _)) as [Ha Hr].
  split; [apply Ha | apply Hr]; reflexivity.
Defined.

(** * Loops over the world *)

Lemma for_each_ext {A} (body body' : A -> M unit) (xs : list A) :
  (forall x w, body x w = body' x w) ->
  forall w, for_each xs body w = for_each xs body' w.
Proof.
  intros Hb. induction xs as [|x xs IH]; intros w; [reflexivity|].
  simpl. unfold bind. rewrite Hb.
  destruct (body' x w) as [[[]|e] w']; [apply IH|reflexivity].
Qed.

(** A loop of checks leaves the world as it is. *)
Lemma for_each_lift_world {A} (f : A -> result unit) (xs : list A) (w : world) :
  snd (for_each xs (fun x => lift (f x)) w) = w.
Proof.
  induction xs as [|x xs IH]; [reflexivity|].
  simpl. unfold bind, lift. destruct (f x) as [[]|e]; [exact IH|reflexivity].
Qed.

Lemma for_each_lift_return {A} (f : A -> result unit) (xs : list A) (w : world) :
  fst (for_each xs (fun x => lift (f x)) w) = Return tt <->
  Forall (fun x => f x = Return tt) xs.
Proof.
  induction xs as [|x xs IH]; simpl.
  - split; [constructor|reflexivity].
  - unfold bind, lift. destruct (f x) as [[]|e] eqn:E.
    + rewrite IH. split.
      * intros H. constructor; assumption.
      * intros H. inversion H; assumption.
    + simpl. split; [discriminate|]. intros H. inversion H; congruence.
Qed.

Lemma for_each_lift_cases {A} (f : A -> result unit) (xs : list A) (w : world) :
  (for_each xs (fun x => lift (f x)) w = (Return tt, w) /\
   Forall (fun x => f x = Return tt) xs) \/
  (exists e, for_each xs (fun x => lift (f x)) w = (Raise e, w)).
Proof.
  pose proof (for_each_lift_world f xs w) as Hw.
  pose proof (for_each_lift_return f xs w) as Hr.
  destruct (for_each xs (fun x => lift (f x)) w) as [[[]|e] w'];
    simpl in *; subst w'.
  - left. split; [reflexivity|]. apply Hr. reflexivity.
  - right. exists e. reflexivity.
Qed.

(** * Powers of two *)

Lemma land_even_odd (a b : Z) :
  Z.land (2 * a) (2 * b + 1) = (2 * Z.land a b)%Z.
Proof.
  apply Z.bits_inj'. intros i Hi. rewrite Z.land_spec.
  destruct (Z.eq_dec i 0) as [->|Hne].
  - rewrite !Z.testbit_even_0. reflexivity.
  - replace i with (Z.succ (i - 1)) by lia.
    rewrite !Z.testbit_even_succ, Z.testbit_odd_succ, Z.land_spec by lia.
    reflexivity.
Qed.

Lemma land_odd_even (a b : Z) :
  Z.land (2 * a + 1) (2 * b) = (2 * Z.land a b)%Z.
Proof. rewrite Z.land_comm, land_even_odd, Z.land_comm. reflexivity. Qed.

Lemma land_pred_positive (p : positive) :
  Z.land (Z.pos p) (Z.pos p - 1) = 0%Z -> power_of_two (Z.pos p).
Proof.
  induction p as [p IH|p IH|]; intros H.
  - exfalso. rewrite Pos2Z.inj_xI in H.
    replace (2 * Z.pos p + 1 - 1)%Z with (2 * Z.pos p)%Z in H by lia.
    rewrite land_odd_even, Z.land_diag in H. lia.
  - rewrite Pos2Z.inj_xO in H.
    replace (2 * Z.pos p - 1)%Z with (2 * (Z.pos p - 1) + 1)%Z in H by lia.
    rewrite land_even_odd in H.
    destruct IH as [k Hk]; [lia|].
    exists (S k). rewrite Pos2Z.inj_xO, Hk, Nat2Z.inj_succ, Z.pow_succ_r by lia.
    reflexivity.
  - exists 0%nat. reflexivity.
Qed.

(** The test [n != 0 and n & (n - 1) == 0] singles out the powers of two. *)
Lemma land_pred_power_of_two (n : Z) :
  n <> 0%Z -> Z.land n (n - 1) = 0%Z -> power_of_two n.
Proof.
  intros Hn H. destruct n as [|p|p].
  - congruence.
  - apply land_pred_positive. exact H.
  - exfalso.
    assert (Hneg : (Z.land (Z.neg p) (Z.neg p - 1) < 0)%Z)
      by (apply Z.land_neg; lia).
    lia.
Qed.

Lemma power_of_two_land_pred (n : Z) :
  power_of_two n -> n <> 0%Z /\ Z.land n (n - 1) = 0%Z.
Proof.
  intros [k ->]. assert (0 < 2 ^ Z.of_nat k)%Z by (apply Z.pow_pos_nonneg; lia).
  split; [lia|].
  replace (2 ^ Z.of_nat k - 1)%Z with (Z.ones (Z.of_nat k))
    by (rewrite Z.ones_equiv; lia).
  rewrite Z.land_ones by lia. apply Z.mod_same. lia.
Qed.

(** * Matching by derivatives is matching *)

Lemma nullable_lang (r : Re.regex) : Re.nullable r = true -> Re.lang r [].
Proof.
  induction r as [| |p|r1 IH1 r2 IH2|r1 IH1 r2 IH2|r IH]; simpl; intros H;
    try discriminate.
  - constructor.
  - apply andb_prop in H as [H1 H2].
    change (@nil ascii) with (@nil ascii ++ []). constructor; auto.
  - apply orb_prop in H as [H|H].
    + apply Re.lang_alt_l. auto.
    + apply Re.lang_alt_r. auto.
  - constructor.
Qed.

Lemma lang_nullable (r : Re.regex) (s : str) :
  Re.lang r s -> s = [] -> Re.nullable r = true.
Proof.
  induction 1 as [|p c Hc|r1 r2 s1 s2 _ IH1 _ IH2|r1 r2 s _ IH|r1 r2 s _ IH
                  |r|r s1 s2 _ _ _ _]; intros E; simpl; try reflexivity.
  - discriminate.
  - apply app_eq_nil in E as [-> ->]. rewrite IH1, IH2; reflexivity.
  - rewrite IH by assumption. reflexivity.
  - rewrite IH by assumption. apply orb_true_r.
Qed.

Lemma deriv_sound (c : ascii) (r : Re.regex) :
  forall s, Re.lang (Re.deriv c r) s -> Re.lang r (c :: s).
Proof.
  induction r as [| |p|r1 IH1 r2 IH2|r1 IH1 r2 IH2|r IH]; simpl; intros s H.
  - inversion H.
  - inversion H.
  - destruct (p c) eqn:Hp; inversion H; subst. constructor. assumption.
  - assert (Hcat : forall t, Re.lang (Re.Cat (Re.deriv c r1) r2) t ->
                             Re.lang (Re.Cat r1 r2) (c :: t)).
    { intros t Ht. inversion Ht; subst.
      change (c :: s1 ++ s2) with ((c :: s1) ++ s2). constructor; auto. }
    destruct (Re.nullable r1) eqn:Hn; [|auto].
    inversion H; subst; [auto|].
    change (c :: s) with ([] ++ c :: s).
    constructor; [apply nullable_lang; assumption|auto].
  - inversion H; subst.
    + apply Re.lang_alt_l. auto.
    + apply Re.lang_alt_r. auto.
  - inversion H; subst.
    change (c :: s1 ++ s2) with ((c :: s1) ++ s2). constructor; auto.
Qed.

Lemma deriv_complete (c : ascii) (r : Re.regex) (t : str) :
  Re.lang r t -> forall s, t = c :: s -> Re.lang (Re.deriv c r) s.
Proof.
  induction 1 as [|p d Hd|r1 r2 s1 s2 H1 IH1 H2 IH2|r1 r2 s _ IH|r1 r2 s _ IH
                  |r|r s1 s2 H1 IH1 H2 IH2]; intros s' E; simpl.
  - discriminate.
  - injection E as -> <-. rewrite Hd. constructor.
  - destruct s1 as [|a s1].
    + simpl in E. rewrite (lang_nullable H1 eq_refl).
      apply Re.lang_alt_r. auto.
    + injection E as -> <-.
      assert (Hcat : Re.lang (Re.Cat (Re.deriv c r1) r2) (s1 ++ s2))
        by (constructor; auto).
      destruct (Re.nullable r1); [apply Re.lang_alt_l|]; assumption.
  - apply Re.lang_alt_l. auto.
  - apply Re.lang_alt_r. auto.
  - discriminate.
  - destruct s1 as [|a s1].
    + simpl in E. auto.
    + injection E as -> <-. constructor; auto.
Qed.

Theorem fullmatch_lang (r : Re.regex) (s : str) :
  Re.fullmatch r s = true <-> Re.lang r s.
Proof.
  revert r. induction s as [|c s IH]; intros r; simpl.
  - split; [apply nullable_lang|]. intros H. eapply lang_nullable; eauto.
  - rewrite IH. split; [apply deriv_sound|].
    intros H. eapply deriv_complete; eauto.
Qed.

Lemma lang_star_class (p : ascii -> bool) (r : Re.regex) (s : str) :
  Re.lang r s -> r = Re.Star (Re.Class p) -> Forall (fun c => p c = true) s.
Proof.
  induction 1 as [| | | | | |r s1 s2 H1 _ _ IH2]; intros E; try discriminate.
  - constructor.
  - injection E as ->. inversion H1; subst. constructor; auto.
Qed.

Lemma star_class_lang (p : ascii -> bool) (s : str) :
  Forall (fun c => p c = true) s -> Re.lang (Re.Star (Re.Class p)) s.
Proof.
  induction 1 as [|c s Hc _ IH]; [constructor|].
  change (c :: s) with ([c] ++ s). constructor; [constructor|]; assumption.
Qed.

Lemma lang_plus_decimal (s : str) :
  Re.lang (Re.Plus (Re.Class Py.is_decimal)) s <-> decimal s.
Proof.
  unfold Re.Plus, decimal. split.
  - intros H. inversion H as [| |? ? s1 s2 H1 H2 | | | |]; subst.
    inversion H1; subst. split; [discriminate|].
    constructor; [assumption|]. eapply lang_star_class; eauto.
  - intros [Hne Hall]. destruct s as [|c s]; [congruence|].
    inversion Hall; subst. change (c :: s) with ([c] ++ s).
    constructor; [constructor; assumption|apply star_class_lang; assumption].
Qed.

Lemma lang_chr (c : ascii) (s : str) : Re.lang (Re.Chr c) s <-> s = [c].
Proof.
  unfold Re.Chr. split.
  - intros H. inversion H as [|? d Hd| | | | |]; subst.
    apply Ascii.eqb_eq in Hd. congruence.
  - intros ->. constructor. apply Ascii.eqb_refl.
Qed.

Lemma lang_cat (r1 r2 : Re.regex) (s : str) :
  Re.lang (Re.Cat r1 r2) s <->
  exists s1 s2, s = s1 ++ s2 /\ Re.lang r1 s1 /\ Re.lang r2 s2.
Proof.
  split.
  - intros H. inversion H; subst. eauto.
  - intros (s1 & s2 & -> & H1 & H2). constructor; assumption.
Qed.

Lemma lang_alt (r1 r2 : Re.regex) (s : str) :
  Re.lang (Re.Alt r1 r2) s <-> Re.lang r1 s \/ Re.lang r2 s.
Proof.
  split.
  - intros H. inversion H; subst; auto.
  - intros [H|H]; [apply Re.lang_alt_l|apply Re.lang_alt_r]; assumption.
Qed.

Lemma lang_opt (r : Re.regex) (s : str) :
  Re.lang (Re.Opt r) s <-> Re.lang r s \/ s = [].
Proof.
  unfold Re.Opt. rewrite lang_alt. split; intros [H|H]; auto.
  - right. inversion H. reflexivity.
  - right. subst. constructor.
Qed.

(** What the size pattern of [run_utils.py] accepts: digits, an optional [k]
    or [M], [B], and possibly a final newline. *)
Lemma size_pattern_shape (text : str) :
  Re.match_anchored RunUtils.size_pattern text = true ->
  exists ds u nl,
    decimal ds /\ (u = [] \/ u = ["k"%char] \/ u = ["M"%char]) /\
    (nl = [] \/ nl = [Re.newline]) /\ text = ds ++ u ++ ["B"%char] ++ nl.
Proof.
  unfold Re.match_anchored, RunUtils.size_pattern. rewrite fullmatch_lang.
  intros H. apply lang_cat in H as (body & nl & -> & Hbody & Hnl).
  apply lang_cat in Hbody as (ds & rest & -> & Hds & Hrest).
  apply lang_cat in Hrest as (u & b & -> & Hu & Hb).
  apply lang_plus_decimal in Hds. apply lang_chr in Hb. subst b.
  apply lang_opt in Hu, Hnl. rewrite lang_alt, !lang_chr in Hu.
  rewrite lang_chr in Hnl.
  exists ds, u, nl.
  split; [assumption|]. split; [tauto|]. split; [tauto|].
  rewrite <- !app_assoc. reflexivity.
Qed.

Lemma size_form_complete (ds u : str) :
  decimal ds ->
  u = [] \/ u = ["k"%char] \/ u = ["K"%char] \/ u = ["M"%char] ->
  Re.fullmatch size_form (ds ++ u ++ ["B"%char]) = true.
Proof.
  intros Hds Hu. apply fullmatch_lang. unfold size_form.
  constructor; [apply lang_plus_decimal; assumption|].
  constructor; [|apply lang_chr; reflexivity].
  apply lang_opt. rewrite !lang_alt, !lang_chr. tauto.
Qed.

(** A size followed by a newline passes the pattern but is never converted to
    a number. *)
Lemma size_string_to_int_newline (x : str) (n : Z) :
  RunUtils.size_string_to_int (x ++ ["B"%char; Re.newline])
  <> Return (Some n).
Proof.
  unfold RunUtils.size_string_to_int. cbn [lit list_ascii_of_string].
  rewrite drop_last_1_of_2, drop_last_2.
  rewrite (isdigit_app_false x "B" []) by reflexivity. simpl andb.
  rewrite !endswith_2. simpl.
  destruct (Py.isdigit x); discriminate.
Qed.

(** * [run_simulation] *)

(** A byte-unit variable that passes the checks of [run_simulation] is a
    string accepted by the size pattern and converted to a power of two. *)
Lemma check_variable_passes (variable : RunUtils.Variable_ RunUtils.pyvalue) :
  RunUtils.check_variable variable = Return tt ->
  RunUtils.units_is "B" (RunUtils.units variable) = true ->
  exists text n,
    RunUtils.value variable = RunUtils.VStr text /\
    Re.match_anchored RunUtils.size_pattern text = true /\
    RunUtils.size_string_to_int text = Return (Some n) /\
    power_of_two n.
Proof.
  unfold RunUtils.check_variable. intros H Hu. rewrite Hu in H.
  destruct (RunUtils.value variable) as [text|z]; [|discriminate].
  destruct (Re.match_anchored RunUtils.size_pattern text) eqn:Hm;
    [|discriminate].
  simpl in H.
  destruct (RunUtils.size_string_to_int text) as [[n|]|e] eqn:Hs;
    try discriminate.
  simpl in H.
  destruct (n =? 0)%Z eqn:Hz; [discriminate|].
  destruct (Z.land n (n - 1) =? 0)%Z eqn:Hl; [|discriminate].
  apply Z.eqb_neq in Hz. apply Z.eqb_eq in Hl.
  exists text, n. split; [reflexivity|]. split; [exact Hm|].
  split; [exact Hs|]. apply land_pred_power_of_two; assumption.
Qed.

Section RunSimulation.

Variable simulator : oracle.
Variable arguments : RunUtils.Namespace.

Lemma run_simulation_unfold (architecture benchmark : str)
  (variables : list (RunUtils.Variable_ RunUtils.pyvalue)) (part : str)
  (w : world) :
  RunUtils.run_simulation simulator arguments architecture benchmark
    variables part w
  = match RunUtils.benchmark_binary arguments benchmark with
    | Raise e => (Raise e, w)
    | Return chosen =>
        match RunUtils.architecture_binary architecture (fst chosen) with
        | Raise e => (Raise e, w)
        | Return binary =>
            match for_each variables
                    (fun v => lift (RunUtils.check_variable v)) w with
            | (Raise e, w') => (Raise e, w')
            | (Return _, w') =>
                for_each (snd chosen)
                  (fun option =>
                     RunUtils.run_option simulator arguments
                       (RunUtils.command_line arguments architecture binary
                          option variables part)) w'
            end
        end
    end.
Proof.
  unfold RunUtils.run_simulation, bind, lift.
  destruct (RunUtils.benchmark_binary arguments benchmark) as [chosen|e];
    [|reflexivity].
  destruct (RunUtils.architecture_binary architecture (fst chosen));
    reflexivity.
Qed.

(** Either the validation raises and nothing has happened, or it passes and
    the run is the loop over the options of the benchmark. *)
Lemma run_simulation_cases (architecture benchmark : str)
  (variables : list (RunUtils.Variable_ RunUtils.pyvalue)) (part : str)
  (w : world) :
  (exists e,
      RunUtils.run_simulation simulator arguments architecture benchmark
        variables part w = (Raise e, w)) \/
  (exists chosen binary,
      RunUtils.benchmark_binary arguments benchmark = Return chosen /\
      RunUtils.architecture_binary architecture (fst chosen) = Return binary /\
      Forall (fun v => RunUtils.check_variable v = Return tt) variables /\
      RunUtils.run_simulation simulator arguments architecture benchmark
        variables part w
      = for_each (snd chosen)
          (fun option =>
             RunUtils.run_option simulator arguments
               (RunUtils.command_line arguments architecture binary option
                  variables part)) w).
Proof.
  rewrite run_simulation_unfold.
  destruct (RunUtils.benchmark_binary arguments benchmark) as [chosen|e];
    [|left; eauto].
  destruct (RunUtils.architecture_binary architecture (fst chosen))
    as [binary|e] eqn:Ha; [|left; eauto].
  destruct (for_each_lift_cases RunUtils.check_variable variables w)
    as [[-> Hall] | [e ->]]; [|left; eauto].
  right. exists chosen, binary.
  split; [reflexivity|]. split; [exact Ha|]. split; [assumption|].
  reflexivity.
Qed.

End RunSimulation.

(** C10.  In [run_utils.py] a byte-unit size whose byte count is not a power
    of two makes [run_simulation] raise before the simulator is started, even
    when the size matches the pattern; and when the simulator has been
    started, every byte-unit size of the run converts to a power of two. *)
Theorem only_powers_of_two_reach_simulator (simulator : oracle)
  (arguments : RunUtils.Namespace) (architecture benchmark : str)
  (variables : list (RunUtils.Variable_ RunUtils.pyvalue)) (part : str)
  (w : world) :
  let run := RunUtils.run_simulation simulator arguments architecture
               benchmark variables part w in
  (forall variable text n,
      In variable variables ->
      RunUtils.units_is "B" (RunUtils.units variable) = true ->
      RunUtils.value variable = RunUtils.VStr text ->
      RunUtils.size_string_to_int text = Return (Some n) ->
      ~ power_of_two n ->
      raises (fst run) /\ trace (snd run) = trace w) /\
  (trace (snd run) <> trace w ->
   forall variable,
     In variable variables ->
     RunUtils.units_is "B" (RunUtils.units variable) = true ->
     exists text n,
       RunUtils.value variable = RunUtils.VStr text /\
       RunUtils.size_string_to_int text = Return (Some n) /\
       power_of_two n).
Proof.
  intros run. subst run.
  destruct (run_simulation_cases simulator arguments architecture benchmark
              variables part w)
    as [[e E] | (chosen & binary & _ & _ & Hall & _)].
  - rewrite E. simpl. split.
    + intros. split; [exists e|]; reflexivity.
    + intros H. congruence.
  - rewrite Forall_forall in Hall. split.
    + intros variable text n Hin Hu Hv Hs Hn. exfalso. apply Hn.
      destruct (check_variable_passes _ (Hall _ Hin) Hu)
        as (text' & n' & Hv' & _ & Hs' & Hp).
      congruence.
    + intros _ variable Hin Hu.
      destruct (check_variable_passes _ (Hall _ Hin) Hu)
        as (text & n & Hv & _ & Hs & Hp).
      exists text, n. auto.
Qed.

Lemma not_power_of_two_3072 : ~ power_of_two 3072.
Proof.
  intros H. apply power_of_two_land_pred in H as [_ H]. discriminate.
Qed.

Lemma only_powers_of_two_reach_simulator_witness :
  let run := RunUtils.run_simulation (fixed_simulator 0 stats_complete)
               sample_namespace (lit "X86") (lit "crc")
               [icache_variable "3kB"] (lit "a") empty_world in
  raises (fst run) /\ trace (snd run) = trace empty_world.
Proof.
  refine (proj1 (@only_powers_of_two_reach_simulator
                   (fixed_simulator 0 stats_complete) sample_namespace
                   (lit "X86") (lit "crc") [icache_variable "3kB"] (lit "a")
                   empty_world)
                (icache_variable "3kB") (lit "3kB") 3072%Z _ _ _ _ _).
  - left. reflexivity.
  - reflexivity.
  - reflexivity.
  - reflexivity.
  - exact not_power_of_two_3072.
Defined.

(** * Sizes that do not match *)

Section RunBenchmark.

Variable simulator : oracle.
Variable args : Aca.Args.

Lemma run_benchmark_unfold (architecture benchmark icache_size dcache_size : str)
  (w : world) :
  Aca.run_benchmark simulator args architecture benchmark icache_size
    dcache_size w
  = match Aca.benchmark_binary args benchmark with
    | Raise e => (Raise e, w)
    | Return chosen =>
        match Aca.architecture_binary architecture (fst chosen) with
        | Raise e => (Raise e, w)
        | Return binary =>
            match Aca.check_cache_sizes icache_size dcache_size with
            | Raise e => (Raise e, w)
            | Return _ =>
                for_each (snd chosen)
                  (fun argument =>
                     Aca.run_argument simulator args
                       (Aca.command_line architecture binary argument
                          icache_size dcache_size)) w
            end
        end
    end.
Proof.
  unfold Aca.run_benchmark, bind, lift.
  destruct (Aca.benchmark_binary args benchmark) as [chosen|e];
    [|reflexivity].
  destruct (Aca.architecture_binary architecture (fst chosen));
    [|reflexivity].
  destruct (Aca.check_cache_sizes icache_size dcache_size); reflexivity.
Qed.

Lemma run_benchmark_bad_size (architecture benchmark icache_size dcache_size : str)
  (w : world) :
  Re.match_anchored Aca.cache_size_pattern (Py.upper icache_size) = false \/
  Re.match_anchored Aca.cache_size_pattern (Py.upper dcache_size) = false ->
  exists e,
    Aca.run_benchmark simulator args architecture benchmark icache_size
      dcache_size w = (Raise e, w).
Proof.
  intros H. rewrite run_benchmark_unfold.
  destruct (Aca.benchmark_binary args benchmark) as [chosen|e]; [|eauto].
  destruct (Aca.architecture_binary architecture (fst chosen)); [|eauto].
  unfold Aca.check_cache_sizes.
  destruct (Re.match_anchored Aca.cache_size_pattern (Py.upper icache_size));
    simpl; [|eauto].
  destruct H as [H|H]; [discriminate|]. rewrite H. simpl. eauto.
Qed.

End RunBenchmark.

(** A byte-unit variable whose value is not of the form digits, optional
    [k], [K] or [M], [B] does not pass the checks of [run_simulation]. *)
Lemma check_variable_bad_size (variable : RunUtils.Variable_ RunUtils.pyvalue)
  (text : str) :
  RunUtils.units_is "B" (RunUtils.units variable) = true ->
  RunUtils.value variable = RunUtils.VStr text ->
  Re.fullmatch size_form text = false ->
  RunUtils.check_variable variable <> Return tt.
Proof.
  intros Hu Hv Hbad Hok.
  destruct (check_variable_passes _ Hok Hu) as (text' & n & Hv' & Hm & Hs & _).
  assert (text' = text) by congruence. subst text'.
  apply size_pattern_shape in Hm
    as (ds & u & nl & Hds & Hcase & Hnl & ->).
  destruct Hnl as [-> | ->].
  - change (["B"%char] ++ []) with ["B"%char] in Hbad.
    rewrite (size_form_complete (u := u) Hds) in Hbad by tauto. discriminate.
  - change (["B"%char] ++ [Re.newline]) with ["B"%char; Re.newline] in Hs.
    rewrite app_assoc in Hs. eapply size_string_to_int_newline. exact Hs.
Qed.

(** What the pattern of [aca.py] accepts is of the form digits, an optional
    [K] or [M], [B], and possibly a final newline. *)
Lemma cache_size_pattern_form (text : str) :
  Re.match_anchored Aca.cache_size_pattern text = true ->
  Re.fullmatch upper_size_form text = true.
Proof.
  unfold Re.match_anchored, Aca.cache_size_pattern, upper_size_form.
  rewrite !fullmatch_lang. intros H.
  apply lang_cat in H as (body & nl & -> & Hbody & Hnl).
  apply lang_cat in Hbody as (ds & rest & -> & Hds & Hrest).
  apply lang_cat in Hrest as (u & b & -> & Hu & Hb).
  rewrite <- !app_assoc.
  constructor; [exact Hds|]. constructor; [exact Hu|].
  constructor; assumption.
Qed.

Lemma not_upper_size_form_rejected (size : str) :
  Re.fullmatch upper_size_form (Py.upper size) = false ->
  Re.match_anchored Aca.cache_size_pattern (Py.upper size) = false.
Proof.
  intros H.
  destruct (Re.match_anchored Aca.cache_size_pattern (Py.upper size)) eqn:E;
    [|reflexivity].
  apply cache_size_pattern_form in E. congruence.
Qed.

(** C7, refuted as stated: ["16kb"] is not digits, an optional [k], [K] or
    [M], then [B], yet [run_benchmark] of [aca.py] accepts it, because it
    matches its pattern against the upper-cased string, and starts the
    simulator. *)
Lemma lower_case_size_reaches_simulator :
  Re.fullmatch size_form (lit "16kb") = false /\
  let run := Aca.run_benchmark (fixed_simulator 0 stats_complete) sample_args
               (lit "X86") (lit "crc") (lit "16kb") (lit "16kb") empty_world in
  fst run = Return tt /\ length (spawns (trace (snd run))) = 1%nat.
Proof. repeat split; reflexivity. Qed.

(** A size that ends in a newline is not digits, an optional [k], [K] or [M],
    then [B] either, and [run_benchmark] of [aca.py] accepts it as well: the
    [$] of its pattern also matches before a final newline. *)
Example size_with_final_newline_reaches_simulator :
  Re.fullmatch size_form (lit "16KB" ++ [Re.newline]) = false /\
  let run := Aca.run_benchmark (fixed_simulator 0 stats_complete) sample_args
               (lit "X86") (lit "crc") (lit "16KB" ++ [Re.newline])
               (lit "16KB") empty_world in
  fst run = Return tt /\ length (spawns (trace (snd run))) = 1%nat.
Proof. repeat split; reflexivity. Qed.

(** C7, amended.  [run_benchmark] of [aca.py] raises before the simulator is
    started for every cache size whose upper-cased form is not digits, an
    optional [K] or [M], then [B], possibly followed by one final newline;
    [run_simulation] of [run_utils.py] raises before the simulator is started
    for every byte-unit value that is not digits, an optional [k], [K] or
    [M], then [B]. *)
Theorem malformed_size_raises_before_simulator :
  (forall (simulator : oracle) (args : Aca.Args)
          (architecture benchmark icache_size dcache_size : str) (w : world),
      Re.fullmatch upper_size_form (Py.upper icache_size) = false \/
      Re.fullmatch upper_size_form (Py.upper dcache_size) = false ->
      let run := Aca.run_benchmark simulator args architecture benchmark
                   icache_size dcache_size w in
      raises (fst run) /\ trace (snd run) = trace w) /\
  (forall (simulator : oracle) (arguments : RunUtils.Namespace)
          (architecture benchmark : str)
          (variables : list (RunUtils.Variable_ RunUtils.pyvalue))
          (part : str) (w : world)
          (variable : RunUtils.Variable_ RunUtils.pyvalue) (text : str),
      In variable variables ->
      RunUtils.units_is "B" (RunUtils.units variable) = true ->
      RunUtils.value variable = RunUtils.VStr text ->
      Re.fullmatch size_form text = false ->
      let run := RunUtils.run_simulation simulator arguments architecture
                   benchmark variables part w in
      raises (fst run) /\ trace (snd run) = trace w).
Proof.
  split.
  - intros simulator args architecture benchmark icache_size dcache_size w H.
    assert (H' : Re.match_anchored Aca.cache_size_pattern
                   (Py.upper icache_size) = false \/
                 Re.match_anchored Aca.cache_size_pattern
                   (Py.upper dcache_size) = false)
      by (destruct H; [left | right];
          apply not_upper_size_form_rejected; assumption).
    destruct (run_benchmark_bad_size simulator args architecture benchmark
                icache_size dcache_size w H') as [e E].
    simpl. rewrite E. split; [exists e|]; reflexivity.
  - intros simulator arguments architecture benchmark variables part w
           variable text Hin Hu Hv Hbad.
    destruct (run_simulation_cases simulator arguments architecture benchmark
                variables part w)
      as [[e E] | (chosen & binary & _ & _ & Hall & _)].
    + simpl. rewrite E. split; [exists e|]; reflexivity.
    + exfalso. rewrite Forall_forall in Hall.
      exact (check_variable_bad_size _ Hu Hv Hbad (Hall _ Hin)).
Qed.

Lemma malformed_size_raises_before_simulator_witness :
  (let run := Aca.run_benchmark (fixed_simulator 0 stats_complete) sample_args
                (lit "X86") (lit "crc") (lit "16GB") (lit "16kB") empty_world in
   raises (fst run) /\ trace (snd run) = trace empty_world) /\
  (let run := RunUtils.run_simulation (fixed_simulator 0 stats_complete)
                sample_namespace (lit "X86") (lit "crc")
                [icache_variable "16kb"] (lit "a") empty_world in
   raises (fst run) /\ trace (snd run) = trace empty_world).
Proof.
  split.
  - apply (proj1 malformed_size_raises_before_simulator).
    left. reflexivity.
  - apply (proj2 malformed_size_raises_before_simulator) 
      with (variable := icache_variable "16kb") (text := lit "16kb").
    + left. reflexivity.
    + reflexivity.
    + reflexivity.
    + reflexivity.
Defined.

(** * Return codes *)

(** [wait] never raises [CalledProcessError]: the handler [aca.py] has for it
    is never entered. *)
Lemma wait_never_raises_CalledProcessError (process : wait_outcome)
  (returncode : Z) (cmd : list str) :
  Subprocess.wait process <> Raise (CalledProcessError returncode cmd).
Proof. destruct process; discriminate. Qed.

Lemma run_option_same_but_codes (sim sim' : oracle)
  (arguments : RunUtils.Namespace) (command : list str) (w : world) :
  same_but_codes sim sim' ->
  RunUtils.run_option sim arguments command w
  = RunUtils.run_option sim' arguments command w.
Proof.
  intros H. specialize (H (trace w) (fs w) command).
  unfold RunUtils.run_option, bind, Subprocess.Popen.
  destruct (sim (trace w) (fs w) command) as [|[rc|] after],
           (sim' (trace w) (fs w) command) as [|[rc'|] after'];
    try contradiction; subst; reflexivity.
Qed.

Lemma run_argument_same_but_codes (sim sim' : oracle) (args : Aca.Args)
  (command : list str) (w : world) :
  same_but_codes sim sim' ->
  Aca.run_argument sim args command w = Aca.run_argument sim' args command w.
Proof.
  intros H. specialize (H (trace w) (fs w) command).
  unfold Aca.run_argument, bind, Subprocess.Popen.
  destruct (sim (trace w) (fs w) command) as [|[rc|] after],
           (sim' (trace w) (fs w) command) as [|[rc'|] after'];
    try contradiction; subst; reflexivity.
Qed.

(** The same holds of [run_benchmark] in [aca.py], handler or not. *)
Lemma run_benchmark_same_but_codes (sim sim' : oracle) (args : Aca.Args)
  (architecture benchmark icache_size dcache_size : str) (w : world) :
  same_but_codes sim sim' ->
  Aca.run_benchmark sim args architecture benchmark icache_size dcache_size w
  = Aca.run_benchmark sim' args architecture benchmark icache_size
      dcache_size w.
Proof.
  intros H. rewrite !run_benchmark_unfold.
  destruct (Aca.benchmark_binary args benchmark) as [chosen|e];
    [|reflexivity].
  destruct (Aca.architecture_binary architecture (fst chosen));
    [|reflexivity].
  destruct (Aca.check_cache_sizes icache_size dcache_size); [|reflexivity].
  apply for_each_ext. intros. apply run_argument_same_but_codes. assumption.
Qed.

(** With a simulator that always runs to its end, the loop over the options
    returns. *)
Lemma run_options_return (sim : oracle) (arguments : RunUtils.Namespace)
  (command : str -> list str) (options : list str) :
  (forall history disk c,
      exists returncode after,
        sim history disk c = Launched (Exited returncode) after) ->
  forall w,
    fst (for_each options
           (fun option => RunUtils.run_option sim arguments (command option)) w)
    = Return tt.
Proof.
  intros Hsim. induction options as [|o options IH]; intros w; [reflexivity|].
  simpl. unfold bind at 1. unfold RunUtils.run_option, bind, Subprocess.Popen.
  destruct (Hsim (trace w) (fs w) (command o)) as (rc & after & ->).
  simpl. apply IH.
Qed.

(** C2, refuted as stated: with a simulator that exits with code 1 at every
    invocation, [run_simulation] of [run_utils.py] and [run_benchmark] of
    [aca.py] both start it and return normally. *)
Lemma nonzero_exit_does_not_raise :
  (let run := RunUtils.run_simulation (fixed_simulator 1 stats_complete)
                sample_namespace (lit "X86") (lit "crc")
                [icache_variable "16kB"] (lit "a") empty_world in
   fst run = Return tt /\ length (spawns (trace (snd run))) = 1%nat) /\
  (let run := Aca.run_benchmark (fixed_simulator 1 stats_complete) sample_args
                (lit "X86") (lit "crc") (lit "16kB") (lit "16kB") empty_world in
   fst run = Return tt /\ length (spawns (trace (snd run))) = 1%nat).
Proof. repeat split; reflexivity. Qed.

(** C2, amended.  [run_simulation] of [run_utils.py] does not look at the
    return code of the simulator: two simulators that differ only in the codes
    they exit with give the same run; and with a simulator that always runs
    to its end, whatever the codes, the run either fails its validation
    before anything is started or returns normally. *)
Theorem run_simulation_ignores_return_codes (sim sim' : oracle)
  (arguments : RunUtils.Namespace) (architecture benchmark : str)
  (variables : list (RunUtils.Variable_ RunUtils.pyvalue)) (part : str)
  (w : world) :
  (same_but_codes sim sim' ->
   RunUtils.run_simulation sim arguments architecture benchmark variables
     part w
   = RunUtils.run_simulation sim' arguments architecture benchmark variables
       part w) /\
  ((forall history disk c,
       exists returncode after,
         sim history disk c = Launched (Exited returncode) after) ->
   let run := RunUtils.run_simulation sim arguments architecture benchmark
                variables part w in
   fst run = Return tt \/ (raises (fst run) /\ snd run = w)).
Proof.
  split.
  - intros H. rewrite !run_simulation_unfold.
    destruct (RunUtils.benchmark_binary arguments benchmark) as [chosen|e];
      [|reflexivity].
    destruct (RunUtils.architecture_binary architecture (fst chosen));
      [|reflexivity].
    destruct (for_each variables
                (fun v => lift (RunUtils.check_variable v)) w)
      as [[[]|e] w']; [|reflexivity].
    apply for_each_ext. intros. apply run_option_same_but_codes. assumption.
  - intros Hsim run. subst run.
    destruct (run_simulation_cases sim arguments architecture benchmark
                variables part w)
      as [[e E] | (chosen & binary & _ & _ & _ & E)]; rewrite E.
    + right. simpl. split; [exists e|]; reflexivity.
    + left. apply run_options_return. exact Hsim.
Qed.

Lemma run_simulation_ignores_return_codes_witness :
  RunUtils.run_simulation (fixed_simulator 1 stats_complete) sample_namespace
    (lit "X86") (lit "crc") [icache_variable "16kB"] (lit "a") empty_world
  = RunUtils.run_simulation (fixed_simulator 0 stats_complete) sample_namespace
      (lit "X86") (lit "crc") [icache_variable "16kB"] (lit "a") empty_world.
Proof.
  apply (proj1 (@run_simulation_ignores_return_codes
                  (fixed_simulator 1 stats_complete)
                  (fixed_simulator 0 stats_complete) sample_namespace
                  (lit "X86") (lit "crc") [icache_variable "16kB"] (lit "a")
                  empty_world)).
  intros history disk command. simpl. reflexivity.
Defined.

(** * Sweeps *)

Lemma chunks_of_app {A} (P : A -> list event -> Prop) (xs ys : list A)
  (e1 e2 : list event) :
  chunks_of P xs e1 -> chunks_of P ys e2 -> chunks_of P (xs ++ ys) (e1 ++ e2).
Proof.
  induction 1 as [|x xs chunk evs Hx _ IH]; intros Hys; [exact Hys|].
  simpl. rewrite <- app_assoc. constructor; auto.
Qed.

Lemma chunks_of_map {A B} (f : A -> B) (P : B -> list event -> Prop)
  (xs : list A) (evs : list event) :
  chunks_of (fun x => P (f x)) xs evs -> chunks_of P (map f xs) evs.
Proof. induction 1; simpl; constructor; assumption. Qed.

(** Chunks of an outer loop made of chunks of an inner loop are the chunks
    of the product of the two loops. *)
Lemma chunks_of_nested {A B} (P : A * B -> list event -> Prop)
  (inner : list B) (xs : list A) (evs : list event) :
  chunks_of (fun x e => chunks_of (fun y => P (x, y)) inner e) xs evs ->
  chunks_of P (flat_map (fun x => map (pair x) inner) xs) evs.
Proof.
  induction 1 as [|x xs chunk evs Hx _ IH]; simpl; [constructor|].
  apply chunks_of_app; [|exact IH].
  apply chunks_of_map with (f := pair x). exact Hx.
Qed.

Lemma chunks_of_length {A} (P : A -> list event -> Prop) (xs : list A)
  (evs : list event) (count : list event -> nat) :
  (forall e1 e2, count (e1 ++ e2) = count e1 + count e2) ->
  (forall x chunk, P x chunk -> count chunk = 1) ->
  chunks_of P xs evs -> count evs = length xs.
Proof.
  intros Happ Hone. induction 1 as [|x xs chunk evs Hx _ IH].
  - specialize (Happ [] []). simpl in *. lia.
  - rewrite Happ, (Hone _ _ Hx), IH. reflexivity.
Qed.

(** A loop that returns has gone through every element, in order. *)
Lemma for_each_chunks {A} (P : A -> list event -> Prop) (body : A -> M unit) :
  (forall x w w', body x w = (Return tt, w') ->
                  exists chunk, P x chunk /\ trace w' = trace w ++ chunk) ->
  forall xs w w',
    for_each xs body w = (Return tt, w') ->
    exists evs, chunks_of P xs evs /\ trace w' = trace w ++ evs.
Proof.
  intros Hbody. induction xs as [|x xs IH]; intros w w' H.
  - injection H as <-. exists []. split; [constructor|].
    symmetry. apply app_nil_r.
  - simpl in H. unfold bind in H.
    destruct (body x w) as [[[]|e] w1] eqn:E; [|discriminate].
    destruct (Hbody _ _ _ E) as (chunk & Hx & Ht).
    destruct (IH _ _ H) as (evs & Hxs & Ht').
    exists (chunk ++ evs). split; [constructor; assumption|].
    rewrite Ht', Ht, app_assoc. reflexivity.
Qed.

(** An exception raised in the body ends the loop with that exception. *)
Lemma for_each_raise {A} (body : A -> M unit) (x : A) (xs : list A)
  (w w' : world) (e : exn) :
  body x w = (Raise e, w') -> for_each (x :: xs) body w = (Raise e, w').
Proof. intros H. simpl. unfold bind. rewrite H. reflexivity. Qed.

Lemma cpi_world (w : world) : snd (Aca.cpi w) = w.
Proof.
  unfold Aca.cpi, bind, open_read, lift.
  destruct (fs w Aca.stats_path); reflexivity.
Qed.

Lemma get_statistic_world (is_float : str -> bool) (gem5_path statistic : str)
  (w : world) :
  snd (RunUtils.get_statistic is_float gem5_path statistic w) = w.
Proof.
  unfold RunUtils.get_statistic, bind, open_read, lift.
  destruct (fs w (RunUtils.stats_path gem5_path)); reflexivity.
Qed.

Section AcaSweep.

Variable simulator : oracle.
Variable args : Aca.Args.

Lemma run_argument_trace (command : list str) (w w' : world) :
  Aca.run_argument simulator args command w = (Return tt, w') ->
  trace w' = trace w ++ [Spawn command (negb (Aca.verbose args))].
Proof.
  unfold Aca.run_argument, bind, Subprocess.Popen.
  destruct (simulator (trace w) (fs w) command) as [|[rc|] after]; simpl;
    intros H; try discriminate.
  injection H as <-. reflexivity.
Qed.

Lemma chunks_of_singletons {A} (f : A -> event) (xs : list A)
  (evs : list event) :
  chunks_of (fun x chunk => chunk = [f x]) xs evs -> evs = map f xs.
Proof. induction 1; simpl; subst; reflexivity. Qed.

Lemma run_benchmark_trace
  (architecture benchmark icache_size dcache_size : str) (w w' : world) :
  Aca.run_benchmark simulator args architecture benchmark icache_size
    dcache_size w = (Return tt, w') ->
  exists chosen binary,
    Aca.benchmark_binary args benchmark = Return chosen /\
    Aca.architecture_binary architecture (fst chosen) = Return binary /\
    trace w' =
    trace w
    ++ map (fun argument =>
              Spawn (Aca.command_line architecture binary argument
                       icache_size dcache_size) (negb (Aca.verbose args)))
         (snd chosen).
Proof.
  rewrite run_benchmark_unfold.
  destruct (Aca.benchmark_binary args benchmark) as [chosen|e];
    [|discriminate].
  destruct (Aca.architecture_binary architecture (fst chosen))
    as [binary|e] eqn:Ha; [|discriminate].
  destruct (Aca.check_cache_sizes icache_size dcache_size); [|discriminate].
  intros H. exists chosen, binary. split; [reflexivity|]. split; [exact Ha|].
  apply for_each_chunks
    with (P := fun argument chunk =>
                 chunk = [Spawn (Aca.command_line architecture binary argument
                                   icache_size dcache_size)
                            (negb (Aca.verbose args))])
    in H as (evs & Hc & ->).
  - apply chunks_of_singletons in Hc. subst evs. reflexivity.
  - intros x w0 w1 E. eexists. split; [reflexivity|].
    apply run_argument_trace. exact E.
Qed.

Lemma aca_sweep_point_chunk
  (architecture benchmark icache_size dcache_size : str) (w w' : world) :
  Aca.sweep_point simulator args architecture benchmark icache_size
    dcache_size w = (Return tt, w') ->
  exists chunk,
    aca_point args (architecture, (benchmark, (icache_size, dcache_size)))
      chunk /\
    trace w' = trace w ++ chunk.
Proof.
  unfold Aca.sweep_point. unfold bind at 1.
  destruct (Aca.run_benchmark simulator args architecture benchmark
              icache_size dcache_size w) as [[[]|e] w1] eqn:E; [|discriminate].
  apply run_benchmark_trace in E as (chosen & binary & Hb & Ha & Ht).
  unfold bind, lift.
  destruct (Aca.size_string_to_int icache_size) as [i|e] eqn:Hi;
    [|discriminate].
  destruct (Aca.size_string_to_int dcache_size) as [d|e] eqn:Hd;
    [|discriminate].
  pose proof (cpi_world w1) as Hw.
  destruct (Aca.cpi w1) as [[c|e] w2]; [|discriminate].
  simpl in Hw. subst w2. unfold emit. intros H. injection H as <-.
  eexists. split.
  - unfold aca_point. exists chosen, binary, i, d, c.
    split; [exact Hb|]. split; [exact Ha|]. split; [exact Hi|].
    split; [exact Hd|reflexivity].
  - simpl. rewrite Ht, app_assoc. reflexivity.
Qed.

(** The four nested loops of [aca.py] visit the points of the grid in order,
    one chunk of events for each. *)
Lemma aca_sweep_chunks (w w' : world) :
  Aca.sweep simulator args w = (Return tt, w') ->
  exists evs,
    trace w' = trace w ++ evs /\
    chunks_of (aca_point args)
      (grid (Aca.architectures args) (Aca.benchmarks args)
         (Aca.icache_sizes args) (Aca.dcache_sizes args)) evs.
Proof.
  unfold Aca.sweep, grid. intros H.
  apply for_each_chunks
    with (P := fun a e =>
                 chunks_of (fun q => aca_point args (a, q))
                   (flat_map (fun b => map (pair b)
                      (flat_map (fun i => map (pair i) (Aca.dcache_sizes args))
                                (Aca.icache_sizes args)))
                      (Aca.benchmarks args)) e)
    in H as (evs & Hc & Ht).
  - exists evs. split; [exact Ht|]. apply chunks_of_nested. exact Hc.
  - clear. intros a w w' H.
    apply for_each_chunks
      with (P := fun b e =>
                   chunks_of (fun q => aca_point args (a, (b, q)))
                     (flat_map (fun i => map (pair i) (Aca.dcache_sizes args))
                               (Aca.icache_sizes args)) e)
      in H as (evs & Hc & Ht).
    + exists evs. split; [|exact Ht].
      apply (chunks_of_nested (fun q => aca_point args (a, q))). exact Hc.
    + clear. intros b w w' H.
      apply for_each_chunks
        with (P := fun i e =>
                     chunks_of (fun d => aca_point args (a, (b, (i, d))))
                       (Aca.dcache_sizes args) e)
        in H as (evs & Hc & Ht).
      * exists evs. split; [|exact Ht].
        apply (chunks_of_nested (fun q => aca_point args (a, (b, q)))).
        exact Hc.
      * clear. intros i w w' H.
        apply for_each_chunks
          with (P := fun d => aca_point args (a, (b, (i, d))))
          in H as (evs & Hc & Ht).
        -- exists evs. auto.
        -- clear. intros d w w' H. apply aca_sweep_point_chunk. exact H.
Qed.

End AcaSweep.

Section RunUtilsSweep.

Variable simulator : oracle.
Variable is_float : str -> bool.
Variable arguments : RunUtils.Namespace.

Lemma run_option_trace (command : list str) (w w' : world) :
  RunUtils.run_option simulator arguments command w = (Return tt, w') ->
  trace w' = trace w ++ [Spawn command (negb (RunUtils.verbose arguments))].
Proof.
  unfold RunUtils.run_option, bind, Subprocess.Popen.
  destruct (simulator (trace w) (fs w) command) as [|[rc|] after]; simpl;
    intros H; try discriminate.
  injection H as <-. reflexivity.
Qed.

Lemma run_simulation_trace (architecture benchmark : str)
  (variables : list (RunUtils.Variable_ RunUtils.pyvalue)) (part : str)
  (w w' : world) :
  RunUtils.run_simulation simulator arguments architecture benchmark
    variables part w = (Return tt, w') ->
  exists chosen binary,
    RunUtils.benchmark_binary arguments benchmark = Return chosen /\
    RunUtils.architecture_binary architecture (fst chosen) = Return binary /\
    trace w' =
    trace w
    ++ map (fun option =>
              Spawn (RunUtils.command_line arguments architecture binary
                       option variables part)
                    (negb (RunUtils.verbose arguments)))
         (snd chosen).
Proof.
  intros H.
  destruct (run_simulation_cases simulator arguments architecture benchmark
              variables part w)
    as [[e E] | (chosen & binary & Hb & Ha & _ & E)]; [congruence|].
  rewrite E in H. exists chosen, binary. split; [exact Hb|].
  split; [exact Ha|].
  apply for_each_chunks
    with (P := fun option chunk =>
                 chunk = [Spawn (RunUtils.command_line arguments architecture
                                   binary option variables part)
                            (negb (RunUtils.verbose arguments))])
    in H as (evs & Hc & ->).
  - apply chunks_of_singletons in Hc. subst evs. reflexivity.
  - intros x w0 w1 E'. eexists. split; [reflexivity|].
    apply run_option_trace. exact E'.
Qed.

Lemma run_utils_sweep_point_chunk (p : RunUtils.Part)
  (architecture benchmark : str) (v0 v1 : RunUtils.pyvalue) (w w' : world) :
  RunUtils.sweep_point simulator is_float arguments p architecture benchmark
    v0 v1 w = (Return tt, w') ->
  exists chunk,
    run_utils_point arguments p (architecture, (benchmark, (v0, v1))) chunk /\
    trace w' = trace w ++ chunk.
Proof.
  unfold RunUtils.sweep_point. cbv zeta. unfold bind at 1.
  match goal with
  | |- context [RunUtils.run_simulation ?s ?a ?ar ?b ?vs ?pt w] =>
      destruct (RunUtils.run_simulation s a ar b vs pt w)
        as [[[]|e] w1] eqn:E; [|discriminate]
  end.
  apply run_simulation_trace in E as (chosen & binary & Hb & Ha & Ht).
  unfold bind, lift.
  match goal with
  | |- context [RunUtils.variable_cells ?vs] =>
      destruct (RunUtils.variable_cells vs) as [cells|e] eqn:Hc;
        [|discriminate]
  end.
  pose proof (get_statistic_world is_float (RunUtils.gem5_path arguments)
                (RunUtils.statistic p) w1) as Hw.
  destruct (RunUtils.get_statistic is_float (RunUtils.gem5_path arguments)
              (RunUtils.statistic p) w1) as [[stat|e] w2]; [|discriminate].
  simpl in Hw. subst w2. unfold emit. intros H. injection H as <-.
  eexists. split.
  - unfold run_utils_point. exists chosen, binary, cells, stat.
    split; [exact Hb|]. split; [exact Ha|]. split; [exact Hc|reflexivity].
  - simpl. rewrite Ht, app_assoc. reflexivity.
Qed.

(** The loops of [run_simulations] for one part visit the grid built on the
    first architecture alone. *)
Lemma run_utils_sweep_part_chunks (p : RunUtils.Part) (w w' : world) :
  RunUtils.sweep_part simulator is_float arguments p w = (Return tt, w') ->
  exists first others evs,
    RunUtils.architectures arguments = first :: others /\
    trace w' = trace w ++ evs /\
    chunks_of (run_utils_point arguments p)
      (grid [first] (RunUtils.benchmarks arguments)
         (RunUtils.value (fst (RunUtils.variables p)))
         (RunUtils.value (snd (RunUtils.variables p)))) evs.
Proof.
  unfold RunUtils.sweep_part, RunUtils.part_architectures,
    RunUtils.Part_ne_str, Py.index.
  unfold bind at 1. unfold lift.
  destruct (RunUtils.architectures arguments) as [|first others];
    [discriminate|].
  simpl nth_error. cbv beta iota. simpl bind_result. intros H.
  exists first, others.
  apply for_each_chunks
    with (P := fun a e =>
                 chunks_of (fun q => run_utils_point arguments p (a, q))
                   (flat_map (fun b => map (pair b)
                      (flat_map (fun x => map (pair x)
                                   (RunUtils.value (snd (RunUtils.variables p))))
                                (RunUtils.value (fst (RunUtils.variables p)))))
                      (RunUtils.benchmarks arguments)) e)
    in H as (evs & Hc & Ht).
  - exists evs. split; [reflexivity|]. split; [exact Ht|].
    unfold grid. apply chunks_of_nested. exact Hc.
  - clear. intros a w w' H.
    apply for_each_chunks
      with (P := fun b e =>
                   chunks_of (fun q => run_utils_point arguments p (a, (b, q)))
                     (flat_map (fun x => map (pair x)
                                  (RunUtils.value (snd (RunUtils.variables p))))
                               (RunUtils.value (fst (RunUtils.variables p)))) e)
      in H as (evs & Hc & Ht).
    + exists evs. split; [|exact Ht].
      apply (chunks_of_nested (fun q => run_utils_point arguments p (a, q))).
      exact Hc.
    + clear. intros b w w' H.
      apply for_each_chunks
        with (P := fun x e =>
                     chunks_of
                       (fun y => run_utils_point arguments p (a, (b, (x, y))))
                       (RunUtils.value (snd (RunUtils.variables p))) e)
        in H as (evs & Hc & Ht).
      * exists evs. split; [|exact Ht].
        apply (chunks_of_nested
                 (fun q => run_utils_point arguments p (a, (b, q)))).
        exact Hc.
      * clear. intros x w w' H.
        apply for_each_chunks
          with (P := fun y => run_utils_point arguments p (a, (b, (x, y))))
          in H as (evs & Hc & Ht).
        -- exists evs. auto.
        -- clear. intros y w w' H.
           apply run_utils_sweep_point_chunk. exact H.
Qed.

End RunUtilsSweep.

Lemma rows_app (e1 e2 : list event) : rows (e1 ++ e2) = rows e1 ++ rows e2.
Proof. unfold rows. apply flat_map_app. Qed.

Lemma rows_spawns {A} (f : A -> list str) (piped : bool) (xs : list A) :
  rows (map (fun x => Spawn (f x) piped) xs) = [].
Proof. induction xs; simpl; auto. Qed.

Lemma count_rows_app (e1 e2 : list event) :
  length (rows (e1 ++ e2)) = length (rows e1) + length (rows e2).
Proof. rewrite rows_app. apply length_app. Qed.

Lemma aca_point_one_row (args : Aca.Args) (p : str * (str * (str * str)))
  (chunk : list event) :
  aca_point args p chunk -> length (rows chunk) = 1.
Proof.
  destruct p as (a & b & i & d). intros (chosen & binary & i' & d' & c & H).
  destruct H as (_ & _ & _ & _ & ->).
  rewrite rows_app, rows_spawns. reflexivity.
Qed.

Lemma run_utils_point_one_row (arguments : RunUtils.Namespace)
  (p : RunUtils.Part)
  (point : str * (str * (RunUtils.pyvalue * RunUtils.pyvalue)))
  (chunk : list event) :
  run_utils_point arguments p point chunk -> length (rows chunk) = 1.
Proof.
  destruct point as (a & b & x & y).
  intros (chosen & binary & cells & stat & H).
  destruct H as (_ & _ & _ & ->).
  rewrite rows_app, rows_spawns. reflexivity.
Qed.

(** C5, refuted as stated: swept over two architectures, part b of
    [run_utils.py] runs the first one only; the grid has two points and one
    row is written. *)
Lemma part_b_sweeps_first_architecture_only :
  let run := RunUtils.sweep_part (fixed_simulator 0 stats_complete) any_float
               sample_namespace (part_b [1%Z] [64%Z]) empty_world in
  fst run = Return tt /\
  length (grid (RunUtils.architectures sample_namespace)
            (RunUtils.benchmarks sample_namespace)
            [RunUtils.VInt 1] [RunUtils.VInt 64]) = 2 /\
  length (rows (trace (snd run))) = 1 /\
  length (spawns (trace (snd run))) = 1.
Proof. repeat split; reflexivity. Qed.

(** Nor is the simulator started once at each point: the benchmark [susan]
    has three argument strings, and a point of it starts the simulator three
    times before its row is written. *)
Example susan_point_starts_simulator_three_times :
  let run := Aca.sweep_point (fixed_simulator 0 stats_complete) sample_args
               (lit "X86") (lit "susan") (lit "16kB") (lit "16kB")
               empty_world in
  fst run = Return tt /\
  length (spawns (trace (snd run))) = 3 /\
  length (rows (trace (snd run))) = 1.
Proof. repeat split; reflexivity. Qed.

(** C5, amended.  A sweep of [aca.py] that completes has gone through the
    full grid architectures x benchmarks x instruction-cache sizes x
    data-cache sizes in nested order, the architecture outermost; at each
    point it started the simulator once for each argument string of the
    benchmark and then wrote the one row of the point.  A sweep of part b of
    [run_utils.py] that completes has done the same over the grid built on
    the first architecture alone. *)
Theorem sweep_visits_grid_in_order :
  (forall (simulator : oracle) (args : Aca.Args) (w w' : world),
      Aca.sweep simulator args w = (Return tt, w') ->
      exists evs,
        trace w' = trace w ++ evs /\
        chunks_of (aca_point args)
          (grid (Aca.architectures args) (Aca.benchmarks args)
             (Aca.icache_sizes args) (Aca.dcache_sizes args)) evs /\
        length (rows evs)
        = length (grid (Aca.architectures args) (Aca.benchmarks args)
                    (Aca.icache_sizes args) (Aca.dcache_sizes args))) /\
  (forall (simulator : oracle) (is_float : str -> bool)
          (arguments : RunUtils.Namespace) (p : RunUtils.Part) (w w' : world),
      RunUtils.part p = lit "b" ->
      RunUtils.sweep_part simulator is_float arguments p w = (Return tt, w') ->
      exists first others evs,
        RunUtils.architectures arguments = first :: others /\
        trace w' = trace w ++ evs /\
        chunks_of (run_utils_point arguments p)
          (grid [first] (RunUtils.benchmarks arguments)
             (RunUtils.value (fst (RunUtils.variables p)))
             (RunUtils.value (snd (RunUtils.variables p)))) evs /\
        length (rows evs)
        = length (grid [first] (RunUtils.benchmarks arguments)
                    (RunUtils.value (fst (RunUtils.variables p)))
                    (RunUtils.value (snd (RunUtils.variables p))))).
Proof.
  split.
  - intros simulator args w w' H.
    apply aca_sweep_chunks in H as (evs & Ht & Hc).
    exists evs. split; [exact Ht|]. split; [exact Hc|].
    apply chunks_of_length
      with (P := aca_point args) (count := fun e => length (rows e));
      [apply count_rows_app|apply aca_point_one_row|exact Hc].
  - intros simulator is_float arguments p w w' _ H.
    apply run_utils_sweep_part_chunks in H
      as (first & others & evs & Ha & Ht & Hc).
    exists first, others, evs.
    split; [exact Ha|]. split; [exact Ht|]. split; [exact Hc|].
    apply chunks_of_length
      with (P := run_utils_point arguments p)
           (count := fun e => length (rows e));
      [apply count_rows_app|apply run_utils_point_one_row|exact Hc].
Qed.

Lemma sweep_visits_grid_in_order_witness :
  (exists evs,
      trace (snd (Aca.sweep (fixed_simulator 0 stats_complete) sample_args
                    empty_world)) = trace empty_world ++ evs /\
      chunks_of (aca_point sample_args)
        (grid (Aca.architectures sample_args) (Aca.benchmarks sample_args)
           (Aca.icache_sizes sample_args) (Aca.dcache_sizes sample_args)) evs /\
      length (rows evs) = 8) /\
  (exists first others evs,
      RunUtils.architectures sample_namespace = first :: others /\
      trace (snd (RunUtils.sweep_part (fixed_simulator 0 stats_complete)
                    any_float sample_namespace (part_b [1; 2]%Z [64%Z])
                    empty_world)) = trace empty_world ++ evs /\
      chunks_of (run_utils_point sample_namespace (part_b [1; 2]%Z [64%Z]))
        (grid [first] (RunUtils.benchmarks sample_namespace)
           [RunUtils.VInt 1; RunUtils.VInt 2] [RunUtils.VInt 64]) evs /\
      length (rows evs) = length (grid [first]
                                    (RunUtils.benchmarks sample_namespace)
                                    [RunUtils.VInt 1; RunUtils.VInt 2]
                                    [RunUtils.VInt 64])).
Proof.
  split.
  - apply (proj1 sweep_visits_grid_in_order
             (fixed_simulator 0 stats_complete) sample_args empty_world).
    vm_compute. reflexivity.
  - apply (proj2 sweep_visits_grid_in_order
             (fixed_simulator 0 stats_complete) any_float sample_namespace
             (part_b [1; 2]%Z [64%Z]) empty_world).
    + reflexivity.
    + vm_compute. reflexivity.
Defined.

(** [run_simulations] never returns normally: after the sweep it asks the list
    of parts for [values()]. *)
Lemma run_simulations_ends_in_exception (simulator : oracle)
  (is_float : str -> bool) (arguments : RunUtils.Namespace)
  (parts : list RunUtils.Part) (w : world) :
  raises (fst (RunUtils.run_simulations simulator is_float arguments parts w)).
Proof.
  unfold RunUtils.run_simulations, bind, raise.
  destruct (for_each parts (RunUtils.sweep_part simulator is_float arguments) w)
    as [[[]|e] w']; simpl; eexists; reflexivity.
Qed.

(** * Validation and conversion of sizes, together *)

Lemma size_pattern_fullmatch_shape (text : str) :
  Re.fullmatch RunUtils.size_pattern text = true ->
  exists ds u,
    decimal ds /\ (u = [] \/ u = ["k"%char] \/ u = ["M"%char]) /\
    text = ds ++ u ++ ["B"%char].
Proof.
  unfold RunUtils.size_pattern. rewrite fullmatch_lang.
  intros H. apply lang_cat in H as (ds & rest & -> & Hds & Hrest).
  apply lang_cat in Hrest as (u & b & -> & Hu & Hb).
  apply lang_plus_decimal in Hds. apply lang_chr in Hb. subst b.
  apply lang_opt in Hu. rewrite lang_alt, !lang_chr in Hu.
  exists ds, u. split; [assumption|]. split; [tauto|reflexivity].
Qed.

Lemma match_anchored_cases (body : Re.regex) (text : str) :
  Re.match_anchored body text = true <->
  Re.fullmatch body text = true \/
  exists t, text = t ++ [Re.newline] /\ Re.fullmatch body t = true.
Proof.
  unfold Re.match_anchored. rewrite !fullmatch_lang, lang_cat. split.
  - intros (s1 & s2 & -> & H1 & H2). apply lang_opt in H2 as [H2 | ->].
    + apply lang_chr in H2. subst s2. right. exists s1.
      rewrite fullmatch_lang. auto.
    + left. rewrite app_nil_r. exact H1.
  - intros [H | (t & -> & H)].
    + exists text, []. rewrite app_nil_r. repeat split; [exact H|].
      apply lang_opt. auto.
    + exists t, [Re.newline]. repeat split.
      * apply fullmatch_lang. exact H.
      * apply lang_opt. left. apply lang_chr. reflexivity.
Qed.

(** In [run_utils.py] the value the size pattern accepts is the value the
    conversion understands: a value matched by [^\d+(k|M)?B$] up to the end of
    the string converts to its digits times 1, 1024 or 1024 * 1024; a value
    matched only because [$] stops before a final newline is never converted
    to a number, so it does not pass the checks of [run_simulation]. *)
Theorem accepted_size_converts (text : str) :
  Re.match_anchored RunUtils.size_pattern text = true ->
  (exists ds unit,
      decimal ds /\
      ((text = ds ++ lit "B" /\ unit = 1%Z) \/
       (text = ds ++ lit "kB" /\ unit = 1024%Z) \/
       (text = ds ++ lit "MB" /\ unit = (1024 * 1024)%Z)) /\
      RunUtils.size_string_to_int text
      = Return (Some (Py.decimal_value ds * unit)%Z)) \/
  (Py.endswith text [Re.newline] = true /\
   forall n, RunUtils.size_string_to_int text <> Return (Some n)).
Proof.
  intros H. apply match_anchored_cases in H as [H | (t & -> & H)];
    apply size_pattern_fullmatch_shape in H as (ds & u & Hds & Hu & ->).
  - left. destruct (run_utils_size_string_to_int_spec Hds) as (Hk & Hm & Hb).
    destruct Hu as [-> | [-> | ->]].
    + exists ds, 1%Z. split; [assumption|]. split; [left; auto|].
      rewrite Z.mul_1_r. exact Hb.
    + exists ds, 1024%Z. split; [assumption|]. split; [right; left; auto|].
      exact Hk.
    + exists ds, (1024 * 1024)%Z. split; [assumption|].
      split; [right; right; auto|]. rewrite Z.mul_assoc. exact Hm.
  - right. split; [apply endswith_app|]. intros n.
    rewrite <- !app_assoc.
    change (["B"%char] ++ [Re.newline]) with ["B"%char; Re.newline].
    rewrite app_assoc. apply size_string_to_int_newline.
Qed.

Lemma accepted_size_converts_witness :
  (exists ds unit,
      decimal ds /\
      ((lit "32kB" = ds ++ lit "B" /\ unit = 1%Z) \/
       (lit "32kB" = ds ++ lit "kB" /\ unit = 1024%Z) \/
       (lit "32kB" = ds ++ lit "MB" /\ unit = (1024 * 1024)%Z)) /\
      RunUtils.size_string_to_int (lit "32kB")
      = Return (Some (Py.decimal_value ds * unit)%Z)) \/
  (Py.endswith (lit "32kB") [Re.newline] = true /\
   forall n, RunUtils.size_string_to_int (lit "32kB") <> Return (Some n)).
Proof.
  apply (@accepted_size_converts (lit "32kB")). reflexivity.
Defined.

(** ** The conversion never yields a negative size *)

Lemma lstrip_int_suffix (s : str) : exists p, s = p ++ Py.lstrip_int s.
Proof.
  induction s as [|c s [p IH]]; [exists []; reflexivity|].
  simpl. destruct (Py.int_space c).
  - exists (c :: p). simpl. rewrite <- IH. reflexivity.
  - exists []. reflexivity.
Qed.

Lemma strip_int_forall (P : ascii -> Prop) (s : str) :
  Forall P s -> Forall P (Py.strip_int s).
Proof.
  intros H. unfold Py.strip_int. apply Forall_rev.
  destruct (lstrip_int_suffix (rev (Py.lstrip_int s))) as [p Hp].
  assert (Hr : Forall P (rev (Py.lstrip_int s))).
  { apply Forall_rev. destruct (lstrip_int_suffix s) as [q Hq].
    rewrite Hq in H. apply Forall_app in H. tauto. }
  rewrite Hp in Hr. apply Forall_app in Hr. tauto.
Qed.

Lemma int_digits_nonneg (s : str) :
  forall acc b n, (0 <= acc)%Z -> Py.int_digits acc b s = Some n -> (0 <= n)%Z.
Proof.
  induction s as [|c s IH]; intros acc b n Hacc H; cbn [Py.int_digits] in H.
  - destruct b; [injection H as <-; assumption|discriminate].
  - destruct (Py.is_decimal c).
    + eapply IH; [|exact H]. unfold Py.digit_value.
      pose proof (N2Z.is_nonneg (Py.code c - 48)). lia.
    + destruct (Ascii.eqb c "_"); [|discriminate].
      destruct b; [|discriminate]. eapply IH; eauto.
Qed.

Lemma isdigit_forall (s : str) :
  Py.isdigit s = true -> Forall (fun c => Py.isdigit_char c = true) s.
Proof.
  unfold Py.isdigit. destruct s; [discriminate|]. intros H.
  apply Forall_forall. apply forallb_forall. exact H.
Qed.

(** [int] of a string of digits is never negative. *)
Lemma int_isdigit_nonneg (s : str) (n : Z) :
  Py.isdigit s = true -> Py.int s = Return n -> (0 <= n)%Z.
Proof.
  intros Hd. apply isdigit_forall in Hd.
  apply strip_int_forall in Hd. unfold Py.int.
  destruct (Py.strip_int s) as [|c body] eqn:E.
  - simpl. discriminate.
  - assert (Hc : Py.isdigit_char c = true) by (inversion Hd; assumption).
    assert (Hplain :
              match c :: body with
              | "-"%char :: r => option_map Z.opp (Py.int_digits 0 false r)
              | "+"%char :: r => Py.int_digits 0 false r
              | _ => Py.int_digits 0 false (c :: body)
              end = Py.int_digits 0 false (c :: body)).
    { destruct c as [[] [] [] [] [] [] [] []];
        try discriminate Hc; reflexivity. }
    rewrite Hplain.
    destruct (Py.int_digits 0 false (c :: body)) as [z|] eqn:Ez;
      [|discriminate].
    intros H. injection H as <-.
    eapply int_digits_nonneg; [|exact Ez]. lia.
Qed.

Ltac converted_nonneg Hd H :=
  match type of H with
  | context [Py.int ?x] =>
      let k := fresh "k" in
      let Ek := fresh "Ek" in
      destruct (Py.int x) as [k|] eqn:Ek;
      [ simpl in H; injection H as <-;
        pose proof (int_isdigit_nonneg _ Hd Ek); lia
      | discriminate ]
  end.

(** In both scripts, a size that [size_string_to_int] returns is zero or
    more: the digits it reads carry no sign. *)
Theorem size_string_to_int_nonnegative (s : str) (n : Z) :
  Aca.size_string_to_int s = Return (Some n) \/
  RunUtils.size_string_to_int s = Return (Some n) ->
  (0 <= n)%Z.
Proof.
  unfold Aca.size_string_to_int, RunUtils.size_string_to_int.
  intros [H | H];
    (destruct (Py.isdigit (Py.drop_last 1 s) && Py.endswith s (lit "B"))
       eqn:E1;
     [ apply andb_prop in E1 as [Hd _]; converted_nonneg Hd H
     | destruct (Py.isdigit (Py.drop_last 2 s)) eqn:Hd; [|discriminate];
       destruct (Py.endswith s (lit "kB"));
       [ converted_nonneg Hd H
       | destruct (Py.endswith s (lit "MB")); [|discriminate];
         converted_nonneg Hd H ] ]).
Qed.

Lemma size_string_to_int_nonnegative_witness :
  RunUtils.size_string_to_int (lit "16kB") = Return (Some 16384%Z) /\
  (0 <= 16384)%Z.
Proof.
  split; [reflexivity|].
  apply (@size_string_to_int_nonnegative (lit "16kB") 16384%Z).
  right. reflexivity.
Defined.

(** * The other statistics of [get_statistic] *)

Section OtherStatistics.

Variable is_float : str -> bool.

Lemma statistic_loop_miss_rate_first (pre post : list str) (l : str)
  (i c : option Z) :
  Forall (fun x => is_miss_rate x = false) pre ->
  is_miss_rate l = true ->
  RunUtils.get_statistic_loop is_float MISS_RATE (pre ++ l :: post) i c
  = match nth_error (Py.split l) 1 with
    | None => Raise IndexError
    | Some field =>
        if is_float field then Return (Some (FloatOf field))
        else Raise (FloatLiteralError field)
    end.
Proof.
  intros Hpre Hl. induction Hpre as [|x pre Hx _ IH].
  - rewrite app_nil_l, statistic_loop_miss_rate_cons, Hl.
    unfold Py.index, RunUtils.float.
    destruct (nth_error (Py.split l) 1) as [field|]; [|reflexivity].
    simpl. destruct (is_float field); reflexivity.
  - rewrite <- app_comm_cons, statistic_loop_miss_rate_cons, Hx. exact IH.
Qed.

(** The miss rate is read from the first line that starts with its label:
    the lines before are passed over, the lines after are not read, and the
    second field of that line is what [float] is applied to. *)
Theorem miss_rate_read_from_first_labelled_line (gem5_path : str) (w : world)
  (text : str) (pre post : list str) (l : str) :
  fs w (RunUtils.stats_path gem5_path) = Some text ->
  readlines text = pre ++ l :: post ->
  Forall (fun x => is_miss_rate x = false) pre ->
  is_miss_rate l = true ->
  fst (RunUtils.get_statistic is_float gem5_path MISS_RATE w)
  = match nth_error (Py.split l) 1 with
    | None => Raise IndexError
    | Some field =>
        if is_float field then Return (Some (FloatOf field))
        else Raise (FloatLiteralError field)
    end.
Proof.
  intros Hr Hlines Hpre Hl.
  rewrite (get_statistic_reads is_float _ _ _ Hr). simpl.
  rewrite statistic_of_text_loop
    by (eapply layout_text_nonempty; exact Hlines).
  rewrite Hlines. apply statistic_loop_miss_rate_first; assumption.
Qed.

(** For a statistic that is neither of the two names the loop tests, no line
    of the file is looked at. *)
Lemma statistic_loop_unknown (statistic : str) (lines : list str)
  (i c : option Z) :
  Py.str_eqb statistic CPI = false ->
  Py.str_eqb statistic MISS_RATE = false ->
  RunUtils.get_statistic_loop is_float statistic lines i c
  = RunUtils.get_statistic_loop is_float statistic [] i c.
Proof.
  unfold CPI, MISS_RATE. intros Hc Hm.
  induction lines as [|l lines IH]; [reflexivity|].
  cbn [RunUtils.get_statistic_loop] in *. rewrite Hc, Hm. exact IH.
Qed.

(** [get_statistic] returns a number only for ["Cycles Per Instruction"] and
    ["Overall DCache Miss Rate"].  Asked for ["cpi"] on a file that is not
    empty it fails on the unbound [instruction_count]; asked for
    ["overall_dcache_miss_rate"] it raises its "Could not find" exception
    whatever the file holds; asked for any other name it returns [None]. *)
Theorem get_statistic_other_names (gem5_path statistic : str) (w : world)
  (text : str) :
  fs w (RunUtils.stats_path gem5_path) = Some text ->
  text <> [] ->
  Py.str_eqb statistic CPI = false ->
  Py.str_eqb statistic MISS_RATE = false ->
  fst (RunUtils.get_statistic is_float gem5_path statistic w)
  = if Py.str_eqb statistic (lit "cpi")
    then Raise (UnboundLocalError (lit "instruction_count"))
    else if Py.str_eqb statistic (lit "overall_dcache_miss_rate")
    then Raise (Exception
                  (lit "Could not find overall dcache miss rate in stats.txt"))
    else Return None.
Proof.
  intros Hr Hne Hc Hm.
  rewrite (get_statistic_reads is_float _ _ _ Hr). cbn [fst].
  rewrite statistic_of_text_loop by assumption.
  rewrite statistic_loop_unknown by assumption.
  cbn [RunUtils.get_statistic_loop].
  destruct (Py.str_eqb statistic (lit "cpi")); reflexivity.
Qed.

End OtherStatistics.

Lemma miss_rate_read_from_first_labelled_line_witness :
  fst (RunUtils.get_statistic any_float (lit "gem5") MISS_RATE
         (world_with stats_complete))
  = Return (Some (FloatOf (lit "0.05"))).
Proof.
  apply (@miss_rate_read_from_first_labelled_line any_float (lit "gem5")
           (world_with stats_complete) stats_complete
           [lit "---------- Begin Simulation Statistics ----------"
            ++ [Re.newline];
            lit "simInsts 2" ++ [Re.newline];
            lit "system.cpu.numCycles 5" ++ [Re.newline]]
           []
           (lit "system.cpu.dcache.overallMissRate::cpu.data 0.05"
            ++ [Re.newline])).
  - reflexivity.
  - reflexivity.
  - repeat constructor.
  - reflexivity.
Defined.

Lemma get_statistic_other_names_witness :
  fst (RunUtils.get_statistic any_float (lit "gem5") (lit "cpi")
         (world_with stats_complete))
  = Raise (UnboundLocalError (lit "instruction_count")).
Proof.
  apply (@get_statistic_other_names any_float (lit "gem5") (lit "cpi")
           (world_with stats_complete) stats_complete).
  - reflexivity.
  - discriminate.
  - reflexivity.
  - reflexivity.
Defined.

(** * Names of benchmarks and architectures *)

Section Names.

Variable simulator : oracle.

Lemma run_utils_benchmark_binary_lower (arguments : RunUtils.Namespace)
  (b b' : str) (chosen : str * list str) :
  Py.lower b = Py.lower b' ->
  RunUtils.benchmark_binary arguments b = Return chosen ->
  RunUtils.benchmark_binary arguments b' = Return chosen.
Proof.
  unfold RunUtils.benchmark_binary. intros <-.
  destruct (Py.str_eqb (Py.lower b) (lit "dummy")); [auto|].
  destruct (Py.str_eqb (Py.lower b) (lit "susan")); [auto|].
  destruct (Py.str_eqb (Py.lower b) (lit "crc")); [auto|discriminate].
Qed.

Lemma run_utils_architecture_binary_upper (a a' binary0 binary : str) :
  Py.upper a = Py.upper a' ->
  RunUtils.architecture_binary a binary0 = Return binary ->
  RunUtils.architecture_binary a' binary0 = Return binary.
Proof.
  unfold RunUtils.architecture_binary. intros <-.
  destruct (Py.str_eqb (Py.upper a) (lit "ARM")); [auto|].
  destruct (Py.str_eqb (Py.upper a) (lit "X86")); [auto|discriminate].
Qed.

(** [run_simulation] reads the names of the benchmark and of the architecture
    without regard to case: two valid spellings that agree once lower-cased
    (benchmark) and upper-cased (architecture) give the same run, command
    lines included. *)
Theorem run_simulation_case_insensitive (arguments : RunUtils.Namespace)
  (architecture architecture' benchmark benchmark' : str)
  (variables : list (RunUtils.Variable_ RunUtils.pyvalue)) (part : str)
  (w : world) (chosen : str * list str) (binary : str) :
  Py.lower benchmark = Py.lower benchmark' ->
  Py.upper architecture = Py.upper architecture' ->
  RunUtils.benchmark_binary arguments benchmark = Return chosen ->
  RunUtils.architecture_binary architecture (fst chosen) = Return binary ->
  RunUtils.run_simulation simulator arguments architecture benchmark
    variables part w
  = RunUtils.run_simulation simulator arguments architecture' benchmark'
      variables part w.
Proof.
  intros Hl Hu Hb Ha. rewrite !run_simulation_unfold.
  rewrite Hb, (@run_utils_benchmark_binary_lower arguments benchmark benchmark'
                 chosen Hl Hb).
  rewrite Ha, (@run_utils_architecture_binary_upper architecture architecture'
                 (fst chosen) binary Hu Ha).
  destruct (for_each variables (fun v => lift (RunUtils.check_variable v)) w)
    as [[[]|e] w']; [|reflexivity].
  apply for_each_ext. intros option w0.
  unfold RunUtils.command_line. rewrite Hu. reflexivity.
Qed.

(** A benchmark that is none of [dummy], [susan] and [crc] once lower-cased
    is refused first, whatever the architecture; with a known benchmark, an
    architecture that is neither [ARM] nor [X86] once upper-cased is refused.
    Both refusals quote the name as given and happen before anything else. *)
Theorem run_simulation_rejects_unknown_names (arguments : RunUtils.Namespace)
  (architecture benchmark : str)
  (variables : list (RunUtils.Variable_ RunUtils.pyvalue)) (part : str)
  (w : world) :
  (Py.str_eqb (Py.lower benchmark) (lit "dummy") = false ->
   Py.str_eqb (Py.lower benchmark) (lit "susan") = false ->
   Py.str_eqb (Py.lower benchmark) (lit "crc") = false ->
   RunUtils.run_simulation simulator arguments architecture benchmark
     variables part w
   = (Raise (Exception (lit "Invalid benchmark '" ++ benchmark ++ lit "'")),
      w)) /\
  (forall chosen,
      RunUtils.benchmark_binary arguments benchmark = Return chosen ->
      Py.str_eqb (Py.upper architecture) (lit "ARM") = false ->
      Py.str_eqb (Py.upper architecture) (lit "X86") = false ->
      RunUtils.run_simulation simulator arguments architecture benchmark
        variables part w
      = (Raise (Exception (lit "Invalid architecture '" ++ architecture
                           ++ lit "'")), w)).
Proof.
  split.
  - intros Hd Hs Hc. rewrite run_simulation_unfold.
    unfold RunUtils.benchmark_binary. rewrite Hd, Hs, Hc. reflexivity.
  - intros chosen Hb Ha Hx. rewrite run_simulation_unfold, Hb.
    unfold RunUtils.architecture_binary. rewrite Ha, Hx. reflexivity.
Qed.

End Names.

Lemma run_simulation_case_insensitive_witness :
  RunUtils.run_simulation (fixed_simulator 0 stats_complete) sample_namespace
    (lit "arm") (lit "CRC") [icache_variable "16kB"] (lit "a") empty_world
  = RunUtils.run_simulation (fixed_simulator 0 stats_complete)
      sample_namespace (lit "ARM") (lit "crc") [icache_variable "16kB"]
      (lit "a") empty_world.
Proof.
  eapply (@run_simulation_case_insensitive (fixed_simulator 0 stats_complete)
            sample_namespace (lit "arm") (lit "ARM") (lit "CRC") (lit "crc")).
  - reflexivity.
  - reflexivity.
  - reflexivity.
  - reflexivity.
Defined.

Lemma run_simulation_rejects_unknown_names_witness :
  RunUtils.run_simulation (fixed_simulator 0 stats_complete) sample_namespace
    (lit "X86") (lit "qsort") [] (lit "a") empty_world
  = (Raise (Exception (lit "Invalid benchmark 'qsort'")), empty_world).
Proof.
  apply (proj1 (@run_simulation_rejects_unknown_names
                  (fixed_simulator 0 stats_complete) sample_namespace
                  (lit "X86") (lit "qsort") [] (lit "a") empty_world));
    reflexivity.
Defined.

(** * How a run can end *)

Lemma launch_loop_outcome {A} (body : A -> M unit) (spawn : A -> event) :
  (forall x w,
      (exists w1, body x w = (Return tt, w1) /\
                  trace w1 = trace w ++ [spawn x]) \/
      (exists w1, body x w = (Raise SystemExit, w1) /\
                  trace w1 = trace w ++ [spawn x; Terminate]) \/
      body x w = (Raise OSError, w)) ->
  forall xs w,
    exists evs,
      trace (snd (for_each xs body w)) = trace w ++ evs /\
      launch_outcome (map spawn xs) (fst (for_each xs body w)) evs.
Proof.
  intros Hbody. induction xs as [|x xs IH]; intros w.
  - exists []. split; [symmetry; apply app_nil_r|]. left. auto.
  - simpl. unfold bind.
    destruct (Hbody x w) as [(w1 & -> & Ht) | [(w1 & -> & Ht) | ->]].
    + destruct (IH w1) as (evs & Ht' & Ho). exists (spawn x :: evs). split.
      * rewrite Ht', Ht, <- app_assoc. reflexivity.
      * destruct Ho as [[Hr ->] | (k & Hk & Ho)]; [left; auto|].
        right. exists (S k). rewrite length_map in *. simpl.
        split; [rewrite length_map; lia|].
        destruct Ho as [[Hr ->] | [Hr ->]]; [left|right];
          split; auto.
    + exists [spawn x; Terminate]. split; [exact Ht|].
      right. exists 0. simpl. split; [lia|]. left. auto.
    + exists []. split; [symmetry; apply app_nil_r|].
      right. exists 0. simpl. split; [lia|]. right. auto.
Qed.

Lemma run_option_step (sim : oracle) (arguments : RunUtils.Namespace)
  (command : list str) (w : world) :
  let spawn := Spawn command (negb (RunUtils.verbose arguments)) in
  (exists w1, RunUtils.run_option sim arguments command w = (Return tt, w1) /\
              trace w1 = trace w ++ [spawn]) \/
  (exists w1, RunUtils.run_option sim arguments command w
              = (Raise SystemExit, w1) /\
              trace w1 = trace w ++ [spawn; Terminate]) \/
  RunUtils.run_option sim arguments command w = (Raise OSError, w).
Proof.
  unfold RunUtils.run_option, bind, Subprocess.Popen, emit, raise.
  destruct (sim (trace w) (fs w) command) as [|[rc|] after]; simpl.
  - right. right. reflexivity.
  - left. eexists. split; reflexivity.
  - right. left. eexists. split; [reflexivity|].
    simpl. rewrite <- app_assoc. reflexivity.
Qed.

Lemma run_argument_step (sim : oracle) (args : Aca.Args)
  (command : list str) (w : world) :
  let spawn := Spawn command (negb (Aca.verbose args)) in
  (exists w1, Aca.run_argument sim args command w = (Return tt, w1) /\
              trace w1 = trace w ++ [spawn]) \/
  (exists w1, Aca.run_argument sim args command w = (Raise SystemExit, w1) /\
              trace w1 = trace w ++ [spawn; Terminate]) \/
  Aca.run_argument sim args command w = (Raise OSError, w).
Proof.
  unfold Aca.run_argument, bind, Subprocess.Popen, emit, raise.
  destruct (sim (trace w) (fs w) command) as [|[rc|] after]; simpl.
  - right. right. reflexivity.
  - left. eexists. split; reflexivity.
  - right. left. eexists. split; [reflexivity|].
    simpl. rewrite <- app_assoc. reflexivity.
Qed.

(** [run_simulation] ends in one of four ways.  Its validation raises and
    nothing has happened; or it starts the simulator on the options of the
    benchmark in order and returns; or at some option the user interrupts,
    the process is terminated and the script exits; or at some option the
    simulator cannot be started.  After an interrupt or a failed start no
    further simulator is started, and no other exception leaves the loop. *)
Theorem run_simulation_outcomes (sim : oracle)
  (arguments : RunUtils.Namespace) (architecture benchmark : str)
  (variables : list (RunUtils.Variable_ RunUtils.pyvalue)) (part : str)
  (w : world) :
  let run := RunUtils.run_simulation sim arguments architecture benchmark
               variables part w in
  (raises (fst run) /\ snd run = w) \/
  (exists chosen binary evs,
      RunUtils.benchmark_binary arguments benchmark = Return chosen /\
      RunUtils.architecture_binary architecture (fst chosen) = Return binary /\
      Forall (fun v => RunUtils.check_variable v = Return tt) variables /\
      trace (snd run) = trace w ++ evs /\
      launch_outcome
        (map (fun option =>
                Spawn (RunUtils.command_line arguments architecture binary
                         option variables part)
                      (negb (RunUtils.verbose arguments)))
             (snd chosen))
        (fst run) evs).
Proof.
  intros run. subst run.
  destruct (run_simulation_cases sim arguments architecture benchmark
              variables part w)
    as [[e E] | (chosen & binary & Hb & Ha & Hall & E)]; rewrite E.
  - left. split; [exists e|]; reflexivity.
  - right. exists chosen, binary.
    destruct (launch_loop_outcome
                (fun option =>
                   RunUtils.run_option sim arguments
                     (RunUtils.command_line arguments architecture binary
                        option variables part))
                (fun option =>
                   Spawn (RunUtils.command_line arguments architecture binary
                            option variables part)
                         (negb (RunUtils.verbose arguments)))
                (fun x w0 => run_option_step sim arguments _ w0)
                (snd chosen) w) as (evs & Ht & Ho).
    exists evs. auto.
Qed.

(** [run_benchmark] of [aca.py] ends in the same four ways; its handler for
    [CalledProcessError] adds no fifth. *)
Theorem run_benchmark_outcomes (sim : oracle) (args : Aca.Args)
  (architecture benchmark icache_size dcache_size : str) (w : world) :
  let run := Aca.run_benchmark sim args architecture benchmark icache_size
               dcache_size w in
  (raises (fst run) /\ snd run = w) \/
  (exists chosen binary evs,
      Aca.benchmark_binary args benchmark = Return chosen /\
      Aca.architecture_binary architecture (fst chosen) = Return binary /\
      Aca.check_cache_sizes icache_size dcache_size = Return tt /\
      trace (snd run) = trace w ++ evs /\
      launch_outcome
        (map (fun argument =>
                Spawn (Aca.command_line architecture binary argument
                         icache_size dcache_size) (negb (Aca.verbose args)))
             (snd chosen))
        (fst run) evs).
Proof.
  intros run. subst run. rewrite run_benchmark_unfold.
  destruct (Aca.benchmark_binary args benchmark) as [chosen|e];
    [|left; split; [exists e|]; reflexivity].
  destruct (Aca.architecture_binary architecture (fst chosen))
    as [binary|e] eqn:Ha; [|left; split; [exists e|]; reflexivity].
  destruct (Aca.check_cache_sizes icache_size dcache_size) as [[]|e] eqn:Hc;
    [|left; split; [exists e|]; reflexivity].
  right. exists chosen, binary.
  destruct (launch_loop_outcome
              (fun argument =>
                 Aca.run_argument sim args
                   (Aca.command_line architecture binary argument
                      icache_size dcache_size))
              (fun argument =>
                 Spawn (Aca.command_line architecture binary argument
                          icache_size dcache_size) (negb (Aca.verbose args)))
              (fun x w0 => run_argument_step sim args _ w0)
              (snd chosen) w) as (evs & Ht & Ho).
  exists evs. auto.
Qed.

(** An interrupt at the second of the three runs of [susan]: two simulators
    were started, the second was terminated, the third never ran. *)
Example susan_interrupted_at_second_run :
  let run := RunUtils.run_simulation (interrupted_after 1 stats_complete)
               sample_namespace (lit "X86") (lit "susan") [] (lit "a")
               empty_world in
  fst run = Raise SystemExit /\
  length (spawns (trace (snd run))) = 2 /\
  last (trace (snd run)) Terminate = Terminate.
Proof. repeat split; reflexivity. Qed.

(** * What a sweep leaves in the report *)

Lemma for_each_app {A} (body : A -> M unit) (xs ys : list A) (w : world) :
  for_each (xs ++ ys) body w
  = bind (for_each xs body) (fun _ => for_each ys body) w.
Proof.
  revert w. induction xs as [|x xs IH]; intros w; [reflexivity|].
  simpl. unfold bind in *.
  destruct (body x w) as [[[]|e] w1]; [apply IH|reflexivity].
Qed.

Lemma for_each_map {A B} (f : A -> B) (body : B -> M unit) (xs : list A)
  (w : world) :
  for_each (map f xs) body w = for_each xs (fun x => body (f x)) w.
Proof.
  revert w. induction xs as [|x xs IH]; intros w; [reflexivity|].
  simpl. unfold bind. destruct (body (f x) w) as [[[]|e] w1];
    [apply IH|reflexivity].
Qed.

(** A loop inside a loop is one loop over the pairs. *)
Lemma for_each_product {A B} (inner : list B) (body : A * B -> M unit)
  (xs : list A) (w : world) :
  for_each xs (fun x => for_each inner (fun y => body (x, y))) w
  = for_each (flat_map (fun x => map (pair x) inner) xs) body w.
Proof.
  revert w. induction xs as [|x xs IH]; intros w; [reflexivity|].
  simpl. rewrite for_each_app. unfold bind. rewrite for_each_map.
  destruct (for_each inner (fun y => body (x, y)) w) as [[[]|e] w1];
    [apply IH|reflexivity].
Qed.

(** The four nested loops of [aca.py] are one loop over the grid. *)
Lemma aca_sweep_one_loop (sim : oracle) (args : Aca.Args) (w : world) :
  Aca.sweep sim args w
  = for_each (grid (Aca.architectures args) (Aca.benchmarks args)
                (Aca.icache_sizes args) (Aca.dcache_sizes args))
      (fun p => Aca.sweep_point sim args (fst p) (fst (snd p))
                  (fst (snd (snd p))) (snd (snd (snd p)))) w.
Proof.
  unfold Aca.sweep, grid.
  rewrite <- for_each_product. apply for_each_ext. intros a w0.
  rewrite <- (for_each_product _
                (fun q => Aca.sweep_point sim args a (fst q) (fst (snd q))
                            (snd (snd q)))).
  apply for_each_ext. intros b w1.
  rewrite <- (for_each_product _
                (fun q => Aca.sweep_point sim args a b (fst q) (snd q))).
  reflexivity.
Qed.

Lemma rows_launch_outcome {A} (f : A -> list str) (piped : bool)
  (xs : list A) (r : result unit) (evs : list event) :
  launch_outcome (map (fun x => Spawn (f x) piped) xs) r evs -> rows evs = [].
Proof.
  intros [[_ ->] | (k & _ & [[_ ->] | [_ ->]])].
  - apply rows_spawns.
  - rewrite firstn_map, rows_app, rows_spawns. reflexivity.
  - rewrite firstn_map. apply rows_spawns.
Qed.

(** Starting the simulator writes nothing to the report. *)
Lemma run_benchmark_rows (sim : oracle) (args : Aca.Args)
  (architecture benchmark icache_size dcache_size : str) (w : world) :
  rows (trace (snd (Aca.run_benchmark sim args architecture benchmark
                      icache_size dcache_size w))) = rows (trace w).
Proof.
  destruct (run_benchmark_outcomes sim args architecture benchmark icache_size
              dcache_size w)
    as [[_ ->] | (chosen & binary & evs & _ & _ & _ & -> & Ho)];
    [reflexivity|].
  rewrite rows_app, (rows_launch_outcome _ _ _ Ho). apply app_nil_r.
Qed.

Lemma run_simulation_rows (sim : oracle) (arguments : RunUtils.Namespace)
  (architecture benchmark : str)
  (variables : list (RunUtils.Variable_ RunUtils.pyvalue)) (part : str)
  (w : world) :
  rows (trace (snd (RunUtils.run_simulation sim arguments architecture
                      benchmark variables part w))) = rows (trace w).
Proof.
  destruct (run_simulation_outcomes sim arguments architecture benchmark
              variables part w)
    as [[_ ->] | (chosen & binary & evs & _ & _ & _ & -> & Ho)];
    [reflexivity|].
  rewrite rows_app, (rows_launch_outcome _ _ _ Ho). apply app_nil_r.
Qed.

Lemma aca_sweep_point_unfold (sim : oracle) (args : Aca.Args)
  (architecture benchmark icache_size dcache_size : str) (w : world) :
  Aca.sweep_point sim args architecture benchmark icache_size dcache_size w
  = match Aca.run_benchmark sim args architecture benchmark icache_size
            dcache_size w with
    | (Raise e, w1) => (Raise e, w1)
    | (Return _, w1) =>
        match Aca.size_string_to_int icache_size with
        | Raise e => (Raise e, w1)
        | Return i =>
            match Aca.size_string_to_int dcache_size with
            | Raise e => (Raise e, w1)
            | Return d =>
                match Aca.cpi w1 with
                | (Raise e, w2) => (Raise e, w2)
                | (Return c, w2) =>
                    (Return tt,
                     {| fs := fs w2;
                        trace := trace w2
                                 ++ [WriteRow (Aca.output args)
                                       [CStr (Py.upper architecture);
                                        CStr (Py.lower benchmark);
                                        size_cell i; size_cell d;
                                        stat_cell c]] |})
                end
            end
        end
    end.
Proof.
  unfold Aca.sweep_point, bind, lift, emit.
  destruct (Aca.run_benchmark sim args architecture benchmark icache_size
              dcache_size w) as [[[]|e] w1]; [|reflexivity].
  destruct (Aca.size_string_to_int icache_size); [|reflexivity].
  destruct (Aca.size_string_to_int dcache_size); [|reflexivity].
  destruct (Aca.cpi w1) as [[c|e] w2]; reflexivity.
Qed.

(** A point of [aca.py] writes its row last: when it returns the report has
    gained that one row, when it raises the report is as it was. *)
Lemma aca_sweep_point_rows (sim : oracle) (args : Aca.Args)
  (architecture benchmark icache_size dcache_size : str) (w : world) :
  let run := Aca.sweep_point sim args architecture benchmark icache_size
               dcache_size w in
  (fst run = Return tt /\
   exists row,
     aca_row (architecture, (benchmark, (icache_size, dcache_size))) row /\
     rows (trace (snd run)) = rows (trace w) ++ [row]) \/
  (raises (fst run) /\ rows (trace (snd run)) = rows (trace w)).
Proof.
  intros run. subst run. rewrite aca_sweep_point_unfold.
  pose proof (run_benchmark_rows sim args architecture benchmark icache_size
                dcache_size w) as Hrows.
  destruct (Aca.run_benchmark sim args architecture benchmark icache_size
              dcache_size w) as [[[]|e] w1]; simpl in Hrows;
    [|right; split; [exists e; reflexivity|exact Hrows]].
  destruct (Aca.size_string_to_int icache_size) as [i|e] eqn:Hi;
    [|right; split; [exists e; reflexivity|exact Hrows]].
  destruct (Aca.size_string_to_int dcache_size) as [d|e] eqn:Hd;
    [|right; split; [exists e; reflexivity|exact Hrows]].
  pose proof (cpi_world w1) as Hw.
  destruct (Aca.cpi w1) as [[c|e] w2]; simpl in Hw; subst w2;
    [|right; split; [exists e; reflexivity|exact Hrows]].
  left. split; [reflexivity|]. eexists. split.
  - exists i, d, c. split; [exact Hi|]. split; [exact Hd|reflexivity].
  - simpl. rewrite rows_app, Hrows. reflexivity.
Qed.

(** A loop whose body writes its row on success only leaves the rows of the
    elements it completed: a prefix of the list, in order. *)
Lemma for_each_rows_prefix {A} (body : A -> M unit)
  (R : A -> list cell -> Prop) :
  (forall x w,
      (fst (body x w) = Return tt /\
       exists row, R x row /\
                   rows (trace (snd (body x w))) = rows (trace w) ++ [row]) \/
      (raises (fst (body x w)) /\
       rows (trace (snd (body x w))) = rows (trace w))) ->
  forall xs w,
    exists done rest new_rows,
      xs = done ++ rest /\
      rows (trace (snd (for_each xs body w))) = rows (trace w) ++ new_rows /\
      Forall2 R done new_rows /\
      (fst (for_each xs body w) = Return tt -> rest = []) /\
      (raises (fst (for_each xs body w)) -> rest <> []).
Proof.
  intros Hbody. induction xs as [|x xs IH]; intros w.
  - exists [], [], []. simpl. split; [reflexivity|].
    split; [symmetry; apply app_nil_r|]. split; [constructor|].
    split; [reflexivity|]. intros [e He]. discriminate.
  - simpl. unfold bind.
    destruct (Hbody x w) as [(Hr & row & HR & Hrows) | ([e He] & Hrows)];
      destruct (body x w) as [[[]|e'] w1]; simpl in *; try discriminate.
    + destruct (IH w1) as (done & rest & new_rows & -> & Hn & HF & Hok & Hko).
      exists (x :: done), rest, (row :: new_rows).
      split; [reflexivity|]. split.
      * rewrite Hn, Hrows, <- app_assoc. reflexivity.
      * split; [constructor; assumption|]. split; assumption.
    + exists [], (x :: xs), []. split; [reflexivity|].
      split; [rewrite Hrows; symmetry; apply app_nil_r|].
      split; [constructor|]. split; [discriminate|]. intros _. discriminate.
Qed.

(** However a sweep of [aca.py] ends, the rows it has appended are the rows of
    the points it completed, and these points are a prefix of the grid in
    nested order.  The sweep returns only when the prefix is the whole grid;
    when it raises, the point it failed at and all later points have no
    row. *)
Theorem aca_report_is_prefix_of_grid (sim : oracle) (args : Aca.Args)
  (w : world) :
  let run := Aca.sweep sim args w in
  exists done rest new_rows,
    grid (Aca.architectures args) (Aca.benchmarks args)
      (Aca.icache_sizes args) (Aca.dcache_sizes args) = done ++ rest /\
    rows (trace (snd run)) = rows (trace w) ++ new_rows /\
    Forall2 aca_row done new_rows /\
    (fst run = Return tt -> rest = []) /\
    (raises (fst run) -> rest <> []).
Proof.
  intros run. subst run. rewrite aca_sweep_one_loop.
  apply for_each_rows_prefix. intros [a [b [i d]]] w0.
  apply aca_sweep_point_rows.
Qed.

Section RunUtilsReport.

Variable sim : oracle.
Variable is_float : str -> bool.
Variable arguments : RunUtils.Namespace.

Lemma run_utils_sweep_point_unfold (p : RunUtils.Part)
  (architecture benchmark : str) (v0 v1 : RunUtils.pyvalue) (w : world) :
  let variables :=
    [ RunUtils.with_value (fst (RunUtils.variables p)) v0;
      RunUtils.with_value (snd (RunUtils.variables p)) v1 ] in
  RunUtils.sweep_point sim is_float arguments p architecture benchmark v0 v1 w
  = match RunUtils.run_simulation sim arguments architecture benchmark
            variables (RunUtils.part p) w with
    | (Raise e, w1) => (Raise e, w1)
    | (Return _, w1) =>
        match RunUtils.variable_cells variables with
        | Raise e => (Raise e, w1)
        | Return cells =>
            match RunUtils.get_statistic is_float
                    (RunUtils.gem5_path arguments) (RunUtils.statistic p) w1
            with
            | (Raise e, w2) => (Raise e, w2)
            | (Return stat, w2) =>
                (Return tt,
                 {| fs := fs w2;
                    trace := trace w2
                             ++ [WriteRow (RunUtils.output_file p)
                                   ([CStr architecture; CStr benchmark]
                                    ++ cells ++ [stat_cell stat])] |})
            end
        end
    end.
Proof.
  intros variables. unfold RunUtils.sweep_point, bind, lift, emit.
  fold variables.
  destruct (RunUtils.run_simulation sim arguments architecture benchmark
              variables (RunUtils.part p) w) as [[[]|e] w1]; [|reflexivity].
  destruct (RunUtils.variable_cells variables); [|reflexivity].
  destruct (RunUtils.get_statistic is_float (RunUtils.gem5_path arguments)
              (RunUtils.statistic p) w1) as [[stat|e] w2]; reflexivity.
Qed.

Lemma run_utils_sweep_point_rows (p : RunUtils.Part)
  (architecture benchmark : str) (v0 v1 : RunUtils.pyvalue) (w : world) :
  let run := RunUtils.sweep_point sim is_float arguments p architecture
               benchmark v0 v1 w in
  (fst run = Return tt /\
   exists row,
     run_utils_row p (architecture, (benchmark, (v0, v1))) row /\
     rows (trace (snd run)) = rows (trace w) ++ [row]) \/
  (raises (fst run) /\ rows (trace (snd run)) = rows (trace w)).
Proof.
  intros run. subst run. rewrite run_utils_sweep_point_unfold.
  match goal with
  | |- context [RunUtils.run_simulation sim arguments ?a ?b ?vs ?pt w] =>
      pose proof (run_simulation_rows sim arguments a b vs pt w) as Hrows;
      destruct (RunUtils.run_simulation sim arguments a b vs pt w)
        as [[[]|e] w1]; simpl in Hrows;
      [|right; split; [exists e; reflexivity|exact Hrows]]
  end.
  match goal with
  | |- context [RunUtils.variable_cells ?vs] =>
      destruct (RunUtils.variable_cells vs) as [cells|e] eqn:Hc;
      [|right; split; [exists e; reflexivity|exact Hrows]]
  end.
  pose proof (get_statistic_world is_float (RunUtils.gem5_path arguments)
                (RunUtils.statistic p) w1) as Hw.
  destruct (RunUtils.get_statistic is_float (RunUtils.gem5_path arguments)
              (RunUtils.statistic p) w1) as [[stat|e] w2];
    simpl in Hw; subst w2;
    [|right; split; [exists e; reflexivity|exact Hrows]].
  left. split; [reflexivity|]. eexists. split.
  - exists cells, stat. split; [exact Hc|reflexivity].
  - simpl. rewrite rows_app, Hrows. reflexivity.
Qed.

(** The loops of a part of [run_utils.py] are one loop over the grid built on
    the first architecture. *)
Lemma run_utils_sweep_part_one_loop (p : RunUtils.Part) (first : str)
  (others : list str) (w : world) :
  RunUtils.architectures arguments = first :: others ->
  RunUtils.sweep_part sim is_float arguments p w
  = for_each (grid [first] (RunUtils.benchmarks arguments)
                (RunUtils.value (fst (RunUtils.variables p)))
                (RunUtils.value (snd (RunUtils.variables p))))
      (fun q => RunUtils.sweep_point sim is_float arguments p (fst q)
                  (fst (snd q)) (fst (snd (snd q))) (snd (snd (snd q)))) w.
Proof.
  intros Ha.
  unfold RunUtils.sweep_part, RunUtils.part_architectures,
    RunUtils.Part_ne_str, Py.index.
  unfold bind at 1. unfold lift. rewrite Ha. simpl nth_error.
  cbv beta iota. simpl bind_result. unfold grid.
  rewrite <- for_each_product. apply for_each_ext. intros a w0.
  rewrite <- (for_each_product _
                (fun q => RunUtils.sweep_point sim is_float arguments p a
                            (fst q) (fst (snd q)) (snd (snd q)))).
  apply for_each_ext. intros b w1.
  rewrite <- (for_each_product _
                (fun q => RunUtils.sweep_point sim is_float arguments p a b
                            (fst q) (snd q))).
  reflexivity.
Qed.

(** A part of [run_utils.py] swept with no architecture raises [IndexError]
    at once.  Otherwise, however the sweep of the part ends, the rows it has
    appended are the rows of the points it completed, a prefix of the grid
    first architecture x benchmarks x values x values in nested order; it
    returns only when the prefix is the whole grid. *)
Theorem run_utils_report_is_prefix_of_grid (p : RunUtils.Part) (w : world) :
  let run := RunUtils.sweep_part sim is_float arguments p w in
  (RunUtils.architectures arguments = [] -> run = (Raise IndexError, w)) /\
  (forall first others,
      RunUtils.architectures arguments = first :: others ->
      exists done rest new_rows,
        grid [first] (RunUtils.benchmarks arguments)
          (RunUtils.value (fst (RunUtils.variables p)))
          (RunUtils.value (snd (RunUtils.variables p))) = done ++ rest /\
        rows (trace (snd run)) = rows (trace w) ++ new_rows /\
        Forall2 (run_utils_row p) done new_rows /\
        (fst run = Return tt -> rest = []) /\
        (raises (fst run) -> rest <> [])).
Proof.
  intros run. subst run. split.
  - intros Ha.
    unfold RunUtils.sweep_part, RunUtils.part_architectures,
      RunUtils.Part_ne_str, Py.index.
    unfold bind at 1. unfold lift. rewrite Ha. reflexivity.
  - intros first others Ha.
    rewrite (run_utils_sweep_part_one_loop p w Ha).
    apply for_each_rows_prefix. intros [a [b [x y]]] w0.
    apply run_utils_sweep_point_rows.
Qed.

End RunUtilsReport.

(** A sweep of four points whose simulator is interrupted at the third: the
    report holds the rows of the first two points and the script exits. *)
Example aca_sweep_interrupted_at_third_point :
  let args :=
    {| Aca.architectures := [lit "X86"; lit "ARM"];
       Aca.benchmarks := [lit "crc"];
       Aca.icache_sizes := [lit "16kB"];
       Aca.dcache_sizes := [lit "16kB"; lit "32kB"];
       Aca.benchmark_size := lit "small";
       Aca.verbose := false;
       Aca.output := lit "./out/results.csv" |} in
  let run := Aca.sweep (interrupted_after 2 stats_complete) args empty_world in
  fst run = Raise SystemExit /\
  rows (trace (snd run))
  = [[CStr (lit "X86"); CStr (lit "crc"); CInt 16000; CInt 16000;
      CFloat (TrueDiv 5 2)];
     [CStr (lit "X86"); CStr (lit "crc"); CInt 16000; CInt 32000;
      CFloat (TrueDiv 5 2)]].
Proof. split; reflexivity. Qed.

(** * Default sizes *)

Lemma uint_digits_decimal (d : Decimal.uint) :
  Forall (fun c => Py.is_decimal c = true) (lit (NilEmpty.string_of_uint d)).
Proof.
  induction d; simpl; constructor; try reflexivity; assumption.
Qed.

Lemma uint_digits_value (d : Decimal.uint) :
  forall acc : Decimal.uint,
    fold_left (fun a c => (10 * a + Py.digit_value c)%Z)
      (lit (NilEmpty.string_of_uint d))
      (Z.of_N (DecimalPos.Unsigned.of_lu acc))
    = Z.of_N (DecimalPos.Unsigned.of_lu (Decimal.revapp d acc)).
Proof.
  induction d as [|d IH|d IH|d IH|d IH|d IH|d IH|d IH|d IH|d IH|d IH];
    intros acc; [reflexivity| | | | | | | | | |];
    cbn [NilEmpty.string_of_uint lit list_ascii_of_string fold_left
         Decimal.revapp];
    rewrite <- IH; f_equal;
    cbn [DecimalPos.Unsigned.of_lu]; unfold Py.digit_value;
    match goal with
    | |- context [Z.of_N (Py.code ?c - 48)] =>
        let v := eval vm_compute in (Z.of_N (Py.code c - 48)) in
        change (Z.of_N (Py.code c - 48)) with v
    end; lia.
Qed.

(** [str] of a natural number is its decimal digits, which [int] reads
    back. *)
Lemma str_of_Z_decimal (n : Z) :
  (0 <= n)%Z ->
  decimal (str_of_Z n) /\ Py.decimal_value (str_of_Z n) = n.
Proof.
  intros Hn. destruct n as [|p|p]; [split; [split|]; try discriminate;
                                    try reflexivity; repeat constructor
                                   | | lia].
  unfold str_of_Z, Z.to_int, NilZero.string_of_int, NilZero.string_of_uint.
  pose proof (DecimalPos.Unsigned.to_uint_nonnil p) as Hnil.
  pose proof (DecimalPos.Unsigned.of_to p) as Hof.
  rewrite DecimalPos.Unsigned.of_uint_alt in Hof. unfold Decimal.rev in Hof.
  destruct (Pos.to_uint p) as [|d|d|d|d|d|d|d|d|d|d] eqn:E; [congruence| ..];
    (split;
     [ split; [discriminate|apply uint_digits_decimal]
     | unfold Py.decimal_value;
       change 0%Z with (Z.of_N (DecimalPos.Unsigned.of_lu Decimal.Nil));
       rewrite uint_digits_value, Hof; reflexivity ]).
Qed.

Lemma power_digits (i : nat) :
  decimal (str_of_Z (2 ^ Z.of_nat i)) /\
  Py.decimal_value (str_of_Z (2 ^ Z.of_nat i)) = (2 ^ Z.of_nat i)%Z.
Proof. apply str_of_Z_decimal. apply Z.pow_nonneg. lia. Qed.

Lemma size_pattern_complete (ds u : str) :
  decimal ds -> u = [] \/ u = ["k"%char] \/ u = ["M"%char] ->
  Re.match_anchored RunUtils.size_pattern (ds ++ u ++ ["B"%char]) = true.
Proof.
  intros Hds Hu. apply match_anchored_cases. left. apply fullmatch_lang.
  unfold RunUtils.size_pattern.
  constructor; [apply lang_plus_decimal; assumption|].
  constructor; [|apply lang_chr; reflexivity].
  apply lang_opt. rewrite !lang_alt, !lang_chr. tauto.
Qed.

(** In [run_utils.py] every size of the form [f"{2**i}kB"] converts to
    [2 ** (i + 10)] and passes the checks of [run_simulation]; the default
    instruction-cache and data-cache sizes are of that form, so a run with
    the default sizes is never refused for its sizes. *)
Theorem power_of_two_sizes_pass_validation :
  (forall (i : nat) (argument name : str),
      RunUtils.size_string_to_int (power_size "kB" i)
      = Return (Some (2 ^ Z.of_nat (i + 10))%Z) /\
      RunUtils.check_variable (byte_variable argument name (power_size "kB" i))
      = Return tt) /\
  (forall argument name,
      Forall (fun size =>
                RunUtils.check_variable (byte_variable argument name size)
                = Return tt)
             (run_utils_default_icache_sizes
              ++ run_utils_default_dcache_sizes)).
Proof.
  assert (Hgen : forall (i : nat) (argument name : str),
             RunUtils.size_string_to_int (power_size "kB" i)
             = Return (Some (2 ^ Z.of_nat (i + 10))%Z) /\
             RunUtils.check_variable
               (byte_variable argument name (power_size "kB" i)) = Return tt).
  { intros i argument name. destruct (power_digits i) as [Hd Hv].
    assert (Hs : RunUtils.size_string_to_int (power_size "kB" i)
                 = Return (Some (2 ^ Z.of_nat (i + 10))%Z)).
    { unfold power_size.
      destruct (run_utils_size_string_to_int_spec Hd) as (-> & _ & _).
      rewrite Hv, Nat2Z.inj_add, Z.pow_add_r by lia. reflexivity. }
    split; [exact Hs|].
    unfold RunUtils.check_variable, byte_variable. cbn [RunUtils.units
      RunUtils.value RunUtils.name RunUtils.units_is].
    rewrite str_eqb_refl.
    unfold power_size in *. cbn [lit list_ascii_of_string] in *.
    assert (Hm := size_pattern_complete (u := ["k"%char]) Hd
                    (or_intror (or_introl eq_refl))).
    cbn [app] in Hm. rewrite Hm.
    cbn [negb]. rewrite Hs. cbn [bind_result].
    assert (Hp : power_of_two (2 ^ Z.of_nat (i + 10))) by (eexists; eauto).
    apply power_of_two_land_pred in Hp as [Hz Hl].
    apply Z.eqb_neq in Hz. apply Z.eqb_eq in Hl. rewrite Hz, Hl.
    reflexivity. }
  split; [exact Hgen|].
  intros argument name. apply Forall_forall. intros size Hin.
  unfold run_utils_default_icache_sizes, run_utils_default_dcache_sizes in Hin.
  rewrite <- map_app in Hin. apply in_map_iff in Hin as (i & <- & _).
  apply Hgen.
Qed.

Lemma upper_decimal (ds : str) :
  Forall (fun c => Py.is_decimal c = true) ds -> Py.upper ds = ds.
Proof.
  induction 1 as [|c ds Hc _ IH]; [reflexivity|].
  unfold Py.upper in *. simpl. rewrite IH.
  destruct c as [[] [] [] [] [] [] [] []]; try discriminate Hc; reflexivity.
Qed.

Lemma upper_app (s t : str) : Py.upper (s ++ t) = Py.upper s ++ Py.upper t.
Proof. unfold Py.upper. apply flat_map_app. Qed.

Lemma cache_size_pattern_complete (ds u : str) :
  decimal ds -> u = [] \/ u = ["K"%char] \/ u = ["M"%char] ->
  Re.match_anchored Aca.cache_size_pattern (ds ++ u ++ ["B"%char]) = true.
Proof.
  intros Hds Hu. apply match_anchored_cases. left. apply fullmatch_lang.
  unfold Aca.cache_size_pattern.
  constructor; [apply lang_plus_decimal; assumption|].
  constructor; [|apply lang_chr; reflexivity].
  apply lang_opt. rewrite !lang_alt, !lang_chr. tauto.
Qed.

Lemma aca_accepts (s : str) :
  Re.match_anchored Aca.cache_size_pattern (Py.upper s) = true ->
  Aca.check_cache_sizes s s = Return tt.
Proof. unfold Aca.check_cache_sizes. intros ->. reflexivity. Qed.

Lemma aca_kilobyte_upper_case (ds : str) :
  decimal ds ->
  Aca.check_cache_sizes (ds ++ lit "KB") (ds ++ lit "KB") = Return tt /\
  Aca.size_string_to_int (ds ++ lit "KB") = Return None.
Proof.
  intros Hd. split.
  - apply aca_accepts. rewrite upper_app, upper_decimal by apply Hd.
    exact (cache_size_pattern_complete (u := ["K"%char]) Hd
             (or_intror (or_introl eq_refl))).
  - unfold Aca.size_string_to_int. cbn [lit list_ascii_of_string].
    rewrite drop_last_1_of_2, drop_last_2.
    rewrite (isdigit_app_false ds "K" []) by reflexivity.
    rewrite (decimal_isdigit Hd), !endswith_2. reflexivity.
Qed.

Lemma aca_plain_bytes (ds : str) :
  decimal ds ->
  Aca.check_cache_sizes (ds ++ lit "B") (ds ++ lit "B") = Return tt.
Proof.
  intros Hd. apply aca_accepts. rewrite upper_app, upper_decimal by apply Hd.
  exact (cache_size_pattern_complete (u := []) Hd (or_introl eq_refl)).
Qed.

(** In [aca.py] a size spelt with an upper-case [K], as every default size
    above 512 bytes is, is accepted by [run_benchmark] but is not a form
    [size_string_to_int] converts: the conversion returns [None].  So every
    default size is accepted, and the nine default sizes in [KB] put [None]
    in the size columns of the report. *)
Theorem aca_default_kilobyte_sizes_convert_to_None :
  (forall ds,
      decimal ds ->
      Aca.check_cache_sizes (ds ++ lit "KB") (ds ++ lit "KB") = Return tt /\
      Aca.size_string_to_int (ds ++ lit "KB") = Return None) /\
  Forall (fun size => Aca.check_cache_sizes size size = Return tt)
    aca_default_cache_sizes /\
  Forall (fun size => Aca.size_string_to_int size = Return None)
    (map (power_size "KB") (range 0 9)).
Proof.
  split; [exact aca_kilobyte_upper_case|]. split.
  - unfold aca_default_cache_sizes. apply Forall_app. split;
      apply Forall_forall; intros size Hin;
      apply in_map_iff in Hin as (i & <- & _); unfold power_size.
    + apply aca_plain_bytes. apply power_digits.
    + apply aca_kilobyte_upper_case. apply power_digits.
  - apply Forall_forall. intros size Hin.
    apply in_map_iff in Hin as (i & <- & _). unfold power_size.
    apply aca_kilobyte_upper_case. apply power_digits.
Qed.

Lemma aca_default_kilobyte_sizes_witness :
  Aca.check_cache_sizes (lit "256KB") (lit "256KB") = Return tt /\
  Aca.size_string_to_int (lit "256KB") = Return None.
Proof.
  apply (proj1 aca_default_kilobyte_sizes_convert_to_None (lit "256")).
  split; [discriminate|repeat constructor].
Defined.

Example aca_default_cache_sizes_value :
  aca_default_cache_sizes
  = map lit ["128B"; "256B"; "512B"; "1KB"; "2KB"; "4KB"; "8KB"; "16KB";
             "32KB"; "64KB"; "128KB"; "256KB"]%string.
Proof. reflexivity. Qed.

Example run_utils_default_sizes_value :
  run_utils_default_icache_sizes
  = map lit ["2kB"; "4kB"; "8kB"; "16kB"; "32kB"]%string /\
  run_utils_default_dcache_sizes
  = map lit ["2kB"; "4kB"; "8kB"; "16kB"; "32kB"; "64kB"]%string.
Proof. split; reflexivity. Qed.

(** * When the conversion yields a number *)

Lemma isdigit_char_not_space (c : ascii) :
  Py.isdigit_char c = true -> Py.int_space c = false.
Proof.
  destruct c as [[] [] [] [] [] [] [] []]; intros H; try discriminate H;
    reflexivity.
Qed.

Lemma strip_int_no_space (s : str) :
  Forall (fun c => Py.int_space c = false) s -> Py.strip_int s = s.
Proof.
  intros H. unfold Py.strip_int.
  assert (Hl : forall t, Forall (fun c => Py.int_space c = false) t ->
                         Py.lstrip_int t = t).
  { intros t Ht. destruct Ht as [|c t Hc _]; [reflexivity|].
    simpl. rewrite Hc. reflexivity. }
  rewrite (Hl s H), (Hl (rev s)) by (apply Forall_rev; exact H).
  apply rev_involutive.
Qed.

Lemma int_digits_chars (s : str) :
  forall acc b n,
    Py.int_digits acc b s = Some n ->
    Forall (fun c => Py.is_decimal c = true \/ c = "_"%char) s.
Proof.
  induction s as [|c s IH]; intros acc b n H; [constructor|].
  cbn [Py.int_digits] in H. destruct (Py.is_decimal c) eqn:Hc.
  - constructor; [auto|eauto].
  - destruct (Ascii.eqb c "_") eqn:Hu; [|discriminate].
    destruct b; [|discriminate].
    apply Ascii.eqb_eq in Hu. constructor; [auto|eauto].
Qed.

(** Digits that [int] can read are decimal digits. *)
Lemma int_isdigit_decimal (x : str) (n : Z) :
  Py.isdigit x = true -> Py.int x = Return n -> decimal x.
Proof.
  intros Hd Hi. pose proof (isdigit_forall _ Hd) as Hall.
  assert (Hne : x <> []) by (intros ->; discriminate).
  split; [exact Hne|].
  unfold Py.int in Hi. rewrite strip_int_no_space in Hi
    by (eapply Forall_impl; [|exact Hall]; apply isdigit_char_not_space).
  destruct x as [|c body]; [congruence|].
  assert (Hc : Py.isdigit_char c = true) by (inversion Hall; assumption).
  assert (Hplain :
            match c :: body with
            | "-"%char :: r => option_map Z.opp (Py.int_digits 0 false r)
            | "+"%char :: r => Py.int_digits 0 false r
            | _ => Py.int_digits 0 false (c :: body)
            end = Py.int_digits 0 false (c :: body)).
  { destruct c as [[] [] [] [] [] [] [] []];
      try discriminate Hc; reflexivity. }
  rewrite Hplain in Hi.
  destruct (Py.int_digits 0 false (c :: body)) as [z|] eqn:Ez;
    [|discriminate].
  apply int_digits_chars in Ez. rewrite Forall_forall in *.
  intros d Hin. destruct (Ez d Hin) as [H | ->]; [exact H|].
  specialize (Hall _ Hin). discriminate.
Qed.

Lemma size_pattern_fullmatch_complete (ds u : str) :
  decimal ds -> u = [] \/ u = ["k"%char] \/ u = ["M"%char] ->
  Re.fullmatch RunUtils.size_pattern (ds ++ u ++ ["B"%char]) = true.
Proof.
  intros Hds Hu. apply fullmatch_lang. unfold RunUtils.size_pattern.
  constructor; [apply lang_plus_decimal; assumption|].
  constructor; [|apply lang_chr; reflexivity].
  apply lang_opt. rewrite !lang_alt, !lang_chr. tauto.
Qed.

Ltac converted_shape H Hd :=
  match type of H with
  | context [Py.int ?x] =>
      let k := fresh "k" in
      let Ek := fresh "Ek" in
      destruct (Py.int x) as [k|] eqn:Ek; [|discriminate];
      pose proof (int_isdigit_decimal _ Hd Ek)
  end.

(** The strings a conversion turns into a number are those of the forms
    digits + [B], digits + [kB], digits + [MB], in both scripts. *)
Lemma converted_is_sized (s : str) (n : Z) :
  Aca.size_string_to_int s = Return (Some n) \/
  RunUtils.size_string_to_int s = Return (Some n) ->
  exists ds u,
    decimal ds /\ (u = [] \/ u = ["k"%char] \/ u = ["M"%char]) /\
    s = ds ++ u ++ ["B"%char].
Proof.
  unfold Aca.size_string_to_int, RunUtils.size_string_to_int.
  intros [H | H];
    (destruct (Py.isdigit (Py.drop_last 1 s) && Py.endswith s (lit "B"))
       eqn:E1;
     [ apply andb_prop in E1 as [Hd He];
       apply endswith_inv in He as [r ->];
       change (lit "B") with ["B"%char] in *; rewrite drop_last_1 in *;
       converted_shape H Hd; exists r, []; auto
     | destruct (Py.isdigit (Py.drop_last 2 s)) eqn:Hd; [|discriminate];
       destruct (Py.endswith s (lit "kB")) eqn:Hk;
       [ apply endswith_inv in Hk as [r ->];
         change (lit "kB") with ["k"%char; "B"%char] in *;
         rewrite drop_last_2 in *;
         converted_shape H Hd; exists r, ["k"%char]; auto
       | destruct (Py.endswith s (lit "MB")) eqn:Hm; [|discriminate];
         apply endswith_inv in Hm as [r ->];
         change (lit "MB") with ["M"%char; "B"%char] in *;
         rewrite drop_last_2 in *;
         converted_shape H Hd; exists r, ["M"%char]; auto ] ]).
Qed.

(** In both scripts [size_string_to_int] returns a number on exactly the
    strings that match [\d+(k|M)?B] from end to end, the pattern of
    [run_utils.py]: on every other string it returns [None] or raises.  The
    strings are those of characters up to U+00FF, where [\d] is a digit from
    [0] to [9]. *)
Theorem size_string_to_int_number_iff_pattern (s : str) :
  ((exists n, RunUtils.size_string_to_int s = Return (Some n)) <->
   Re.fullmatch RunUtils.size_pattern s = true) /\
  ((exists n, Aca.size_string_to_int s = Return (Some n)) <->
   Re.fullmatch RunUtils.size_pattern s = true).
Proof.
  assert (Hshape : forall ds u,
             decimal ds -> u = [] \/ u = ["k"%char] \/ u = ["M"%char] ->
             (exists n, RunUtils.size_string_to_int (ds ++ u ++ ["B"%char])
                        = Return (Some n)) /\
             (exists n, Aca.size_string_to_int (ds ++ u ++ ["B"%char])
                        = Return (Some n))).
  { intros ds u Hd Hu.
    destruct (run_utils_size_string_to_int_spec Hd) as (Rk & Rm & Rb).
    destruct (aca_size_string_to_int_spec Hd) as (Ak & Am & Ab).
    destruct Hu as [-> | [-> | ->]]; split; eexists; eassumption. }
  split; split.
  - intros [n H].
    destruct (converted_is_sized s (or_intror H)) as (ds & u & Hd & Hu & ->).
    apply size_pattern_fullmatch_complete; assumption.
  - intros H.
    apply size_pattern_fullmatch_shape in H as (ds & u & Hd & Hu & ->).
    apply Hshape; assumption.
  - intros [n H].
    destruct (converted_is_sized s (or_introl H)) as (ds & u & Hd & Hu & ->).
    apply size_pattern_fullmatch_complete; assumption.
  - intros H.
    apply size_pattern_fullmatch_shape in H as (ds & u & Hd & Hu & ->).
    apply Hshape; assumption.
Qed.

(** * The two CPI parsers, side by side *)

Section ParsersCompared.

Variable is_float : str -> bool.

Lemma cpi_loop_end_raises (i : option Z) : raises (Aca.cpi_loop [] i None).
Proof.
  destruct i as [n|]; simpl; [|eexists; reflexivity].
  destruct (n =? 0)%Z; eexists; reflexivity.
Qed.

Lemma cpi_loops_compared (lines : list str) :
  forall i,
    (readable lines /\
     RunUtils.get_statistic_loop is_float CPI lines i None = Return None /\
     raises (Aca.cpi_loop lines i None)) \/
    (~ readable lines /\
     RunUtils.get_statistic_loop is_float CPI lines i None
     = Aca.cpi_loop lines i None).
Proof.
  induction lines as [|line rest IH]; intros i.
  - left. split; [constructor|]. split; [reflexivity|].
    apply cpi_loop_end_raises.
  - rewrite statistic_loop_cpi_cons.
    destruct (is_insts line) eqn:Hi; [|destruct (is_cycles line) eqn:Hc].
    + rewrite cpi_loop_insts by assumption.
      destruct (field_int line) as [n|e] eqn:Hn; simpl.
      * destruct (IH (Some n)) as [(Hr & Hru & Haca) | (Hr & E)].
        -- left. split; [|auto]. constructor; [|exact Hr].
           split; [apply insts_not_cycles; assumption|]. intros _. eauto.
        -- right. split; [|exact E]. intros H. inversion H; auto.
      * right. split; [|reflexivity]. intros H. inversion H as [|? ? [_ Hok] _].
        destruct (Hok Hi) as [n Hn']. congruence.
    + rewrite cpi_loop_cycles by assumption. right. split; [|reflexivity].
      intros H. inversion H as [|? ? [Hc' _] _]. congruence.
    + rewrite cpi_loop_other by assumption.
      destruct (IH i) as [(Hr & Hru & Haca) | (Hr & E)].
      * left. split; [|auto]. constructor; [|exact Hr].
        split; [assumption|]. intros Hi'. congruence.
      * right. split; [|exact E]. intros H. inversion H; auto.
Qed.

(** On a statistics file that is not empty the CPI parser of [run_utils.py]
    does what [cpi] of [aca.py] does, except when the loop reaches the end of
    the file (no [numCycles] line, every [simInsts] line carrying an
    integer): there [cpi] raises and [get_statistic] returns [None]. *)
Theorem cpi_parsers_differ_only_at_end_of_file (gem5_path : str) (w : world)
  (text : str) :
  fs w Aca.stats_path = Some text ->
  fs w (RunUtils.stats_path gem5_path) = Some text ->
  text <> [] ->
  (readable (readlines text) ->
   fst (RunUtils.get_statistic is_float gem5_path CPI w) = Return None /\
   raises (fst (Aca.cpi w))) /\
  (~ readable (readlines text) ->
   fst (RunUtils.get_statistic is_float gem5_path CPI w) = fst (Aca.cpi w)).
Proof.
  intros Ha Hr Hne.
  rewrite (cpi_reads _ Ha), (get_statistic_reads is_float _ _ _ Hr).
  cbn [fst]. rewrite cpi_of_text_loop, statistic_of_text_loop by assumption.
  destruct (cpi_loops_compared (readlines text) None)
    as [(Hrd & Hru & Haca) | (Hrd & E)]; split; intros H;
    try contradiction; auto.
Qed.

End ParsersCompared.

Lemma cpi_parsers_differ_only_at_end_of_file_witness :
  fst (RunUtils.get_statistic any_float (lit "gem5") CPI
         (world_with stats_complete))
  = fst (Aca.cpi (world_with stats_complete)).
Proof.
  apply (proj2 (@cpi_parsers_differ_only_at_end_of_file any_float (lit "gem5")
                  (world_with stats_complete) stats_complete
                  eq_refl eq_refl ltac:(discriminate))).
  intros H. unfold readable in H.
  apply Forall_inv_tail in H. apply Forall_inv_tail in H.
  apply Forall_inv in H. destruct H as [Hc _]. discriminate Hc.
Defined.

(** * [setup_parts] *)

Section SetupParts.

Variable openable : str -> bool.
Variable arguments : Setup.Options.

Lemma choose_known (name : str)
  (bound : option (RunUtils.Variable_ (list RunUtils.pyvalue)
                   * RunUtils.Variable_ (list RunUtils.pyvalue) * str)) :
  name = lit "a" \/ name = lit "b" ->
  Setup.choose arguments name bound
  = Some (RunUtils.variables (known_part arguments name),
          RunUtils.statistic (known_part arguments name)).
Proof. intros [-> | ->]; reflexivity. Qed.

Lemma setup_parts_loop_known (names : list str) :
  Forall (fun n => n = lit "a" \/ n = lit "b") names ->
  Forall (fun n => openable (Setup.part_path arguments n) = true) names ->
  forall bound built log,
    Setup.setup_parts_loop openable arguments names bound built log
    = (Return (built ++ map (known_part arguments) names),
       log ++ flat_map (part_file_events arguments) names).
Proof.
  induction names as [|n names IH]; intros Hk Ho bound built log.
  - simpl. rewrite !app_nil_r. reflexivity.
  - inversion Hk as [|? ? Hn Hk']; inversion Ho as [|? ? Hop Ho']; subst.
    cbn [Setup.setup_parts_loop]. rewrite Hop. cbn [negb].
    rewrite (choose_known bound Hn). rewrite IH by assumption.
    cbn [map flat_map]. rewrite <- !app_assoc. f_equal.
    unfold part_file_events. cbn [known_part RunUtils.output_file].
    destruct (Setup.append arguments); rewrite <- ?app_assoc; reflexivity.
Qed.

(** Asked for parts among [a] and [b] in a directory where the reports can
    be opened, [setup_parts] returns one part for each name, in order: part
    [a] sweeps the two cache sizes, in bytes, and reports the CPI; part [b]
    sweeps associativity and cache-line size, without unit, and reports the
    miss rate.  The report of each part is opened once, and its header line
    is written exactly when the run does not append. *)
Theorem setup_parts_builds_known_parts :
  Forall (fun n => n = lit "a" \/ n = lit "b") (Setup.parts arguments) ->
  Forall (fun n => openable (Setup.part_path arguments n) = true)
    (Setup.parts arguments) ->
  Setup.setup_parts openable arguments
  = (Return (map (known_part arguments) (Setup.parts arguments)),
     flat_map (part_file_events arguments) (Setup.parts arguments)).
Proof.
  intros Hk Ho. unfold Setup.setup_parts.
  rewrite setup_parts_loop_known by assumption. reflexivity.
Qed.

(** A name that is neither [a] nor [b], met first, leaves [variables]
    unbound: its report has been opened, then [UnboundLocalError] is
    raised. *)
Lemma setup_parts_unknown_first (name : str) (rest : list str) :
  Setup.parts arguments = name :: rest ->
  Py.str_eqb name (lit "a") = false ->
  Py.str_eqb name (lit "b") = false ->
  openable (Setup.part_path arguments name) = true ->
  Setup.setup_parts openable arguments
  = (Raise (UnboundLocalError (lit "variables")),
     [Setup.Opened (Setup.part_path arguments name) (Setup.append arguments)]).
Proof.
  intros Hp Ha Hb Ho. unfold Setup.setup_parts. rewrite Hp.
  cbn [Setup.setup_parts_loop]. rewrite Ho. unfold Setup.choose.
  rewrite Ha, Hb. reflexivity.
Qed.

End SetupParts.

Lemma setup_parts_builds_known_parts_witness :
  Setup.setup_parts (fun _ => true) (sample_options ["a"; "b"]%string false)
  = (Return (map (known_part (sample_options ["a"; "b"]%string false))
               [lit "a"; lit "b"]),
     flat_map (part_file_events (sample_options ["a"; "b"]%string false))
       [lit "a"; lit "b"]).
Proof.
  apply (@setup_parts_builds_known_parts (fun _ => true)
           (sample_options ["a"; "b"]%string false)).
  - constructor; [left; reflexivity|].
    constructor; [right; reflexivity|constructor].
  - repeat constructor.
Defined.

Example setup_parts_headers :
  snd (Setup.setup_parts (fun _ => true) (sample_options ["a"; "b"]%string false))
  = [Setup.Opened (lit "out/results/part_a.csv") false;
     Setup.Written (lit "out/results/part_a.csv")
       (lit "Architecture,Benchmark,ICache Size(B),DCache Size(B),Cycles Per Instruction"
        ++ [Re.newline]);
     Setup.Opened (lit "out/results/part_b.csv") false;
     Setup.Written (lit "out/results/part_b.csv")
       (lit "Architecture,Benchmark,DCache Associativity,Cacheline Size,Overall DCache Miss Rate"
        ++ [Re.newline])].
Proof. reflexivity. Qed.

(** After a known part, an unknown name silently reuses the variables and the
    statistic of the part before it. *)
Example setup_parts_unknown_after_known :
  option_map (map RunUtils.statistic)
    (match fst (Setup.setup_parts (fun _ => true)
                  (sample_options ["a"; "c"]%string true)) with
     | Return built => Some built
     | Raise _ => None
     end)
  = Some [CPI; CPI].
Proof. reflexivity. Qed.

(** * The power-of-two check, both ways *)

(** For a byte-unit value that the pattern accepts and the conversion turns
    into [n], the checks of [run_simulation] pass exactly when [n] is a power
    of two: the test [n != 0 and n & (n - 1) == 0] refuses nothing else. *)
Theorem check_variable_iff_power_of_two
  (variable : RunUtils.Variable_ RunUtils.pyvalue) (text : str) (n : Z) :
  RunUtils.units_is "B" (RunUtils.units variable) = true ->
  RunUtils.value variable = RunUtils.VStr text ->
  Re.match_anchored RunUtils.size_pattern text = true ->
  RunUtils.size_string_to_int text = Return (Some n) ->
  (RunUtils.check_variable variable = Return tt <-> power_of_two n).
Proof.
  intros Hu Hv Hm Hs. split.
  - intros Hok.
    destruct (check_variable_passes _ Hok Hu) as (text' & n' & Hv' & _ & Hs' & Hp).
    congruence.
  - intros Hp. apply power_of_two_land_pred in Hp as [Hz Hl].
    apply Z.eqb_neq in Hz. apply Z.eqb_eq in Hl.
    unfold RunUtils.check_variable. rewrite Hu, Hv, Hm. cbn [negb].
    rewrite Hs. cbn [bind_result]. rewrite Hz, Hl. reflexivity.
Qed.

Lemma check_variable_iff_power_of_two_witness :
  RunUtils.check_variable (icache_variable "16kB") = Return tt <->
  power_of_two 16384.
Proof.
  apply (@check_variable_iff_power_of_two (icache_variable "16kB")
           (lit "16kB") 16384%Z); reflexivity.
Defined.

(** * Further instances *)

Lemma run_utils_report_is_prefix_of_grid_witness :
  exists done rest new_rows,
    grid [lit "X86"] (RunUtils.benchmarks sample_namespace)
      [RunUtils.VInt 1; RunUtils.VInt 2] [RunUtils.VInt 64] = done ++ rest /\
    rows (trace (snd (RunUtils.sweep_part (interrupted_after 1 stats_complete)
                        any_float sample_namespace (part_b [1; 2]%Z [64%Z])
                        empty_world)))
    = rows (trace empty_world) ++ new_rows /\
    Forall2 (run_utils_row (part_b [1; 2]%Z [64%Z])) done new_rows /\
    (fst (RunUtils.sweep_part (interrupted_after 1 stats_complete)
            any_float sample_namespace (part_b [1; 2]%Z [64%Z]) empty_world)
     = Return tt -> rest = []) /\
    (raises (fst (RunUtils.sweep_part (interrupted_after 1 stats_complete)
                    any_float sample_namespace (part_b [1; 2]%Z [64%Z])
                    empty_world)) -> rest <> []).
Proof.
  apply (proj2 (@run_utils_report_is_prefix_of_grid
                  (interrupted_after 1 stats_complete) any_float
                  sample_namespace (part_b [1; 2]%Z [64%Z]) empty_world)
           (lit "X86") [lit "ARM"]).
  reflexivity.
Defined.

Lemma aca_cpi_missing_lines_raises_witness :
  raises (fst (Aca.cpi (world_with stats_without_labels))).
Proof.
  apply (@aca_cpi_missing_lines_raises (world_with stats_without_labels)
           stats_without_labels).
  - reflexivity.
  - left. repeat constructor. discriminate.
Defined.

Lemma run_benchmark_same_but_codes_witness :
  Aca.run_benchmark (fixed_simulator 1 stats_complete) sample_args
    (lit "X86") (lit "crc") (lit "16kB") (lit "16kB") empty_world
  = Aca.run_benchmark (fixed_simulator 0 stats_complete) sample_args
      (lit "X86") (lit "crc") (lit "16kB") (lit "16kB") empty_world.
Proof.
  apply (@run_benchmark_same_but_codes (fixed_simulator 1 stats_complete)
           (fixed_simulator 0 stats_complete) sample_args).
  intros history disk command. simpl. reflexivity.
Defined.
